(** * The workflow orchestration engine of the DataRush master agent

    A shallow embedding of
    [agents/master_agent/agent.py] (class [MasterAgent]) and
    [agents/master_agent/enhanced_workflows.py] (class [EnhancedWorkflows]).

    Conventions.
    - A Python [str] is a Rocq [string] holding the UTF-8 encoding of the
      text.  UTF-8 is self-synchronising, so the substring test [a in b]
      on code points and the one on encoded bytes agree, and so do
      concatenation and [join].
    - A Python [dict] is an association list in insertion order
      (Python 3.7 and later iterate a dict in that order); assigning to a
      key that is present keeps the key's position.
    - Exceptions are values of [Exn]; a computation that can raise returns
      an [Outcome].  Methods that read [self] or print run in the monad
      [Py], which threads the [World]: the two singleton objects, the
      lines printed so far and the clock. *)

From Stdlib Require Import String Ascii List Bool Arith NArith Lia QArith Permutation Sorted.
Import ListNotations.
Local Open Scope string_scope.
Local Open Scope list_scope.
Local Open Scope nat_scope.
Set Warnings "-register-all".

(** ** Strings *)

(** The line feed, the separator of ["\n".join(...)]. *)
Definition nl : string := String (ascii_of_nat 10) EmptyString.

(** [needle in hay] on Python strings. *)
Fixpoint contains (needle hay : string) : bool :=
  prefix needle hay ||
  match hay with
  | EmptyString => false
  | String _ rest => contains needle rest
  end.

(** [any(keyword in text for keyword in keywords)] *)
Definition any_in (keywords : list string) (text : string) : bool :=
  existsb (fun keyword => contains keyword text) keywords.

(** [x in xs] on a list of strings. *)
Definition in_list (x : string) (xs : list string) : bool :=
  existsb (String.eqb x) xs.

(** [separator.join(parts)] *)
Definition join (separator : string) (parts : list string) : string :=
  String.concat separator parts.

(** [s.replace(old, new)] for one-character [old] and [new]. *)
Fixpoint str_replace (old new : ascii) (s : string) : string :=
  match s with
  | EmptyString => EmptyString
  | String c rest =>
      String (if Ascii.eqb c old then new else c) (str_replace old new rest)
  end.

(** [str.lower], [str.title] and [str.isprintable] are built-ins of the
    Python runtime that read the Unicode character database; the
    development is parametric in them.  [str_isprintable] is only ever
    asked about one character outside ASCII (by [repr]). *)
Class StrBuiltins : Type := {
  str_lower : string -> string;
  str_title : string -> string;
  str_isprintable : string -> bool
}.

(** An instance for examples: [latin1_lower] is exact on text whose cased
    characters lie in Basic Latin and the Latin-1 Supplement,
    [ascii_title_from false] on ASCII text, [latin1_isprintable] on the
    characters up to U+00FF (of these U+0080..U+009F, the no-break space
    U+00A0 and the soft hyphen U+00AD are not printable). *)
Definition is_ascii_upper (n : nat) : bool := (65 <=? n) && (n <=? 90).
Definition is_ascii_lower (n : nat) : bool := (97 <=? n) && (n <=? 122).

Fixpoint latin1_lower (s : string) : string :=
  match s with
  | EmptyString => EmptyString
  | String c rest =>
      let n := nat_of_ascii c in
      if is_ascii_upper n then String (ascii_of_nat (n + 32)) (latin1_lower rest)
      else if n =? 195 then
        (* lead byte of U+00C0..U+00FF; U+00C0..U+00DE but U+00D7 are upper case *)
        match rest with
        | String c2 rest2 =>
            let m := nat_of_ascii c2 in
            if (128 <=? m) && (m <=? 158) && negb (m =? 151)
            then String c (String (ascii_of_nat (m + 32)) (latin1_lower rest2))
            else String c (String c2 (latin1_lower rest2))
        | EmptyString => String c EmptyString
        end
      else String c (latin1_lower rest)
  end.

Fixpoint ascii_title_from (inside_word : bool) (s : string) : string :=
  match s with
  | EmptyString => EmptyString
  | String c rest =>
      let n := nat_of_ascii c in
      if is_ascii_upper n then
        String (if inside_word then ascii_of_nat (n + 32) else c) (ascii_title_from true rest)
      else if is_ascii_lower n then
        String (if inside_word then c else ascii_of_nat (n - 32)) (ascii_title_from true rest)
      else String c (ascii_title_from (128 <=? n) rest)
  end.

Definition latin1_isprintable (character : string) : bool :=
  match character with
  | String c (String c2 EmptyString) =>
      let m := nat_of_ascii c2 in
      negb ((nat_of_ascii c =? 194) && ((m <=? 160) || (m =? 173)))
  | _ => true
  end.

Definition latin1_builtins : StrBuiltins :=
  {| str_lower := latin1_lower; str_title := ascii_title_from false;
     str_isprintable := latin1_isprintable |}.

(** The characters of a string: a byte that is not a continuation byte
    of UTF-8 starts a character. *)
Definition is_continuation (c : ascii) : bool :=
  let n := nat_of_ascii c in (128 <=? n) && (n <? 192).

Fixpoint characters (s : string) : list string :=
  match s with
  | EmptyString => []
  | String c rest =>
      match rest with
      | String c2 _ =>
          if is_continuation c2 then
            match characters rest with
            | first :: others => String c first :: others
            | [] => [String c EmptyString]
            end
          else String c EmptyString :: characters rest
      | EmptyString => [String c EmptyString]
      end
  end.

(** The code point of a character, from its UTF-8 bytes. *)
Definition code_point (character : string) : N :=
  match map N_of_ascii (list_ascii_of_string character) with
  | [a] => a
  | [a; b] => ((a - 192) * 64 + (b - 128))%N
  | [a; b; c] => ((a - 224) * 4096 + (b - 128) * 64 + (c - 128))%N
  | [a; b; c; d] =>
      ((a - 240) * 262144 + (b - 128) * 4096 + (c - 128) * 64 + (d - 128))%N
  | _ => 0%N
  end.

(** [n] written with [digits] lower-case hexadecimal digits. *)
Definition hex_digit (n : N) : ascii :=
  ascii_of_N (if n <? 10 then 48 + n else 87 + n)%N.

Fixpoint hex (digits : nat) (n : N) : string :=
  match digits with
  | O => EmptyString
  | S fewer => hex fewer (n / 16)%N ++ String (hex_digit (n mod 16)%N) EmptyString
  end.

Definition single_quote : string := String (ascii_of_nat 39) EmptyString.
Definition double_quote : string := String (ascii_of_nat 34) EmptyString.
Definition backslash : string := String (ascii_of_nat 92) EmptyString.

(** [repr(s)] of a string.  The text is put between apostrophes, or
    between double quotes when it has an apostrophe and no double quote;
    the quote character and the backslash are escaped with a backslash,
    tab, line feed and carriage return are written [\t], [\n], [\r], and
    every other character that is not printable is written as a
    hexadecimal escape of its code point. *)
Definition escaped {builtins : StrBuiltins} (quote character : string) : string :=
  let n := code_point character in
  if String.eqb character quote || (n =? 92)%N then backslash ++ character
  else if (n =? 9)%N then backslash ++ "t"
  else if (n =? 10)%N then backslash ++ "n"
  else if (n =? 13)%N then backslash ++ "r"
  else if (n <? 32)%N || (n =? 127)%N then backslash ++ "x" ++ hex 2 n
  else if (n <? 127)%N then character
  else if str_isprintable character then character
  else if (n <=? 255)%N then backslash ++ "x" ++ hex 2 n
  else if (n <=? 65535)%N then backslash ++ "u" ++ hex 4 n
  else backslash ++ "U" ++ hex 8 n.

Definition py_repr {builtins : StrBuiltins} (s : string) : string :=
  let quote :=
    if contains single_quote s && negb (contains double_quote s) then double_quote
    else single_quote in
  quote ++ String.concat "" (map (escaped quote) (characters s)) ++ quote.

(** ** Dictionaries *)

(** Keys are compared with [==]; the orchestrator uses two key types,
    strings and the names of the workflow stages. *)
Class Key (K : Type) : Type := { key_eqb : K -> K -> bool }.

(** [key_eqb] decides equality. *)
Class KeyLaws (K : Type) `{Key K} : Prop :=
  key_eqb_eq : forall a b : K, key_eqb a b = true <-> a = b.

#[export] Instance string_key : Key string := {| key_eqb := String.eqb |}.

Definition dict (K V : Type) : Type := list (K * V).

Section Dict.
Context {K V : Type} `{Key K}.

(** [d.get(k)], [None] when the key is absent. *)
Fixpoint dict_get (k : K) (d : dict K V) : option V :=
  match d with
  | [] => None
  | (k', v) :: rest => if key_eqb k' k then Some v else dict_get k rest
  end.

(** [d.get(k, default)] *)
Definition dict_get_default (k : K) (default : V) (d : dict K V) : V :=
  match dict_get k d with Some v => v | None => default end.

(** [k in d] *)
Definition dict_has (k : K) (d : dict K V) : bool :=
  match dict_get k d with Some _ => true | None => false end.

(** [d[k] = v] *)
Fixpoint dict_set (k : K) (v : V) (d : dict K V) : dict K V :=
  match d with
  | [] => [(k, v)]
  | (k', v') :: rest =>
      if key_eqb k' k then (k', v) :: rest else (k', v') :: dict_set k v rest
  end.

(** [list(d.keys())] *)
Definition dict_keys (d : dict K V) : list K := map fst d.

End Dict.

(** ** Values and exceptions *)

(** Values of the loosely typed data: the request context, the analysis
    result, and everything a provider puts into the dict it returns.
    These are the values of JSON, which is what the providers of this
    repository build: [None], booleans, numbers (integers and finite
    floats), strings, lists, and dicts with string keys.  Tuples, sets
    and instances of other classes are not modelled. *)
Inductive PyVal : Type :=
| PyNone
| PyBool (b : bool)
| PyInt (n : Z)
| PyFloat (x : Q)
| PyStr (s : string)
| PyList (items : list PyVal)
| PyDict (entries : list (string * PyVal)).

(** [type(v).__name__] *)
Definition type_name (v : PyVal) : string :=
  match v with
  | PyNone => "NoneType"
  | PyBool _ => "bool"
  | PyInt _ => "int"
  | PyFloat _ => "float"
  | PyStr _ => "str"
  | PyList _ => "list"
  | PyDict _ => "dict"
  end.


(** [bool(v)] *)
Definition truthy (v : PyVal) : bool :=
  match v with
  | PyNone => false
  | PyBool b => b
  | PyInt n => negb (n =? 0)%Z
  | PyFloat x => negb (Qeq_bool x 0)
  | PyStr s => negb (String.eqb s "")
  | PyList items => match items with [] => false | _ => true end
  | PyDict entries => match entries with [] => false | _ => true end
  end.

(** An exception [e] derived from [Exception]: [type(e).__name__] and
    [str(e)]. *)
Record Exn : Type := mkExn { exn_type : string; exn_str : string }.

(** [KeyError(key)]: its [str] is the [repr] of the key. *)
Definition KeyError {builtins : StrBuiltins} (key : string) : Exn :=
  mkExn "KeyError" (py_repr key).

(** The [TypeError]s of iterating and of hashing have the texts of
    CPython up to 3.13. *)
Definition TypeError (message : string) : Exn := mkExn "TypeError" message.

Definition AttributeError (type attribute : string) : Exn :=
  mkExn "AttributeError"
        ("'" ++ type ++ "' object has no attribute '" ++ attribute ++ "'").

Inductive Outcome (A : Type) : Type :=
| Returned (a : A)
| Raised (e : Exn).
Arguments Returned {A} a.
Arguments Raised {A} e.

Definition obind {A B : Type} (m : Outcome A) (k : A -> Outcome B) : Outcome B :=
  match m with
  | Returned a => k a
  | Raised e => Raised e
  end.

Declare Scope outcome_scope.
Delimit Scope outcome_scope with outcome.
Notation "x <- m ;; k" := (obind m (fun x => k))
  (at level 61, m at next level, right associativity) : outcome_scope.

(** A list comprehension whose element expression can raise. *)
Fixpoint omap {A B : Type} (f : A -> Outcome B) (xs : list A) : Outcome (list B) :=
  match xs with
  | [] => Returned []
  | x :: rest =>
      (y <- f x ;; ys <- omap f rest ;; Returned (y :: ys))%outcome
  end.

(** A [for] loop with an accumulator whose body can raise. *)
Fixpoint ofold {A S : Type} (body : S -> A -> Outcome S) (xs : list A) (s : S) : Outcome S :=
  match xs with
  | [] => Returned s
  | x :: rest => (s' <- body s x ;; ofold body rest s')%outcome
  end.

(** [xs.sort(key=key, reverse=True)].  The built-in sort is stable, and
    stays so under [reverse=True]: the result is in descending key order
    and elements with equal keys keep their original order.  The model
    inserts from the right, each element in front of the first one whose
    key is not greater. *)
Fixpoint insert_descending {A : Type} (key : A -> nat) (x : A) (sorted : list A) : list A :=
  match sorted with
  | [] => [x]
  | y :: rest =>
      if key x <? key y then y :: insert_descending key x rest else x :: sorted
  end.

Definition sort_reverse {A : Type} (key : A -> nat) (xs : list A) : list A :=
  fold_right (insert_descending key) [] xs.

(** Descending key order. *)
Definition descending {A : Type} (key : A -> nat) (xs : list A) : Prop :=
  StronglySorted (fun a b => key b <= key a) xs.

(** The elements with key [k], in their order in [xs]. *)
Definition keyed {A : Type} (key : A -> nat) (k : nat) (xs : list A) : list A :=
  filter (fun x => key x =? k) xs.

(** ** Data model *)

(** An entry of [MasterAgent.agent_capabilities]. *)
Record Capability : Type := mkCapability {
  cap_name : string;
  cap_description : string;
  keywords : list string;
  strengths : list string
}.

(** A workflow template; only the enhanced ones carry ['output_format']. *)
Record Template : Type := mkTemplate {
  name : string;
  description : string;
  template_agents : list string;
  workflow : list string;
  output_format : option string
}.

(** The request context: [None] or a dict. *)
Definition Context : Type := option (dict string PyVal).

(** The dict a provider returns (the query methods are annotated
    [-> Dict[str, Any]]).  The orchestrator reads its keys ['insights']
    and ['recommendations'], whose values can be anything: the providers
    of this repository put there lists of dicts with ['description'] and
    ['priority'] (research agent) and lists of plain strings
    (data-analysis insights, business-advisor recommendations). *)
Definition RawResult : Type := dict string PyVal.

(** A capability provider (an element of [MasterAgent.agents]).  [invoke]
    is the query method ([analyze_user_query], [research_topic],
    [analyze_business_query]) and [get_summary] the summary method
    ([get_analysis_summary], [get_research_summary],
    [get_business_summary]); either call can raise.  A provider is a
    function of its arguments: what it prints or remembers is outside the
    world of the orchestrator. *)
Record Provider : Type := mkProvider {
  invoke : string -> Context -> Outcome RawResult;
  get_summary : RawResult -> Outcome string
}.

(** The stages the executor dispatches on.  [results['stages']] is only
    ever assigned under these names, so they are the key type of that
    dict; any other string of a template's ['workflow'] list is skipped. *)
Inductive AgentStage : Type := data_analysis | research | business_advisor.

Inductive StageName : Type :=
| agent_stage (stage : AgentStage)
| cross_validation
| strategic_synthesis
| competitive_analysis
| implementation_plan
| predictive_modeling
| scenario_planning
| impact_assessment
| holiday_strategy
| seasonal_optimization
| year_round_strategy.

Definition agent_id (stage : AgentStage) : string :=
  match stage with
  | data_analysis => "data_analysis"
  | research => "research"
  | business_advisor => "business_advisor"
  end.

(** The string a stage name stands for. *)
Definition stage_str (stage : StageName) : string :=
  match stage with
  | agent_stage stage => agent_id stage
  | cross_validation => "cross_validation"
  | strategic_synthesis => "strategic_synthesis"
  | competitive_analysis => "competitive_analysis"
  | implementation_plan => "implementation_plan"
  | predictive_modeling => "predictive_modeling"
  | scenario_planning => "scenario_planning"
  | impact_assessment => "impact_assessment"
  | holiday_strategy => "holiday_strategy"
  | seasonal_optimization => "seasonal_optimization"
  | year_round_strategy => "year_round_strategy"
  end.

Definition all_stage_names : list StageName :=
  [agent_stage data_analysis; agent_stage research; agent_stage business_advisor;
   cross_validation; strategic_synthesis; competitive_analysis;
   implementation_plan; predictive_modeling; scenario_planning;
   impact_assessment; holiday_strategy; seasonal_optimization;
   year_round_strategy].

(** The stage a string of a ['workflow'] list names, if any. *)
Definition stage_of_str (s : string) : option StageName :=
  find (fun stage => String.eqb (stage_str stage) s) all_stage_names.

Definition stage_eqb (a b : StageName) : bool :=
  String.eqb (stage_str a) (stage_str b).

#[export] Instance stage_key : Key StageName := {| key_eqb := stage_eqb |}.

(** The dicts stored under [results['stages']], one constructor per shape
    the executor builds:
    - [AgentSuccess]: [{'success': True, 'summary': .., 'raw_result': ..}]
    - [AgentFailure]: [{'success': False, 'error': ..}]
    - [Validation]: the dict of [_cross_validate_results] (no ['success'])
    - [StrategicSynthesis]: the dict of [_create_strategic_synthesis]
      (no ['success'])
    - [Placeholder]: [{'success': True, key: value}] of the stub stages. *)
Inductive StageResult : Type :=
| AgentSuccess (summary : string) (raw_result : RawResult)
| AgentFailure (error : string)
| Validation (consistency_score : Q)
             (conflicts agreements validation_recommendations : list string)
| StrategicSynthesis (executive_summary : string)
                     (key_findings : list PyVal)
                     (strategic_opportunities risk_factors success_metrics : list string)
| Placeholder (key value : string).

(** [stage_result.get('success', False)] *)
Definition get_success (stage_result : StageResult) : bool :=
  match stage_result with
  | AgentSuccess _ _ => true
  | AgentFailure _ => false
  | Validation _ _ _ _ => false
  | StrategicSynthesis _ _ _ _ _ => false
  | Placeholder _ _ => true
  end.

(** [stage_result['raw_result']] when ['raw_result' in stage_result] *)
Definition get_raw_result (stage_result : StageResult) : option RawResult :=
  match stage_result with
  | AgentSuccess _ raw => Some raw
  | _ => None
  end.

(** [stage_result['summary']] when ['summary' in stage_result] *)
Definition get_summary_field (stage_result : StageResult) : option string :=
  match stage_result with
  | AgentSuccess summary _ => Some summary
  | _ => None
  end.

(** [stage_result['error']] when ['error' in stage_result] *)
Definition get_error (stage_result : StageResult) : option string :=
  match stage_result with
  | AgentFailure error => Some error
  | _ => None
  end.

(** A dict built by [_generate_prioritized_recommendations]; priority
    and description are whatever the provider's entry holds. *)
Record Recommendation : Type := mkRecommendation {
  priority : PyVal;
  rec_description : PyVal;
  source : string
}.

(** The values of a [results] dict: those of the dict built by
    [execute_enhanced_workflow], and [VResult], a per-agent result dict
    as the basic synthesis of [_synthesize_results] expects it. *)
Inductive RunVal : Type :=
| VStr (s : string)
| VStages (stages : dict StageName StageResult)
| VRecs (recs : list Recommendation)
| VLines (lines : list string)
| VResult (result : StageResult).

(** The dict returned by [MasterAgent.process_query]. *)
Inductive FinalResult : Type :=
| Success (query workflow_used : string) (agents_involved : list string)
          (individual_results : dict string RunVal) (synthesis : RunVal)
          (timestamp : string)
| Failure (error query timestamp : string).

(** A dict built by [MasterAgent.get_workflow_suggestions]; the float
    ['confidence'] is the quotient of two list lengths and is held as
    that rational.  For tables of fewer than 2^26 agents two such floats
    compare as the rationals do. *)
Record Suggestion : Type := mkSuggestion {
  suggestion_id : string;
  suggestion_name : string;
  suggestion_description : string;
  suggestion_agents : list string;
  confidence : Q
}.

(** The dict returned by [MasterAgent.get_agent_status]. *)
Record AgentStatus : Type := mkAgentStatus {
  total_agents : nat;
  available_agents : list string;
  status_capabilities : dict string Capability;
  status_templates : dict string Template;
  status_timestamp : string
}.

(** [xs.sort(key=key, reverse=True)] for rational keys, as
    [sort_reverse]. *)
Fixpoint insert_descending_q {A : Type} (key : A -> Q) (x : A) (sorted : list A) : list A :=
  match sorted with
  | [] => [x]
  | y :: rest =>
      if negb (Qle_bool (key y) (key x)) then y :: insert_descending_q key x rest
      else x :: sorted
  end.

Definition sort_reverse_q {A : Type} (key : A -> Q) (xs : list A) : list A :=
  fold_right (insert_descending_q key) [] xs.

(** [list(value)]: the elements a [for] or [set(..)] sees. *)
Definition elements (value : PyVal) : Outcome (list PyVal) :=
  match value with
  | PyList items => Returned items
  | PyStr s => Returned (map PyStr (characters s))
  | PyDict entries => Returned (map (fun entry => PyStr (fst entry)) entries)
  | PyNone | PyBool _ | PyInt _ | PyFloat _ =>
      Raised (TypeError ("'" ++ type_name value ++ "' object is not iterable"))
  end.

(** [value.get(key, default)] for whatever [value] is: only a dict has
    the method. *)
Definition py_get (value : PyVal) (key : string) (default : PyVal) : Outcome PyVal :=
  match value with
  | PyDict entries => Returned (dict_get_default key default entries)
  | _ => Raised (AttributeError (type_name value) "get")
  end.

(** [hash(value)]: lists and dicts cannot be hashed. *)
Definition py_hash (value : PyVal) : Outcome unit :=
  match value with
  | PyList _ | PyDict _ =>
      Raised (TypeError ("unhashable type: '" ++ type_name value ++ "'"))
  | _ => Returned tt
  end.

(** [xs.sort(key=key, reverse=True)] for a key function that can raise:
    the keys of all elements are computed first, in list order, and the
    first exception ends the sort; then the elements are sorted by their
    keys. *)
Definition sort_reverse_by {A : Type} (key : A -> Outcome nat) (xs : list A)
  : Outcome (list A) :=
  (keys <- omap key xs ;;
   Returned (map snd (sort_reverse fst (combine keys xs))))%outcome.

(** [value in xs] for a list of strings [xs]. *)
Definition value_in (value : PyVal) (xs : list string) : bool :=
  match value with
  | PyStr s => in_list s xs
  | _ => false
  end.

(** [d[k]] outside the monad of methods. *)
Definition item {builtins : StrBuiltins} {V : Type} (d : dict string V) (k : string)
  : Outcome V :=
  match dict_get k d with
  | Some v => Returned v
  | None => Raised (KeyError k)
  end.

(** ** The two singletons and the world *)

Record MasterAgentObj : Type := mkMasterAgent {
  agents : dict string Provider;
  agent_capabilities : dict string Capability;
  ma_workflow_templates : dict string Template
}.

Record EnhancedWorkflowsObj : Type := mkEnhancedWorkflows {
  workflow_templates : dict string Template
}.

(** [stdout] holds the printed lines, oldest first; [clock] is what
    [datetime.now().isoformat()] reads.  The clock stands still during a
    request, so the timestamps of one request are equal; no property
    below is about a timestamp. *)
Record World : Type := mkWorld {
  master_agent : MasterAgentObj;
  enhanced_workflows : EnhancedWorkflowsObj;
  stdout : list string;
  clock : string
}.

(** ** The monad of methods *)

Definition Py (A : Type) : Type := World -> Outcome A * World.

Definition ret {A : Type} (a : A) : Py A := fun w => (Returned a, w).

Definition bind {A B : Type} (m : Py A) (k : A -> Py B) : Py B :=
  fun w =>
    match m w with
    | (Returned a, w') => k a w'
    | (Raised e, w') => (Raised e, w')
    end.

Definition raise {A : Type} (e : Exn) : Py A := fun w => (Raised e, w).

(** [try: body except Exception as e: handler] *)
Definition try_except {A : Type} (body : Py A) (handler : Exn -> Py A) : Py A :=
  fun w =>
    match body w with
    | (Returned a, w') => (Returned a, w')
    | (Raised e, w') => handler e w'
    end.

(** A call without effect on the world that can raise. *)
Definition lift {A : Type} (m : Outcome A) : Py A := fun w => (m, w).

Definition print (line : string) : Py unit :=
  fun w =>
    (Returned tt,
     mkWorld (master_agent w) (enhanced_workflows w) (stdout w ++ [line]) (clock w)).

(** The debug prints interpolate [type(..)] and [repr] text of their
    arguments; a debug line is recorded by its label, the literal text
    that follows ["Debug - "]. *)
Definition debug (label : string) : Py unit := print ("Debug - " ++ label).

Definition self_master_agent : Py MasterAgentObj :=
  fun w => (Returned (master_agent w), w).

Definition self_enhanced_workflows : Py EnhancedWorkflowsObj :=
  fun w => (Returned (enhanced_workflows w), w).

(** [datetime.now().isoformat()] *)
Definition now_isoformat : Py string := fun w => (Returned (clock w), w).

(** [d[k]], raising [KeyError] *)
Definition subscript {builtins : StrBuiltins} {V : Type} (d : dict string V) (k : string)
  : Py V :=
  match dict_get k d with
  | Some v => ret v
  | None => raise (KeyError k)
  end.

Declare Scope py_scope.
Delimit Scope py_scope with py.
Notation "x <- m ;; k" := (bind m (fun x => k))
  (at level 61, m at next level, right associativity) : py_scope.
Notation "m ;; k" := (bind m (fun _ => k))
  (at level 61, right associativity) : py_scope.

(** A [for] loop with an accumulator. *)
Fixpoint for_each {A S : Type} (body : S -> A -> Py S) (xs : list A) (s : S) : Py S :=
  match xs with
  | [] => ret s
  | x :: rest => (s' <- body s x ;; for_each body rest s')%py
  end.

(** * class EnhancedWorkflows *)

Module EnhancedWorkflows.
Section Methods.
Context {builtins : StrBuiltins}.
Local Open Scope py_scope.

Definition standard_agents : list string :=
  ["data_analysis"; "research"; "business_advisor"].

Definition strategic_analysis : Template :=
  mkTemplate "Análisis Estratégico Completo"
    "Análisis integral que combina datos, investigación y recomendaciones estratégicas"
    standard_agents
    ["data_analysis"; "research"; "business_advisor"; "cross_validation";
     "strategic_synthesis"]
    (Some "strategic_report").

Definition market_analysis : Template :=
  mkTemplate "Análisis de Mercado Integrado"
    "Análisis de mercado que combina datos internos con investigación externa"
    standard_agents
    ["data_analysis"; "research"; "business_advisor"; "competitive_analysis";
     "implementation_plan"]
    (Some "market_report").

Definition predictive_analysis : Template :=
  mkTemplate "Análisis Predictivo Avanzado"
    "Análisis predictivo que combina datos históricos con factores externos"
    standard_agents
    ["data_analysis"; "research"; "business_advisor"; "predictive_modeling";
     "scenario_planning"]
    (Some "predictive_report").

Definition holiday_impact_analysis : Template :=
  mkTemplate "Análisis de Impacto de Feriados"
    "Análisis específico del impacto de feriados en el negocio"
    standard_agents
    ["data_analysis"; "research"; "business_advisor"; "impact_assessment";
     "holiday_strategy"]
    (Some "holiday_report").

Definition seasonal_analysis : Template :=
  mkTemplate "Análisis Estacional Integral"
    "Análisis completo de patrones estacionales y su impacto"
    standard_agents
    ["data_analysis"; "research"; "business_advisor"; "seasonal_optimization";
     "year_round_strategy"]
    (Some "seasonal_report").

(** [__init__]: the registry of enhanced templates. *)
Definition __init__ : EnhancedWorkflowsObj :=
  mkEnhancedWorkflows
    [("strategic_analysis", strategic_analysis);
     ("market_analysis", market_analysis);
     ("predictive_analysis", predictive_analysis);
     ("holiday_impact_analysis", holiday_impact_analysis);
     ("seasonal_analysis", seasonal_analysis)].

Definition strategic_keywords : list string :=
  ["estratégico"; "estrategia"; "plan"; "completo"; "integral"].
Definition market_keywords : list string :=
  ["mercado"; "competencia"; "competitivo"; "benchmark"].
Definition predictive_keywords : list string :=
  ["predicción"; "pronóstico"; "futuro"; "proyección"].
Definition holiday_keywords : list string :=
  ["feriado"; "vacaciones"; "navidad"; "año nuevo"].
Definition seasonal_keywords : list string :=
  ["estacional"; "temporada"; "verano"; "invierno"].

(** [get_workflow_for_query(self, query, context)] *)
Definition get_workflow_for_query (query : string) (context : Context) : Py Template :=
  self <- self_enhanced_workflows ;;
  let query_lower := str_lower query in
  if any_in strategic_keywords query_lower then
    subscript (workflow_templates self) "strategic_analysis"
  else if any_in market_keywords query_lower then
    subscript (workflow_templates self) "market_analysis"
  else if any_in predictive_keywords query_lower then
    subscript (workflow_templates self) "predictive_analysis"
  else if any_in holiday_keywords query_lower then
    subscript (workflow_templates self) "holiday_impact_analysis"
  else if any_in seasonal_keywords query_lower then
    subscript (workflow_templates self) "seasonal_analysis"
  else
    subscript (workflow_templates self) "strategic_analysis".

(** [_execute_agent_stage(self, stage, query, context, agents)].  The
    method is only called with one of the three agent stages. *)
Definition _execute_agent_stage (stage : AgentStage) (query : string)
    (context : Context) (agents : dict string Provider) : Py StageResult :=
  try_except
    (debug "_execute_agent_stage called for stage" ;;
     debug "Stage type" ;;
     debug "Query" ;;
     debug "Context type" ;;
     debug "Agents type" ;;
     debug "Agents keys" ;;
     match stage with
     | data_analysis =>
         debug "Executing data_analysis stage..." ;;
         agent <- subscript agents "data_analysis" ;;
         debug "Data analysis agent type" ;;
         result <- lift (invoke agent query context) ;;
         debug "Data analysis result type" ;;
         debug "Data analysis result keys" ;;
         summary <- lift (get_summary agent result) ;;
         debug "Data analysis summary type" ;;
         ret (AgentSuccess summary result)
     | research =>
         debug "Executing research stage..." ;;
         agent <- subscript agents "research" ;;
         debug "Research agent type" ;;
         result <- lift (invoke agent query context) ;;
         debug "Research result type" ;;
         debug "Research result keys" ;;
         summary <- lift (get_summary agent result) ;;
         debug "Research summary type" ;;
         ret (AgentSuccess summary result)
     | business_advisor =>
         debug "Executing business_advisor stage..." ;;
         agent <- subscript agents "business_advisor" ;;
         debug "Business advisor agent type" ;;
         result <- lift (invoke agent query context) ;;
         debug "Business advisor result type" ;;
         debug "Business advisor result keys" ;;
         summary <- lift (get_summary agent result) ;;
         debug "Business advisor summary type" ;;
         ret (AgentSuccess summary result)
     end)
    (fun e =>
       debug "Error in _execute_agent_stage" ;;
       debug "Error type" ;;
       debug "Traceback" ;;
       ret (AgentFailure (exn_str e))).

(** [[entry.get('description', '') for entry in value]]: [value] is
    iterated, whatever it is, and [.get] is called on each element. *)
Definition descriptions (value : PyVal) : Outcome (list PyVal) :=
  (entries <- elements value ;;
   omap (fun entry => py_get entry "description" (PyStr "")) entries)%outcome.

(** [_extract_key_insights(self, stage_result)] *)
Definition _extract_key_insights (stage_result : StageResult) : Outcome (list PyVal) :=
  (match get_raw_result stage_result with
   | Some raw_result =>
       from_insights <-
         match dict_get "insights" raw_result with
         | Some value => descriptions value
         | None => Returned []
         end ;;
       from_recommendations <-
         match dict_get "recommendations" raw_result with
         | Some value => descriptions value
         | None => Returned []
         end ;;
       let from_summary :=
         match get_summary_field stage_result with
         | Some summary => [PyStr summary]
         | None => []
         end in
       Returned (filter truthy (from_insights ++ from_recommendations ++ from_summary))
   | None => Returned []
   end)%outcome.

(** [_calculate_consistency_score(self, insights)]; the floats 1.0 and
    0.8 as rationals. *)
Definition _calculate_consistency_score (insights : dict StageName (list PyVal)) : Q :=
  let all_insights := concat (map snd insights) in
  if length all_insights <? 2 then 1%Q else (8 # 10)%Q.

Definition _identify_conflicts (insights : dict StageName (list PyVal)) : list string := [].
Definition _identify_agreements (insights : dict StageName (list PyVal)) : list string := [].

(** The loop of [_cross_validate_results] that collects the insights of
    the successful stages. *)
Definition collect_insights (stages : dict StageName StageResult)
  : Outcome (dict StageName (list PyVal)) :=
  ofold (fun insights '(stage_name, stage_result) =>
           if get_success stage_result then
             (found <- _extract_key_insights stage_result ;;
              Returned (dict_set stage_name found insights))%outcome
           else Returned insights)
        stages [].

(** [_cross_validate_results(self, stages)] *)
Definition _cross_validate_results (stages : dict StageName StageResult) : Outcome StageResult :=
  (insights <- collect_insights stages ;;
   if 2 <=? length insights then
     Returned (Validation (_calculate_consistency_score insights)
                          (_identify_conflicts insights)
                          (_identify_agreements insights) [])
   else Returned (Validation 0%Q [] [] []))%outcome.

Definition _prioritize_insights (insights : list PyVal) : list PyVal := firstn 5 insights.
Definition _identify_strategic_opportunities (insights : list PyVal) : list string := [].
Definition _identify_risk_factors (insights : list PyVal) : list string := [].
Definition _define_success_metrics (query : string) : list string := [].

(** [_create_strategic_synthesis(self, stages, query)] *)
Definition _create_strategic_synthesis (stages : dict StageName StageResult) (query : string)
  : Outcome StageResult :=
  (all_insights <-
     ofold (fun all_insights '(stage_name, stage_result) =>
              if get_success stage_result then
                (found <- _extract_key_insights stage_result ;;
                 Returned (all_insights ++ found))%outcome
              else Returned all_insights)
           stages [] ;;
   Returned (StrategicSynthesis
               ("Análisis estratégico completo para: " ++ query)
               (_prioritize_insights all_insights)
               (_identify_strategic_opportunities all_insights)
               (_identify_risk_factors all_insights)
               (_define_success_metrics query)))%outcome.

(** [_generate_final_synthesis(self, stages, workflow)] *)
Definition _generate_final_synthesis (stages : dict StageName StageResult)
    (workflow : Template) : string :=
  let header :=
    [("## 🎯 " ++ name workflow)%string; ""; "### 📊 Resumen Ejecutivo"; ""] in
  let section '(stage_name, stage_result) :=
    if get_success stage_result then
      [("### 🔍 " ++ str_title (str_replace "_" " " (stage_str stage_name)))%string; ""]
      ++ match get_summary_field stage_result with
         | Some summary => [summary]
         | None => []
         end
      ++ [""]
    else [] in
  join nl (header ++ flat_map section stages).

(** [priority_order] and the sort key of
    [_generate_prioritized_recommendations]. *)
Definition priority_order : dict string nat :=
  [("high", 3); ("medium", 2); ("low", 1)].

(** [priority_order.get(priority, 2)] for a string *)
Definition priority_rank (priority : string) : nat :=
  dict_get_default priority 2 priority_order.

(** [priority_order.get(value, 2)] for whatever [value] is: the value is
    hashed, and only a string can be one of the keys. *)
Definition priority_order_get (value : PyVal) : Outcome nat :=
  (_ <- py_hash value ;;
   Returned match value with
            | PyStr priority => priority_rank priority
            | _ => 2
            end)%outcome.

(** [lambda x: priority_order.get(x['priority'], 2)] *)
Definition sort_key (x : Recommendation) : Outcome nat := priority_order_get (priority x).

(** The extraction loop of [_generate_prioritized_recommendations]. *)
Definition extract_recommendations (stages : dict StageName StageResult)
  : Outcome (list Recommendation) :=
  ofold (fun found '(stage_name, stage_result) =>
           match get_success stage_result, get_raw_result stage_result with
           | true, Some raw_result =>
               match dict_get "recommendations" raw_result with
               | Some value =>
                   (entries <- elements value ;;
                    added <-
                      omap (fun entry =>
                              priority <- py_get entry "priority" (PyStr "medium") ;;
                              description <- py_get entry "description" (PyStr "") ;;
                              Returned (mkRecommendation priority description
                                                         (stage_str stage_name)))
                           entries ;;
                    Returned (found ++ added))%outcome
               | None => Returned found
               end
           | _, _ => Returned found
           end)
        stages [].

(** [_generate_prioritized_recommendations(self, stages)] *)
Definition _generate_prioritized_recommendations (stages : dict StageName StageResult)
  : Outcome (list Recommendation) :=
  (found <- extract_recommendations stages ;;
   sort_reverse_by sort_key found)%outcome.

(** [_generate_next_steps(self, stages, query)] *)
Definition _generate_next_steps (stages : dict StageName StageResult) (query : string)
  : list string :=
  ["Revisar y validar los hallazgos con datos adicionales";
   "Implementar las recomendaciones de alta prioridad";
   "Monitorear los indicadores de éxito definidos";
   "Programar seguimiento en 30 días"].

(** The placeholder stages. *)
Definition _perform_competitive_analysis (stages : dict StageName StageResult)
    (query : string) : StageResult :=
  Placeholder "analysis" "Competitive analysis placeholder".
Definition _create_implementation_plan (stages : dict StageName StageResult)
    (query : string) : StageResult :=
  Placeholder "plan" "Implementation plan placeholder".
Definition _perform_predictive_modeling (stages : dict StageName StageResult)
    (context : Context) : StageResult :=
  Placeholder "model" "Predictive model placeholder".
Definition _create_scenario_planning (stages : dict StageName StageResult)
    (query : string) : StageResult :=
  Placeholder "scenarios" "Scenario planning placeholder".
Definition _assess_holiday_impact (stages : dict StageName StageResult)
    (context : Context) : StageResult :=
  Placeholder "impact" "Holiday impact assessment placeholder".
Definition _create_holiday_strategy (stages : dict StageName StageResult)
    (query : string) : StageResult :=
  Placeholder "strategy" "Holiday strategy placeholder".
Definition _optimize_seasonal_patterns (stages : dict StageName StageResult)
    (context : Context) : StageResult :=
  Placeholder "optimization" "Seasonal optimization placeholder".
Definition _create_year_round_strategy (stages : dict StageName StageResult)
    (query : string) : StageResult :=
  Placeholder "strategy" "Year-round strategy placeholder".

(** One iteration of the stage loop of [execute_enhanced_workflow]:
    [results['stages'][stage] = ...] for a stage the [if]/[elif] chain
    knows, nothing for any other string. *)
Definition execute_stage (query : string) (context : Context)
    (agents : dict string Provider) (stages : dict StageName StageResult)
    (stage : string) : Py (dict StageName StageResult) :=
  match stage_of_str stage with
  | Some (agent_stage a) =>
      result <- _execute_agent_stage a query context agents ;;
      ret (dict_set (agent_stage a) result stages)
  | Some cross_validation =>
      result <- lift (_cross_validate_results stages) ;;
      ret (dict_set cross_validation result stages)
  | Some strategic_synthesis =>
      result <- lift (_create_strategic_synthesis stages query) ;;
      ret (dict_set strategic_synthesis result stages)
  | Some competitive_analysis =>
      ret (dict_set competitive_analysis (_perform_competitive_analysis stages query) stages)
  | Some implementation_plan =>
      ret (dict_set implementation_plan (_create_implementation_plan stages query) stages)
  | Some predictive_modeling =>
      ret (dict_set predictive_modeling (_perform_predictive_modeling stages context) stages)
  | Some scenario_planning =>
      ret (dict_set scenario_planning (_create_scenario_planning stages query) stages)
  | Some impact_assessment =>
      ret (dict_set impact_assessment (_assess_holiday_impact stages context) stages)
  | Some holiday_strategy =>
      ret (dict_set holiday_strategy (_create_holiday_strategy stages query) stages)
  | Some seasonal_optimization =>
      ret (dict_set seasonal_optimization (_optimize_seasonal_patterns stages context) stages)
  | Some year_round_strategy =>
      ret (dict_set year_round_strategy (_create_year_round_strategy stages query) stages)
  | None => ret stages
  end.

(** [execute_enhanced_workflow(self, workflow, query, context, agents)].
    The initial ['synthesis': {}] is the empty dict [VStages []]. *)
Definition execute_enhanced_workflow (workflow_ : Template) (query : string)
    (context : Context) (agents : dict string Provider) : Py (dict string RunVal) :=
  debug "execute_enhanced_workflow called" ;;
  debug "Workflow type" ;;
  debug "Workflow keys" ;;
  debug "Query" ;;
  debug "Context type" ;;
  debug "Agents type" ;;
  debug "Agents keys" ;;
  timestamp <- now_isoformat ;;
  let results :=
    [("workflow_name", VStr (name workflow_));
     ("query", VStr query);
     ("timestamp", VStr timestamp);
     ("stages", VStages []);
     ("synthesis", VStages []);
     ("recommendations", VRecs []);
     ("next_steps", VLines [])] in
  stages <- for_each (execute_stage query context agents) (workflow workflow_) [] ;;
  let results := dict_set "stages" (VStages stages) results in
  let results :=
    dict_set "synthesis" (VStr (_generate_final_synthesis stages workflow_)) results in
  recommendations <- lift (_generate_prioritized_recommendations stages) ;;
  let results := dict_set "recommendations" (VRecs recommendations) results in
  let results :=
    dict_set "next_steps" (VLines (_generate_next_steps stages query)) results in
  ret results.

End Methods.
End EnhancedWorkflows.

(** * class MasterAgent *)

Module MasterAgent.
Section Methods.
Context {builtins : StrBuiltins}.
Local Open Scope py_scope.

Definition initial_capabilities : dict string Capability :=
  [("data_analysis",
    mkCapability "Análisis de Datos"
      "Análisis específico de datos del tablero DataRush"
      ["análisis"; "datos"; "tendencia"; "patrón"; "estadística"; "métrica";
       "gráfico"; "visualización"]
      ["análisis cuantitativo"; "visualizaciones"; "métricas específicas";
       "patrones de datos"]);
   ("business_advisor",
    mkCapability "Asesor de Negocios"
      "Recomendaciones estratégicas basadas en tráfico y feriados"
      ["negocio"; "recomendación"; "estrategia"; "turismo"; "retail";
       "restaurante"; "transporte"; "servicio"]
      ["recomendaciones estratégicas"; "análisis de mercado";
       "insights de negocio"; "planificación"]);
   ("research",
    mkCapability "Investigador"
      "Búsqueda de información externa para complementar insights"
      ["investigar"; "buscar"; "información"; "contexto"; "fuente"; "estudio";
       "investigación"]
      ["investigación externa"; "contexto amplio"; "fuentes múltiples";
       "validación"]);
   ("chat",
    mkCapability "Chat General"
      "Conversación general y respuestas básicas"
      ["pregunta"; "ayuda"; "información"; "general"; "básico"]
      ["conversación natural"; "respuestas generales"; "orientación"])].

Definition initial_templates : dict string Template :=
  [("comprehensive_analysis",
    mkTemplate "Análisis Integral"
      "Análisis completo que combina datos, investigación y recomendaciones"
      ["data_analysis"; "research"; "business_advisor"]
      ["data_analysis"; "research"; "business_advisor"] None);
   ("business_strategy",
    mkTemplate "Estrategia de Negocio"
      "Desarrollo de estrategia de negocio con análisis de datos"
      ["business_advisor"; "data_analysis"]
      ["data_analysis"; "business_advisor"] None);
   ("research_validation",
    mkTemplate "Validación de Investigación"
      "Validar hallazgos con investigación externa"
      ["data_analysis"; "research"]
      ["data_analysis"; "research"] None);
   ("quick_analysis",
    mkTemplate "Análisis Rápido"
      "Análisis rápido de datos sin investigación externa"
      ["data_analysis"] ["data_analysis"] None)].

(** [__init__]: the four providers are the imported singletons. *)
Definition __init__ (simple_data_analysis_agent simple_business_advisor
                     simple_research_agent chat_agent : Provider) : MasterAgentObj :=
  mkMasterAgent
    [("data_analysis", simple_data_analysis_agent);
     ("business_advisor", simple_business_advisor);
     ("research", simple_research_agent);
     ("chat", chat_agent)]
    initial_capabilities
    initial_templates.

(** [complexity_indicators] of [_analyze_query] *)
Definition complexity_indicators : dict string (list string) :=
  [("high", ["completo"; "integral"; "estratégico"; "análisis profundo";
             "investigación"; "recomendación"]);
   ("medium", ["análisis"; "comparar"; "evaluar"; "estudiar"; "examinar"]);
   ("low", ["pregunta"; "información"; "ayuda"; "básico"])].

(** The complexity loop: the first level one of whose indicators occurs
    in the query, and the initial value when the loop ends without
    [break]. *)
Fixpoint complexity_of (levels : dict string (list string)) (query_lower complexity : string)
  : string :=
  match levels with
  | [] => complexity
  | (level, indicators) :: later =>
      if any_in indicators query_lower then level
      else complexity_of later query_lower complexity
  end.

(** The capability loop: the agents one of whose keywords occurs in the
    query, in the order of [agent_capabilities]. *)
Definition capabilities_of (capabilities : dict string Capability) (query_lower : string)
  : list string :=
  map fst (filter (fun '(_, capability) => any_in (keywords capability) query_lower)
                  capabilities).

(** [context and context.get('data_loaded', False)]: a falsy context
    ([None] or the empty dict) is the value of the expression. *)
Definition has_data_context_of (context : Context) : PyVal :=
  match context with
  | None => PyNone
  | Some [] => PyDict []
  | Some entries => dict_get_default "data_loaded" (PyBool false) entries
  end.

(** [_classify_query_type(self, query_lower)] *)
Definition _classify_query_type (query_lower : string) : string :=
  if any_in ["negocio"; "recomendación"; "estrategia"; "turismo"; "retail"] query_lower
  then "business"
  else if any_in ["análisis"; "datos"; "tendencia"; "patrón"; "métrica"] query_lower
  then "analysis"
  else if any_in ["investigar"; "buscar"; "información"; "contexto"] query_lower
  then "research"
  else if any_in ["completo"; "integral"; "todo"; "todos"] query_lower
  then "comprehensive"
  else "general".

(** [_analyze_query(self, query, context)] *)
Definition _analyze_query (query : string) (context : Context) : Py (dict string PyVal) :=
  self <- self_master_agent ;;
  let query_lower := str_lower query in
  let complexity := complexity_of complexity_indicators query_lower "low" in
  let required_capabilities := capabilities_of (agent_capabilities self) query_lower in
  let required_capabilities :=
    match required_capabilities with
    | [] => ["chat"]
    | _ => required_capabilities
    end in
  let has_data_context := has_data_context_of context in
  ret [("complexity", PyStr complexity);
       ("required_capabilities", PyList (map PyStr required_capabilities));
       ("has_data_context", has_data_context);
       ("query_type", PyStr (_classify_query_type query_lower))].

(** [_select_workflow(self, analysis_result)] *)
Definition _select_workflow (analysis_result : dict string PyVal) : Py Template :=
  match dict_get_default "query" (PyStr "") analysis_result with
  | PyStr query =>
      EnhancedWorkflows.get_workflow_for_query query (Some analysis_result)
  | other => raise (AttributeError (type_name other) "lower")
  end.

(** [_execute_workflow(self, workflow, query, context)] *)
Definition _execute_workflow (workflow_ : Template) (query : string) (context : Context)
  : Py (dict string RunVal) :=
  debug "_execute_workflow called" ;;
  debug "Workflow type" ;;
  debug "Workflow keys" ;;
  debug "Query" ;;
  debug "Context type" ;;
  debug "Self.agents type" ;;
  debug "Self.agents keys" ;;
  try_except
    (debug "Calling enhanced_workflows.execute_enhanced_workflow..." ;;
     self <- self_master_agent ;;
     result <- EnhancedWorkflows.execute_enhanced_workflow workflow_ query context
                 (agents self) ;;
     debug "Enhanced workflow returned type" ;;
     debug "Enhanced workflow returned keys" ;;
     ret result)
    (fun e =>
       debug "Error in enhanced workflow execution" ;;
       debug "Error type" ;;
       debug "Traceback" ;;
       raise e).

(** [isinstance(result, dict) and result.get('success', False)]; the
    dict of stages has no key ['success']. *)
Definition succeeded (result : RunVal) : bool :=
  match result with
  | VResult stage_result => get_success stage_result
  | _ => false
  end.

(** [result.get('summary', 'No hay resumen disponible')] of a result that
    [succeeded] *)
Definition summary_of (result : RunVal) : string :=
  match result with
  | VResult stage_result =>
      match get_summary_field stage_result with
      | Some summary => summary
      | None => "No hay resumen disponible"
      end
  | _ => "No hay resumen disponible"
  end.

(** The [error] text of a failed result. *)
Definition error_of (result : RunVal) : string :=
  match result with
  | VResult stage_result =>
      match get_error stage_result with
      | Some error => error
      | None => "Error desconocido"
      end
  | VStages _ => "Error desconocido"
  | VStr _ => "Resultado inesperado: <class 'str'>"
  | VRecs _ | VLines _ => "Resultado inesperado: <class 'list'>"
  end.

(** The basic synthesis of [_synthesize_results], the branch taken when
    [results] is not an enhanced result. *)
Definition basic_synthesis (capabilities : dict string Capability)
    (results : dict string RunVal) (query : string) : Outcome string :=
  let agent_name agent_id :=
    match dict_get agent_id capabilities with
    | Some capability => Returned (cap_name capability)
    | None => Raised (KeyError agent_id)
    end in
  let successful_agents := map fst (filter (fun '(_, r) => succeeded r) results) in
  let failed_agents := map fst (filter (fun '(_, r) => negb (succeeded r)) results) in
  (involved <-
     match successful_agents with
     | [] => Returned []
     | _ =>
         names <- omap agent_name successful_agents ;;
         Returned [("**Agentes involucrados:** " ++ join ", " names)%string; ""]
     end ;;
   sections <-
     ofold (fun parts '(agent_id, result) =>
              if succeeded result then
                agent_name_ <- agent_name agent_id ;;
                Returned (parts ++ [("### 🤖 " ++ agent_name_)%string; "";
                                    summary_of result; ""])
              else Returned parts)
           results [] ;;
   problems <-
     match failed_agents with
     | [] => Returned []
     | _ =>
         lines <-
           omap (fun agent_id =>
                   agent_name_ <- agent_name agent_id ;;
                   match dict_get agent_id results with
                   | Some result =>
                       Returned ("• **" ++ agent_name_ ++ "**: " ++ error_of result)%string
                   | None => Raised (KeyError agent_id)
                   end)
                failed_agents ;;
         Returned (["### ⚠️ Agentes con Problemas"; ""] ++ lines ++ [""])
     end ;;
   let combined (agent_id line : string) : list string :=
     if in_list agent_id successful_agents then [line] else [] in
   Returned
     (join nl
        (["## 🎯 Análisis Integral - Respuesta del Agente Maestro"; "";
          ("**Consulta:** " ++ query)%string; ""]
         ++ involved ++ sections ++ problems
         ++ ["### 🔗 Síntesis Integral"; "";
             "El Agente Maestro ha coordinado múltiples agentes especializados para proporcionar una respuesta integral que combina:";
             ""]
         ++ combined "data_analysis" "• **Análisis de datos** específicos del tablero DataRush"
         ++ combined "research" "• **Investigación externa** para contexto adicional"
         ++ combined "business_advisor"
              "• **Recomendaciones estratégicas** basadas en datos y contexto"
         ++ combined "chat" "• **Orientación general** y respuestas contextuales"
         ++ [""; "Esta respuesta integral proporciona una perspectiva completa que combina datos internos, investigación externa y recomendaciones estratégicas."])))%outcome.

(** [_synthesize_results(self, results, query, context)] *)
Definition _synthesize_results (results : dict string RunVal) (query : string)
    (context : Context) : Py RunVal :=
  if dict_has "synthesis" results && dict_has "stages" results then
    subscript results "synthesis"
  else
    self <- self_master_agent ;;
    text <- lift (basic_synthesis (agent_capabilities self) results query) ;;
    ret (VStr text).

(** [process_query(self, query, context)] *)
Definition process_query (query : string) (context : Context) : Py FinalResult :=
  try_except
    (debug "Master Agent process_query started" ;;
     debug "Query" ;;
     debug "Context type" ;;
     debug "Context keys" ;;
     debug "Step 1: Analyzing query..." ;;
     analysis_result <- _analyze_query query context ;;
     debug "Analysis result type" ;;
     debug "Analysis result keys" ;;
     debug "Step 2: Selecting workflow..." ;;
     workflow_ <- _select_workflow analysis_result ;;
     debug "Workflow type" ;;
     debug "Workflow keys" ;;
     debug "Step 3: Executing workflow..." ;;
     results <- _execute_workflow workflow_ query context ;;
     debug "Workflow results type" ;;
     debug "Workflow results keys" ;;
     debug "Step 4: Synthesizing results..." ;;
     synthesis <- _synthesize_results results query context ;;
     debug "Synthesis type" ;;
     debug "Synthesis length" ;;
     timestamp <- now_isoformat ;;
     let final_result :=
       Success query (name workflow_) (template_agents workflow_) results synthesis
               timestamp in
     debug "Final result type" ;;
     debug "Final result keys" ;;
     ret final_result)
    (fun e =>
       timestamp <- now_isoformat ;;
       ret (Failure (exn_str e) query timestamp)).

(** [get_agent_status(self)] *)
Definition get_agent_status : Py AgentStatus :=
  self <- self_master_agent ;;
  timestamp <- now_isoformat ;;
  ret (mkAgentStatus (length (agents self)) (dict_keys (agents self))
                     (agent_capabilities self) (ma_workflow_templates self) timestamp).

(** [_is_workflow_appropriate(self, workflow, analysis)] *)
Definition _is_workflow_appropriate (workflow_ : Template) (analysis : dict string PyVal)
  : Outcome bool :=
  (required_capabilities <- item analysis "required_capabilities" ;;
   required <- elements required_capabilities ;;
   Returned (existsb (fun agent => value_in agent (template_agents workflow_)) required))%outcome.

(** [set(required_capabilities)] as the strings it holds; a list or a
    dict among the elements cannot be hashed. *)
Fixpoint hashed_strings (values : list PyVal) : Outcome (list string) :=
  match values with
  | [] => Returned []
  | PyStr s :: rest => (strings <- hashed_strings rest ;; Returned (s :: strings))%outcome
  | PyNone :: rest | PyBool _ :: rest | PyInt _ :: rest | PyFloat _ :: rest =>
      hashed_strings rest
  | (PyList _ | PyDict _) as value :: _ =>
      Raised (TypeError ("unhashable type: '" ++ type_name value ++ "'"))
  end.

(** [_calculate_workflow_confidence(self, workflow, analysis)] *)
Definition _calculate_workflow_confidence (workflow_ : Template)
    (analysis : dict string PyVal) : Outcome Q :=
  (required_capabilities <- item analysis "required_capabilities" ;;
   required <- elements required_capabilities ;;
   strings <- hashed_strings required ;;
   let overlap :=
     length (nodup string_dec
               (filter (fun agent => in_list agent (template_agents workflow_)) strings)) in
   let total_required := length required in
   if total_required =? 0 then Returned (5 # 10)%Q
   else Returned (Z.of_nat overlap # Pos.of_nat total_required)%Q)%outcome.

(** The loop of [get_workflow_suggestions]. *)
Definition collect_suggestions (self : MasterAgentObj) (analysis : dict string PyVal)
  : Outcome (list Suggestion) :=
  ofold (fun suggestions '(workflow_id, workflow_) =>
           (appropriate <- _is_workflow_appropriate workflow_ analysis ;;
            if appropriate : bool then
              names <-
                omap (fun aid =>
                        capability <- item (agent_capabilities self) aid ;;
                        Returned (cap_name capability))
                     (template_agents workflow_) ;;
              confidence_ <- _calculate_workflow_confidence workflow_ analysis ;;
              Returned (suggestions
                        ++ [mkSuggestion workflow_id (name workflow_)
                                         (description workflow_) names confidence_])
            else Returned suggestions)%outcome)
        (ma_workflow_templates self) [].

(** [get_workflow_suggestions(self, query)] *)
Definition get_workflow_suggestions (query : string) : Py (list Suggestion) :=
  analysis <- _analyze_query query None ;;
  self <- self_master_agent ;;
  suggestions <- lift (collect_suggestions self analysis) ;;
  ret (sort_reverse_q confidence suggestions).

End Methods.
End MasterAgent.

(** * class SimpleMasterAgentIntegration *)

(** [self.agent]: the [master_agent] singleton, or [None]. *)
Inductive AgentRef : Type := the_master_agent.

Record IntegrationObj : Type := mkIntegration { agent : option AgentRef }.

(** The dict returned by [SimpleMasterAgentIntegration.process_query]:
    the one of the master agent, or the wrapper's own error dict (with
    ['timestamp': None]). *)
Inductive IntegrationResult : Type :=
| FromMaster (results : FinalResult)
| WrapperError (error query : string).

(** The argument of [get_comprehensive_summary]: a string or a result
    dict. *)
Inductive SummaryArg : Type :=
| ArgText (text : string)
| ArgResult (results : IntegrationResult).

Module SimpleMasterAgentIntegration.
Section Methods.
Context {builtins : StrBuiltins}.
Local Open Scope py_scope.

(** [__init__]: [self.agent = master_agent]. *)
Definition __init__ : IntegrationObj := mkIntegration (Some the_master_agent).

(** [process_query(self, query, context)] *)
Definition process_query (self : IntegrationObj) (query : string) (context : Context)
  : Py IntegrationResult :=
  try_except
    (debug "Master Agent Status" ;;
     debug "Agent Type" ;;
     debug "Query" ;;
     debug "Context keys" ;;
     match agent self with
     | None =>
         debug "Master agent is None, returning error" ;;
         ret (WrapperError "Master agent is not available" query)
     | Some the_master_agent =>
         debug "Calling master agent process_query..." ;;
         results <- MasterAgent.process_query query context ;;
         debug "Master agent returned type" ;;
         debug "Master agent returned keys" ;;
         ret (FromMaster results)
     end)
    (fun e =>
       ret (WrapperError ("Error in master agent processing: " ++ exn_str e) query)).

(** [results.get('success', False)] *)
Definition result_success (results : IntegrationResult) : bool :=
  match results with
  | FromMaster (Success _ _ _ _ _ _) => true
  | FromMaster (Failure _ _ _) => false
  | WrapperError _ _ => false
  end.

(** [get_comprehensive_summary(self, results)]; the synthesis of a
    successful result is returned as it is. *)
Definition get_comprehensive_summary (results : SummaryArg) : RunVal :=
  match results with
  | ArgText text => VStr text
  | ArgResult (FromMaster (Success _ _ _ _ synthesis _)) => synthesis
  | ArgResult (FromMaster (Failure error _ _)) => VStr ("❌ Error: " ++ error)
  | ArgResult (WrapperError error _) => VStr ("❌ Error: " ++ error)
  end.

(** [get_workflow_suggestions(self, query)] *)
Definition get_workflow_suggestions (self : IntegrationObj) (query : string)
  : Py (list Suggestion) :=
  match agent self with
  | Some the_master_agent => MasterAgent.get_workflow_suggestions query
  | None => raise (AttributeError "NoneType" "get_workflow_suggestions")
  end.

End Methods.
End SimpleMasterAgentIntegration.

(** * What a run computes

    The outcome of the executor without its trace of debug lines, as
    functions of the providers' answers.  The lemmas of section
    [Erasure] below show that the methods compute exactly these. *)

Section Outcomes.
Context {builtins : StrBuiltins}.

(** The two calls an agent stage makes to its provider. *)
Definition call_provider (agents : dict string Provider) (stage : AgentStage)
    (query : string) (context : Context) : Outcome (string * RawResult) :=
  match dict_get (agent_id stage) agents with
  | Some agent =>
      (result <- invoke agent query context ;;
       summary <- get_summary agent result ;;
       Returned (summary, result))%outcome
  | None => Raised (KeyError (agent_id stage))
  end.

Definition agent_result (agents : dict string Provider) (stage : AgentStage)
    (query : string) (context : Context) : StageResult :=
  match call_provider agents stage query context with
  | Returned (summary, result) => AgentSuccess summary result
  | Raised e => AgentFailure (exn_str e)
  end.

Definition stage_result (query : string) (context : Context)
    (agents : dict string Provider) (stages : dict StageName StageResult)
    (stage_name : StageName) : Outcome StageResult :=
  match stage_name with
  | agent_stage a => Returned (agent_result agents a query context)
  | cross_validation => EnhancedWorkflows._cross_validate_results stages
  | strategic_synthesis => EnhancedWorkflows._create_strategic_synthesis stages query
  | competitive_analysis =>
      Returned (EnhancedWorkflows._perform_competitive_analysis stages query)
  | implementation_plan =>
      Returned (EnhancedWorkflows._create_implementation_plan stages query)
  | predictive_modeling =>
      Returned (EnhancedWorkflows._perform_predictive_modeling stages context)
  | scenario_planning =>
      Returned (EnhancedWorkflows._create_scenario_planning stages query)
  | impact_assessment =>
      Returned (EnhancedWorkflows._assess_holiday_impact stages context)
  | holiday_strategy =>
      Returned (EnhancedWorkflows._create_holiday_strategy stages query)
  | seasonal_optimization =>
      Returned (EnhancedWorkflows._optimize_seasonal_patterns stages context)
  | year_round_strategy =>
      Returned (EnhancedWorkflows._create_year_round_strategy stages query)
  end.

Definition stage_outcome (query : string) (context : Context)
    (agents : dict string Provider) (stages : dict StageName StageResult)
    (stage : string) : Outcome (dict StageName StageResult) :=
  match stage_of_str stage with
  | Some stage_name =>
      (result <- stage_result query context agents stages stage_name ;;
       Returned (dict_set stage_name result stages))%outcome
  | None => Returned stages
  end.

Definition stages_outcome (query : string) (context : Context)
    (agents : dict string Provider) (stage_list : list string)
    (stages : dict StageName StageResult) : Outcome (dict StageName StageResult) :=
  ofold (stage_outcome query context agents) stage_list stages.

Definition run_outcome (workflow_ : Template) (query : string) (context : Context)
    (agents : dict string Provider) (timestamp : string) : Outcome (dict string RunVal) :=
  (stages <- stages_outcome query context agents (workflow workflow_) [] ;;
   recommendations <- EnhancedWorkflows._generate_prioritized_recommendations stages ;;
   Returned
     [("workflow_name", VStr (name workflow_));
      ("query", VStr query);
      ("timestamp", VStr timestamp);
      ("stages", VStages stages);
      ("synthesis", VStr (EnhancedWorkflows._generate_final_synthesis stages workflow_));
      ("recommendations", VRecs recommendations);
      ("next_steps", VLines (EnhancedWorkflows._generate_next_steps stages query))])%outcome.

End Outcomes.

(** [w'] is [w] with more lines printed: the objects and the clock are
    the same. *)
Definition extends (w w' : World) : Prop :=
  master_agent w' = master_agent w /\
  enhanced_workflows w' = enhanced_workflows w /\
  clock w' = clock w /\
  exists printed, stdout w' = stdout w ++ printed.

(** [m] computes the outcome [o] and only prints. *)
Definition computes {A : Type} (m : Py A) (w : World) (o : Outcome A) : Prop :=
  exists w', m w = (o, w') /\ extends w w'.

(** The strings of a list that name stages. *)
Definition names_stage (s : string) : bool :=
  match stage_of_str s with Some _ => true | None => false end.

(** A list without the repetitions of its elements: first occurrences,
    in order. *)
Fixpoint first_occurrences (xs : list string) : list string :=
  match xs with
  | [] => []
  | x :: rest => x :: filter (fun y => negb (String.eqb y x)) (first_occurrences rest)
  end.

(** The keys after one more assignment. *)
Definition add_key (keys : list string) (key : string) : list string :=
  if in_list key keys then keys else keys ++ [key].

(** What the orchestrator can read of a provider's result without
    raising: a value under ['insights'] or ['recommendations'] that can be
    iterated and whose elements are all dicts, with priorities that can
    be hashed. *)
Definition is_dict_entry (entry : PyVal) : bool :=
  match entry with PyDict _ => true | _ => false end.

Definition dict_entries (value : option PyVal) : bool :=
  match value with
  | Some value =>
      match elements value with
      | Returned entries => forallb is_dict_entry entries
      | Raised _ => false
      end
  | None => true
  end.

Definition hashable (value : PyVal) : bool :=
  match value with PyList _ | PyDict _ => false | _ => true end.

Definition hashable_priority (entry : PyVal) : bool :=
  match entry with
  | PyDict fields => hashable (dict_get_default "priority" (PyStr "medium") fields)
  | _ => true
  end.

Definition hashable_priorities (value : option PyVal) : bool :=
  match value with
  | Some value =>
      match elements value with
      | Returned entries => forallb hashable_priority entries
      | Raised _ => true
      end
  | None => true
  end.

Definition well_formed (raw : RawResult) : bool :=
  dict_entries (dict_get "insights" raw) && dict_entries (dict_get "recommendations" raw)
  && hashable_priorities (dict_get "recommendations" raw).

(** A stage result whose provider payload, if it has one, is well formed. *)
Definition stage_ok (stage_result : StageResult) : bool :=
  match get_raw_result stage_result with
  | Some raw => well_formed raw
  | None => true
  end.

Definition stages_ok (stages : dict StageName StageResult) : Prop :=
  Forall (fun entry => stage_ok (snd entry) = true) stages.

(** The providers keep to the shape the orchestrator reads: whatever an
    agent stage's provider returns for this request is well formed. *)
Definition providers_well_formed {builtins : StrBuiltins} (agents : dict string Provider)
    (query : string) (context : Context) : Prop :=
  forall stage summary raw,
    call_provider agents stage query context = Returned (summary, raw) ->
    well_formed raw = true.

(** One of the three keys of [priority_order]. *)
Definition listed (value : PyVal) : bool :=
  match value with
  | PyStr priority => in_list priority ["high"; "medium"; "low"]
  | _ => false
  end.

(** A recommendation with its priority read as ['medium'] when that is
    a value that can be hashed other than the three listed strings. *)
Definition as_medium (x : Recommendation) : Recommendation :=
  if hashable (priority x) && negb (listed (priority x))
  then mkRecommendation (PyStr "medium") (rec_description x) (source x)
  else x.

(** The key of an element under a key function that can raise; a sort
    that returns has computed every key. *)
Definition key_of {A : Type} (key : A -> Outcome nat) (x : A) : nat :=
  match key x with Returned k => k | Raised _ => 0 end.

(** Under an agent stage's key there is only ever that provider's result. *)
Definition agent_entries {builtins : StrBuiltins} (query : string) (context : Context)
    (agents : dict string Provider) (stages : dict StageName StageResult) : Prop :=
  forall a result,
    dict_get (agent_stage a) stages = Some result ->
    result = agent_result agents a query context.

(** [outcome] raises nothing but exceptions of [kind]. *)
Definition raises_only {A : Type} (kind : Exn -> Prop) (outcome : Outcome A) : Prop :=
  forall e, outcome = Raised e -> kind e.

(** The exceptions of reading a provider's result: the [AttributeError]
    of calling [.get] on a value that is no dict, and the [TypeError] of
    iterating a value that cannot be iterated or of hashing a priority
    that cannot be hashed. *)
Definition payload_error (e : Exn) : Prop :=
  exn_type e = "AttributeError" \/ exn_type e = "TypeError".

(** The dict of [_cross_validate_results]: a score of 0.0, 1.0 or 0.8 and
    three empty lists. *)
Definition validation_of (result : StageResult) : Prop :=
  exists score,
    result = Validation score [] [] [] /\
    (score = 0 \/ score = 1 \/ score = 8 # 10)%Q.

(** What [process_query] computes, given that the selector is handed the
    empty string and so looks up ['strategic_analysis']. *)
Definition process_outcome {builtins : StrBuiltins} (w : World) (query : string)
    (context : Context) : Outcome FinalResult :=
  (workflow_ <-
     match dict_get "strategic_analysis" (workflow_templates (enhanced_workflows w)) with
     | Some template => Returned template
     | None => Raised (KeyError "strategic_analysis")
     end ;;
   results <- run_outcome workflow_ query context (agents (master_agent w)) (clock w) ;;
   synthesis <-
     match dict_get "synthesis" results with
     | Some value => Returned value
     | None => Raised (KeyError "synthesis")
     end ;;
   Returned (Success query (name workflow_) (template_agents workflow_) results synthesis
                     (clock w)))%outcome.

Definition final_result {builtins : StrBuiltins} (w : World) (query : string)
    (context : Context) : FinalResult :=
  match process_outcome w query context with
  | Returned final => final
  | Raised e => Failure (exn_str e) query (clock w)
  end.

(** ** Example inputs *)

(** A provider that answers every request with [raw] and [summary]. *)
Definition answering (summary : string) (raw : RawResult) : Provider :=
  mkProvider (fun _ _ => Returned raw) (fun _ => Returned summary).

(** A provider whose query method raises [RuntimeError(message)]. *)
Definition failing (message : string) : Provider :=
  mkProvider (fun _ _ => Raised (mkExn "RuntimeError" message)) (fun _ => Returned "").

(** A result without ['insights'] and ['recommendations']. *)
Definition no_lists : RawResult := [].

(** A recommendation as the research agent writes it. *)
Definition advice (priority description : string) : PyVal :=
  PyDict [("priority", PyStr priority); ("description", PyStr description)].

Definition recommending (entries : list PyVal) : RawResult :=
  [("recommendations", PyList entries)].

(** The world after both [__init__], nothing printed yet. *)
Definition initial_world (data_analysis_agent business_advisor_agent research_agent
                          chat_agent : Provider) : World :=
  mkWorld (MasterAgent.__init__ data_analysis_agent business_advisor_agent
                                research_agent chat_agent)
          EnhancedWorkflows.__init__ [] "2025-01-01T00:00:00".

(** Data analysis and business advice answer, research raises. *)
Definition research_down : World :=
  initial_world (answering "datos" no_lists)
                (answering "negocio"
                   (recommending [advice "low" "x";
                                  advice "high" "y"]))
                (failing "boom")
                (answering "chat" no_lists).

(** Research raises; the business advisor answers as the advisor of this
    repository does, with plain strings under ['recommendations']
    ([BusinessAdvisorAgent._generate_recommendations] starts its list
    with a heading and an empty line). *)
Definition advisor_text : RawResult :=
  recommending [PyStr "**Recomendaciones para Turismo:**"; PyStr ""].

Definition research_down_advisor_text : World :=
  initial_world (answering "datos" no_lists)
                (answering "negocio" advisor_text)
                (failing "boom")
                (answering "chat" no_lists).

(** The data-analysis provider gives one recommendation whose priority
    is a list. *)
Definition list_priority : World :=
  initial_world (answering "datos"
                   (recommending [PyDict [("priority", PyList [PyStr "high"]);
                                          ("description", PyStr "x")]]))
                (answering "negocio" no_lists)
                (answering "contexto" no_lists)
                (answering "chat" no_lists).

(** Three stages that recommend, in stage order, [low x], [high y],
    [medium z] and [high w]. *)
Definition four_recommendations : World :=
  initial_world (answering "datos" (recommending [advice "low" "x"]))
                (answering "negocio"
                   (recommending [advice "medium" "z";
                                  advice "high" "w"]))
                (answering "contexto" (recommending [advice "high" "y"]))
                (answering "chat" no_lists).


(** The per-agent results of [research_down] as the basic synthesis of
    [_synthesize_results] reads them. *)
Definition research_down_results : dict string RunVal :=
  [("data_analysis", VResult (AgentSuccess "datos" no_lists));
   ("research", VResult (AgentFailure "boom"));
   ("business_advisor",
    VResult (AgentSuccess "negocio"
               (recommending [advice "low" "x";
                              advice "high" "y"])))].

(** ** Notions of the further properties *)

(** The answers of the three agent providers to a request are all well
    formed. *)
Definition providers_ok {builtins : StrBuiltins} (agents : dict string Provider)
    (query : string) (context : Context) : bool :=
  forallb (fun stage =>
             match call_provider agents stage query context with
             | Returned (_, raw) => well_formed raw
             | Raised _ => true
             end)
          [data_analysis; research; business_advisor].

(** A template without the strings of its ['workflow'] list that name no
    stage. *)
Definition known_stages_only (workflow_ : Template) : Template :=
  mkTemplate (name workflow_) (description workflow_) (template_agents workflow_)
             (filter names_stage (workflow workflow_)) (output_format workflow_).

(** The stub stages and what they store. *)
Definition stub_result (stage_name : StageName) : option StageResult :=
  match stage_name with
  | competitive_analysis => Some (Placeholder "analysis" "Competitive analysis placeholder")
  | implementation_plan => Some (Placeholder "plan" "Implementation plan placeholder")
  | predictive_modeling => Some (Placeholder "model" "Predictive model placeholder")
  | scenario_planning => Some (Placeholder "scenarios" "Scenario planning placeholder")
  | impact_assessment => Some (Placeholder "impact" "Holiday impact assessment placeholder")
  | holiday_strategy => Some (Placeholder "strategy" "Holiday strategy placeholder")
  | seasonal_optimization =>
      Some (Placeholder "optimization" "Seasonal optimization placeholder")
  | year_round_strategy => Some (Placeholder "strategy" "Year-round strategy placeholder")
  | _ => None
  end.

(** The dict of [_create_strategic_synthesis] for [query]: at most five
    findings, none of them falsy (an empty string, say). *)
Definition findings_of (query : string) (result : StageResult) : Prop :=
  exists findings,
    result = StrategicSynthesis ("Análisis estratégico completo para: " ++ query)
                                findings [] [] [] /\
    length findings <= 5 /\
    Forall (fun finding => truthy finding = true) findings.

(** What a stage of a run can hold under its name. *)
Definition entry_sound {builtins : StrBuiltins} (query : string) (context : Context)
    (agents : dict string Provider) (stage_name : StageName) (result : StageResult) : Prop :=
  match stage_name with
  | agent_stage stage => result = agent_result agents stage query context
  | cross_validation => validation_of result
  | strategic_synthesis => findings_of query result
  | stub => stub_result stub = Some result
  end.

Definition stages_sound {builtins : StrBuiltins} (query : string) (context : Context)
    (agents : dict string Provider) (stages : dict StageName StageResult) : Prop :=
  NoDup (dict_keys stages) /\
  forall stage_name result,
    In (stage_name, result) stages -> entry_sound query context agents stage_name result.

(** Every provider raises. *)
Definition all_down : World :=
  initial_world (failing "sin datos") (failing "sin negocio") (failing "sin red")
                (failing "sin chat").

(** Descending order of rational keys. *)
Definition descending_q {A : Type} (key : A -> Q) (xs : list A) : Prop :=
  StronglySorted (fun a b => (key b <= key a)%Q) xs.

(** * Proofs *)

(** ** The world only grows by printed lines *)

Lemma extends_refl w : extends w w.
Proof.
  repeat split. exists []. now rewrite app_nil_r.
Qed.

Lemma extends_trans w1 w2 w3 : extends w1 w2 -> extends w2 w3 -> extends w1 w3.
Proof.
  intros (M1 & E1 & C1 & p1 & S1) (M2 & E2 & C2 & p2 & S2).
  repeat split; try congruence.
  exists (p1 ++ p2). rewrite S2, S1. now rewrite app_assoc.
Qed.

Lemma print_extends line w : extends w (snd (print line w)).
Proof.
  repeat split. now exists [line].
Qed.

(** ** The executor computes [run_outcome] *)

Section Erasure.
Context {builtins : StrBuiltins}.

Lemma computes_ret {A} (a : A) w : computes (ret a) w (Returned a).
Proof. exists w. split; [reflexivity | apply extends_refl]. Qed.

Lemma computes_lift {A} (o : Outcome A) w : computes (lift o) w o.
Proof. exists w. split; [reflexivity | apply extends_refl]. Qed.

Lemma computes_debug label w : computes (debug label) w (Returned tt).
Proof. eexists. split; [reflexivity | apply print_extends]. Qed.

Lemma computes_bind {A B} (m : Py A) (k : A -> Py B) w (o : Outcome A) (o' : Outcome B) :
  computes m w o ->
  (forall a w', o = Returned a -> extends w w' -> computes (k a) w' o') ->
  (forall e, o = Raised e -> o' = Raised e) ->
  computes (bind m k) w o'.
Proof.
  intros (w1 & E1 & X1) K R. unfold computes, bind. rewrite E1.
  destruct o as [a|e].
  - destruct (K a w1 eq_refl X1) as (w2 & E2 & X2).
    exists w2. split; [exact E2 | eapply extends_trans; eassumption].
  - rewrite (R e eq_refl). exists w1. split; [reflexivity | assumption].
Qed.

Lemma computes_seq {B} label (k : Py B) w (o' : Outcome B) :
  (forall w', extends w w' -> computes k w' o') ->
  computes (bind (debug label) (fun _ => k)) w o'.
Proof.
  intro K. eapply computes_bind with (o := Returned tt).
  - apply computes_debug.
  - intros [] w' _ X. now apply K.
  - discriminate.
Qed.

Lemma execute_agent_stage_computes stage query context agents w :
  computes (EnhancedWorkflows._execute_agent_stage stage query context agents) w
           (Returned (agent_result agents stage query context)).
Proof.
  unfold computes, EnhancedWorkflows._execute_agent_stage, agent_result, call_provider.
  unfold try_except, bind, debug, print, subscript, lift, ret, raise.
  destruct stage; cbn -[String.append];
    (destruct (dict_get _ agents) as [agent|]; cbn -[String.append];
     [ destruct (invoke agent query context) as [result|e]; cbn -[String.append];
       [ destruct (get_summary agent result) as [summary|e]; cbn -[String.append] | ] | ]);
    (eexists; split; [reflexivity | repeat split; eexists; cbn; rewrite <- ?app_assoc; reflexivity]).
Qed.

Lemma execute_stage_computes query context agents stages stage w :
  computes (EnhancedWorkflows.execute_stage query context agents stages stage) w
           (stage_outcome query context agents stages stage).
Proof.
  unfold EnhancedWorkflows.execute_stage, stage_outcome.
  destruct (stage_of_str stage) as [[a| | | | | | | | | |]|]; cbn [stage_result obind];
    try apply computes_ret.
  - eapply computes_bind.
    + apply execute_agent_stage_computes.
    + intros r w' [= <-] _. apply computes_ret.
    + discriminate.
  - eapply computes_bind.
    + apply computes_lift.
    + intros r w' -> _. apply computes_ret.
    + intros e ->. reflexivity.
  - eapply computes_bind.
    + apply computes_lift.
    + intros r w' -> _. apply computes_ret.
    + intros e ->. reflexivity.
Qed.

Lemma for_each_computes query context agents stage_list :
  forall stages w,
    computes (for_each (EnhancedWorkflows.execute_stage query context agents) stage_list stages) w
             (stages_outcome query context agents stage_list stages).
Proof.
  induction stage_list as [|stage rest IH]; intros stages w; cbn.
  - apply computes_ret.
  - eapply computes_bind.
    + apply execute_stage_computes.
    + intros stages' w' -> _. cbn. apply IH.
    + intros e ->. reflexivity.
Qed.

Lemma execute_enhanced_workflow_computes workflow_ query context agents w :
  computes (EnhancedWorkflows.execute_enhanced_workflow workflow_ query context agents) w
           (run_outcome workflow_ query context agents (clock w)).
Proof.
  unfold EnhancedWorkflows.execute_enhanced_workflow, run_outcome.
  do 7 (apply computes_seq; intros ? ?).
  match goal with
  | |- computes _ ?w0 _ =>
      assert (X : extends w w0)
        by (repeat (eapply extends_trans; [eassumption|]); apply extends_refl);
      generalize dependent w0
  end.
  intros w0 _ X. eapply computes_bind with (o := Returned (clock w)).
  - exists w0. split; [|apply extends_refl].
    unfold now_isoformat. destruct X as (_ & _ & -> & _). reflexivity.
  - intros timestamp w1 [= <-] _. eapply computes_bind.
    + apply for_each_computes.
    + intros stages w2 E _. unfold run_outcome. rewrite E. cbn [obind].
      eapply computes_bind.
      * apply computes_lift.
      * intros recs w3 -> _. cbn. apply computes_ret.
      * intros e ->. reflexivity.
    + intros e E. unfold run_outcome. rewrite E. reflexivity.
  - discriminate.
Qed.
End Erasure.
(** ** Dictionaries *)

#[export] Instance string_key_laws : KeyLaws string.
Proof. exact String.eqb_eq. Qed.

Lemma stage_str_inj (a b : StageName) : stage_str a = stage_str b -> a = b.
Proof.
  destruct a as [[]| | | | | | | | | |]; destruct b as [[]| | | | | | | | | |];
    simpl; intro E; try reflexivity; discriminate E.
Qed.

#[export] Instance stage_key_laws : KeyLaws StageName.
Proof.
  intros a b. cbn. unfold stage_eqb. rewrite String.eqb_eq. split.
  - apply stage_str_inj.
  - intros ->. reflexivity.
Qed.

Lemma stage_of_str_sound (s : string) (stage : StageName) :
  stage_of_str s = Some stage -> stage_str stage = s.
Proof.
  unfold stage_of_str. intro F. apply find_some in F.
  destruct F as [_ E]. now apply String.eqb_eq in E.
Qed.

Lemma stage_of_str_complete (stage : StageName) :
  stage_of_str (stage_str stage) = Some stage.
Proof.
  destruct stage as [[]| | | | | | | | | |]; reflexivity.
Qed.

Section DictFacts.
Context {K V : Type} `{KeyLaws K}.

Lemma key_eqb_refl (k : K) : key_eqb k k = true.
Proof. now apply key_eqb_eq. Qed.

Lemma key_eqb_neq (a b : K) : a <> b -> key_eqb a b = false.
Proof.
  intro N. destruct (key_eqb a b) eqn:E; [|reflexivity].
  apply key_eqb_eq in E. contradiction.
Qed.

Lemma dict_get_set_same (k : K) (v : V) (d : dict K V) :
  dict_get k (dict_set k v d) = Some v.
Proof.
  induction d as [|[k' v'] d IH]; cbn.
  - now rewrite key_eqb_refl.
  - destruct (key_eqb k' k) eqn:E; cbn; rewrite E; [reflexivity | exact IH].
Qed.

Lemma dict_get_set_other (k k' : K) (v : V) (d : dict K V) :
  k' <> k -> dict_get k' (dict_set k v d) = dict_get k' d.
Proof.
  intro N. induction d as [|[k0 v0] d IH]; cbn.
  - rewrite key_eqb_neq; [reflexivity | congruence].
  - destruct (key_eqb k0 k) eqn:E; cbn.
    + apply key_eqb_eq in E. subst k0.
      rewrite key_eqb_neq; [reflexivity | congruence].
    + destruct (key_eqb k0 k'); [reflexivity | exact IH].
Qed.

Lemma dict_has_set (k k' : K) (v : V) (d : dict K V) :
  dict_has k' (dict_set k v d) = key_eqb k k' || dict_has k' d.
Proof.
  unfold dict_has. destruct (key_eqb k k') eqn:E.
  - apply key_eqb_eq in E. subst k'. now rewrite dict_get_set_same.
  - rewrite dict_get_set_other; [reflexivity|].
    intros ->. now rewrite key_eqb_refl in E.
Qed.

Lemma dict_has_keys (k : K) (d : dict K V) :
  dict_has k d = existsb (fun k' => key_eqb k' k) (dict_keys d).
Proof.
  unfold dict_has. induction d as [|[k' v'] d IH]; cbn; [reflexivity|].
  destruct (key_eqb k' k); [reflexivity | exact IH].
Qed.

Lemma dict_keys_set (k : K) (v : V) (d : dict K V) :
  dict_keys (dict_set k v d) = if dict_has k d then dict_keys d else dict_keys d ++ [k].
Proof.
  unfold dict_has, dict_keys. induction d as [|[k' v'] d IH]; cbn; [reflexivity|].
  destruct (key_eqb k' k) eqn:E; cbn; [reflexivity|].
  rewrite IH. now destruct (dict_get k d).
Qed.

Lemma dict_get_In (k : K) (v : V) (d : dict K V) :
  dict_get k d = Some v -> In (k, v) d.
Proof.
  induction d as [|[k' v'] d IH]; cbn; [discriminate|].
  destruct (key_eqb k' k) eqn:E.
  - intros [= ->]. apply key_eqb_eq in E. subst. now left.
  - intro G. right. now apply IH.
Qed.

Lemma dict_set_values (P : V -> Prop) (k : K) (v : V) (d : dict K V) :
  P v -> Forall (fun kv => P (snd kv)) d ->
  Forall (fun kv => P (snd kv)) (dict_set k v d).
Proof.
  intros Pv. induction 1 as [|[k' v'] d Pv' Pd IH]; cbn.
  - constructor; [exact Pv | constructor].
  - destruct (key_eqb k' k); constructor; cbn; assumption.
Qed.

End DictFacts.
(** ** Loops that can raise *)

Lemma omap_returns {A B : Type} (f : A -> Outcome B) (xs : list A) :
  (forall x, In x xs -> exists y, f x = Returned y) ->
  exists ys, omap f xs = Returned ys /\ length ys = length xs.
Proof.
  induction xs as [|x xs IH]; intro F; cbn.
  - now exists [].
  - destruct (F x (or_introl eq_refl)) as [y ->].
    destruct IH as (ys & -> & L); [intros; apply F; now right|].
    exists (y :: ys). cbn. now rewrite L.
Qed.

Lemma ofold_invariant {A S : Type} (P : S -> Prop) (body : S -> A -> Outcome S)
    (xs : list A) :
  forall s,
    P s ->
    (forall s x s', In x xs -> P s -> body s x = Returned s' -> P s') ->
    forall s', ofold body xs s = Returned s' -> P s'.
Proof.
  induction xs as [|x xs IH]; intros s Ps Step s'; cbn.
  - now intros [= <-].
  - destruct (body s x) as [s1|e] eqn:B; cbn; [|discriminate].
    apply IH.
    + eapply Step; [now left | exact Ps | exact B].
    + intros s2 y s3 I. apply Step. now right.
Qed.

Lemma ofold_returns {A S : Type} (P : S -> Prop) (body : S -> A -> Outcome S)
    (xs : list A) :
  forall s,
    P s ->
    (forall s x, In x xs -> P s -> exists s', body s x = Returned s' /\ P s') ->
    exists s', ofold body xs s = Returned s' /\ P s'.
Proof.
  induction xs as [|x xs IH]; intros s Ps Step; cbn.
  - now exists s.
  - destruct (Step s x (or_introl eq_refl) Ps) as (s1 & -> & P1). cbn.
    apply IH; [exact P1|]. intros s2 y I. apply Step. now right.
Qed.

Lemma omap_returned_all {A B : Type} (f : A -> Outcome B) (xs : list A) (ys : list B) (x : A) :
  omap f xs = Returned ys -> In x xs -> exists y, f x = Returned y.
Proof.
  revert ys. induction xs as [|x0 xs IH]; intros ys; cbn; [intros _ []|].
  destruct (f x0) as [y0|e] eqn:F; cbn; [|discriminate].
  destruct (omap f xs) as [ys0|e]; cbn; [|discriminate].
  intros _ [<-|M]; [now exists y0 | now apply (IH ys0)].
Qed.

Lemma omap_raised_some {A B : Type} (f : A -> Outcome B) (xs : list A) (e : Exn) :
  omap f xs = Raised e -> exists x, In x xs /\ f x = Raised e.
Proof.
  induction xs as [|x0 xs IH]; cbn; [discriminate|].
  destruct (f x0) as [y0|e0] eqn:F; cbn.
  - destruct (omap f xs) as [ys0|e1]; cbn; [discriminate|].
    intros [= <-]. destruct (IH eq_refl) as (x & M & R). exists x. split; [now right | exact R].
  - intros [= <-]. exists x0. split; [now left | exact F].
Qed.

Lemma ofold_returned_all {A S : Type} (body : S -> A -> Outcome S) (xs : list A) (x : A) :
  forall s s', ofold body xs s = Returned s' -> In x xs -> exists s0 s1, body s0 x = Returned s1.
Proof.
  induction xs as [|x0 xs IH]; intros s s'; cbn; [intros _ []|].
  destruct (body s x0) as [s1|e] eqn:B; cbn; [|discriminate].
  intros Run [<-|M]; [now exists s, s1 | now apply (IH s1 s')].
Qed.

Lemma ofold_raised_some {A S : Type} (body : S -> A -> Outcome S) (xs : list A) (e : Exn) :
  forall s, ofold body xs s = Raised e -> exists x s0, In x xs /\ body s0 x = Raised e.
Proof.
  induction xs as [|x0 xs IH]; intros s; cbn; [discriminate|].
  destruct (body s x0) as [s1|e0] eqn:B; cbn.
  - intro Run. destruct (IH s1 Run) as (x & s0 & M & R).
    exists x, s0. split; [now right | exact R].
  - intros [= <-]. exists x0, s. split; [now left | exact B].
Qed.

Lemma omap_members {A B : Type} (f : A -> Outcome B) (xs : list A) (ys : list B) (y : B) :
  omap f xs = Returned ys -> In y ys -> exists x, In x xs /\ f x = Returned y.
Proof.
  revert ys. induction xs as [|x xs IH]; intros ys; cbn.
  - intros [= <-] [].
  - destruct (f x) as [b|e] eqn:F; cbn; [|discriminate].
    destruct (omap f xs) as [bs|e]; cbn; [|discriminate].
    intros [= <-] [<-|M].
    + exists x. split; [now left | exact F].
    + destruct (IH bs eq_refl M) as (x' & I & E). exists x'. split; [now right | exact E].
Qed.

Lemma omap_image {A B : Type} (f : A -> Outcome B) (xs : list A) (ys : list B) (x : A) (y : B) :
  omap f xs = Returned ys -> In x xs -> f x = Returned y -> In y ys.
Proof.
  revert ys. induction xs as [|x0 xs IH]; intros ys; cbn; [intros _ []|].
  destruct (f x0) as [y0|e] eqn:F; cbn; [|discriminate].
  destruct (omap f xs) as [ys0|e]; cbn; [|discriminate].
  intros [= <-] [->|M] Y.
  - left. congruence.
  - right. now apply (IH ys0).
Qed.

(** ** The order of the stage results *)

Section StageOrder.
Context {builtins : StrBuiltins}.

Lemma dict_has_stage_keys (stage : StageName) (stages : dict StageName StageResult) :
  dict_has stage stages = in_list (stage_str stage) (map stage_str (dict_keys stages)).
Proof.
  rewrite dict_has_keys. unfold in_list.
  induction (dict_keys stages) as [|k keys IH]; cbn; [reflexivity|].
  cbn in IH. rewrite IH. unfold stage_eqb. now rewrite String.eqb_sym.
Qed.

Lemma stage_outcome_keys query context agents stages stage stages' :
  stage_outcome query context agents stages stage = Returned stages' ->
  map stage_str (dict_keys stages') =
    if names_stage stage then add_key (map stage_str (dict_keys stages)) stage
    else map stage_str (dict_keys stages).
Proof.
  unfold stage_outcome, names_stage.
  destruct (stage_of_str stage) as [stage_name|] eqn:S.
  - destruct (stage_result _ _ _ _ _) as [result|e]; cbn; [|discriminate].
    intros [= <-]. rewrite dict_keys_set, dict_has_stage_keys.
    apply stage_of_str_sound in S. rewrite S. unfold add_key.
    destruct (in_list stage _); [reflexivity|].
    now rewrite map_app, <- S.
  - now intros [= <-].
Qed.

Lemma stages_outcome_keys query context agents stage_list :
  forall stages stages',
    stages_outcome query context agents stage_list stages = Returned stages' ->
    map stage_str (dict_keys stages') =
      fold_left add_key (filter names_stage stage_list) (map stage_str (dict_keys stages)).
Proof.
  unfold stages_outcome.
  induction stage_list as [|stage rest IH]; intros stages stages'; cbn.
  - now intros [= <-].
  - destruct (stage_outcome _ _ _ stages stage) as [stages1|e] eqn:O; cbn; [|discriminate].
    intro R. rewrite (IH _ _ R). apply stage_outcome_keys in O. rewrite O.
    now destruct (names_stage stage).
Qed.

Lemma filter_absent_app (acc : list string) (x : string) (l : list string) :
  filter (fun y => negb (in_list y (acc ++ [x]))) l =
  filter (fun y => negb (in_list y acc)) (filter (fun y => negb (String.eqb y x)) l).
Proof.
  induction l as [|y l IH]; cbn; [reflexivity|].
  unfold in_list in *. rewrite existsb_app. cbn. rewrite orb_false_r.
  destruct (String.eqb y x) eqn:E; cbn.
  - rewrite orb_true_r. cbn. exact IH.
  - rewrite orb_false_r. destruct (existsb _ acc); cbn; [exact IH | now rewrite IH].
Qed.

Lemma filter_absent_member (acc : list string) (x : string) (l : list string) :
  in_list x acc = true ->
  filter (fun y => negb (in_list y acc)) (filter (fun y => negb (String.eqb y x)) l) =
  filter (fun y => negb (in_list y acc)) l.
Proof.
  intro M. induction l as [|y l IH]; cbn; [reflexivity|].
  destruct (String.eqb y x) eqn:E; cbn.
  - apply String.eqb_eq in E. subst y. rewrite M. cbn. exact IH.
  - destruct (in_list y acc); cbn; [exact IH | now rewrite IH].
Qed.

Lemma fold_add_key (l : list string) :
  forall acc,
    fold_left add_key l acc =
    acc ++ filter (fun y => negb (in_list y acc)) (first_occurrences l).
Proof.
  induction l as [|x l IH]; intro acc; cbn.
  - now rewrite app_nil_r.
  - rewrite IH. unfold add_key. destruct (in_list x acc) eqn:M; cbn.
    + now rewrite filter_absent_member.
    + rewrite filter_absent_app, <- app_assoc. reflexivity.
Qed.

Lemma filter_all (l : list string) :
  filter (fun y => negb (in_list y [])) l = l.
Proof.
  induction l as [|y l IH]; cbn; [reflexivity | f_equal; exact IH].
Qed.

Lemma stages_outcome_order query context agents stage_list stages :
  stages_outcome query context agents stage_list [] = Returned stages ->
  map stage_str (dict_keys stages) = first_occurrences (filter names_stage stage_list).
Proof.
  intro R. rewrite (stages_outcome_keys _ _ _ _ _ _ R), fold_add_key.
  exact (filter_all _).
Qed.

End StageOrder.
(** ** Runs that return *)

Section Runs.
Context {builtins : StrBuiltins}.

(** The dict of a run whose stage loop left [stages] and whose
    recommendations are [recs]. *)
Lemma run_returned workflow_ query context agents w results w' :
  EnhancedWorkflows.execute_enhanced_workflow workflow_ query context agents w
    = (Returned results, w') ->
  exists stages recs,
    stages_outcome query context agents (workflow workflow_) [] = Returned stages /\
    EnhancedWorkflows._generate_prioritized_recommendations stages = Returned recs /\
    results =
      [("workflow_name", VStr (name workflow_));
       ("query", VStr query);
       ("timestamp", VStr (clock w));
       ("stages", VStages stages);
       ("synthesis", VStr (EnhancedWorkflows._generate_final_synthesis stages workflow_));
       ("recommendations", VRecs recs);
       ("next_steps", VLines (EnhancedWorkflows._generate_next_steps stages query))].
Proof.
  intro E.
  destruct (execute_enhanced_workflow_computes workflow_ query context agents w)
    as (w1 & E1 & _).
  rewrite E in E1. injection E1 as R _. symmetry in R. unfold run_outcome in R.
  destruct (stages_outcome _ _ _ _ _) as [stages|e] eqn:S; cbn [obind] in R; [|discriminate].
  destruct (EnhancedWorkflows._generate_prioritized_recommendations stages) as [recs|e] eqn:G;
    cbn [obind] in R; [|discriminate].
  exists stages, recs. injection R as <-. repeat split; assumption.
Qed.

End Runs.
(** ** The stable descending sort *)

Section Sorting.
Context {A : Type} (key : A -> nat).

Lemma insert_descending_perm (x : A) (sorted : list A) :
  Permutation (x :: sorted) (insert_descending key x sorted).
Proof.
  induction sorted as [|y rest IH]; cbn -[Nat.ltb].
  - apply Permutation_refl.
  - destruct (key x <? key y).
    + eapply perm_trans; [apply perm_swap|]. now apply perm_skip.
    + apply Permutation_refl.
Qed.

Lemma sort_reverse_perm (xs : list A) : Permutation xs (sort_reverse key xs).
Proof.
  induction xs as [|x xs IH]; cbn.
  - apply perm_nil.
  - eapply perm_trans; [|apply insert_descending_perm]. now apply perm_skip.
Qed.

Lemma insert_descending_sorted (x : A) (sorted : list A) :
  descending key sorted -> descending key (insert_descending key x sorted).
Proof.
  unfold descending. induction 1 as [|y rest Sorted IH Below]; cbn -[Nat.ltb].
  - constructor; constructor.
  - destruct (key x <? key y) eqn:C.
    + apply Nat.ltb_lt in C. constructor; [exact IH|].
      rewrite Forall_forall in *. intros z Z.
      apply (Permutation_in _ (Permutation_sym (insert_descending_perm x rest))) in Z.
      destruct Z as [<-|Z]; [lia | now apply Below].
    + apply Nat.ltb_ge in C. constructor; [now constructor|].
      constructor; [exact C|].
      rewrite Forall_forall in *. intros z Z. specialize (Below z Z). lia.
Qed.

Lemma sort_reverse_sorted (xs : list A) : descending key (sort_reverse key xs).
Proof.
  induction xs as [|x xs IH]; cbn.
  - constructor.
  - now apply insert_descending_sorted.
Qed.

Lemma insert_descending_keyed (k : nat) (x : A) (sorted : list A) :
  keyed key k (insert_descending key x sorted) = keyed key k (x :: sorted).
Proof.
  unfold keyed. induction sorted as [|y rest IH]; cbn -[Nat.ltb]; [reflexivity|].
  destruct (key x <? key y) eqn:C; [|reflexivity].
  apply Nat.ltb_lt in C. cbn. rewrite IH. cbn.
  destruct (key x =? k) eqn:X, (key y =? k) eqn:Y; try reflexivity.
  apply Nat.eqb_eq in X, Y. lia.
Qed.

(** Stability: elements with equal keys keep their order. *)
Lemma sort_reverse_stable (k : nat) (xs : list A) :
  keyed key k (sort_reverse key xs) = keyed key k xs.
Proof.
  induction xs as [|x xs IH]; [reflexivity|].
  cbn [sort_reverse fold_right]. rewrite insert_descending_keyed.
  fold (sort_reverse key xs). unfold keyed in *. cbn. now rewrite IH.
Qed.

(** A descending list is determined by its elements of each key: the
    stable descending sort of a list is unique, whatever algorithm
    computes it. *)
Lemma descending_unique (xs ys : list A) :
  descending key xs -> descending key ys ->
  (forall k, keyed key k xs = keyed key k ys) -> xs = ys.
Proof.
  intros Sx. revert ys.
  induction Sx as [|x xs Sx IH Bx]; intros ys Sy Same.
  - destruct ys as [|y ys]; [reflexivity|].
    specialize (Same (key y)). unfold keyed in Same. cbn in Same.
    rewrite Nat.eqb_refl in Same. discriminate.
  - destruct Sy as [|y ys Sy By].
    { specialize (Same (key x)). unfold keyed in Same. cbn in Same.
      rewrite Nat.eqb_refl in Same. discriminate. }
    assert (Ix : In x (y :: ys)).
    { pose proof (Same (key x)) as S. unfold keyed in S.
      assert (M : In x (filter (fun z => key z =? key x) (y :: ys))).
      { rewrite <- S. cbn. rewrite Nat.eqb_refl. now left. }
      now apply filter_In in M. }
    assert (Iy : In y (x :: xs)).
    { pose proof (Same (key y)) as S. unfold keyed in S.
      assert (M : In y (filter (fun z => key z =? key y) (x :: xs))).
      { rewrite S. cbn. rewrite Nat.eqb_refl. now left. }
      now apply filter_In in M. }
    assert (Kxy : key x = key y).
    { rewrite Forall_forall in Bx, By.
      destruct Ix as [->|Ix]; [reflexivity|].
      destruct Iy as [->|Iy]; [reflexivity|].
      specialize (Bx y Iy). specialize (By x Ix). lia. }
    assert (Exy : x = y).
    { pose proof (Same (key x)) as S. unfold keyed in S. cbn in S.
      rewrite Nat.eqb_refl in S. rewrite <- Kxy, Nat.eqb_refl in S. congruence. }
    subst y. f_equal. apply IH; [exact Sy|].
    intro k. specialize (Same k). unfold keyed in *. cbn in Same.
    destruct (key x =? k); congruence.
Qed.

Lemma stable_sort_unique (xs sorted : list A) :
  descending key sorted -> (forall k, keyed key k sorted = keyed key k xs) ->
  sorted = sort_reverse key xs.
Proof.
  intros S Same. apply descending_unique; [exact S | apply sort_reverse_sorted|].
  intro k. now rewrite Same, sort_reverse_stable.
Qed.

End Sorting.

(** Sorting commutes with a map that keeps the keys. *)
Lemma sort_reverse_map {A B : Type} (key : A -> nat) (key' : B -> nat) (f : A -> B)
    (xs : list A) :
  (forall x, key' (f x) = key x) ->
  sort_reverse key' (map f xs) = map f (sort_reverse key xs).
Proof.
  intro Keeps.
  assert (Insert : forall x sorted,
             insert_descending key' (f x) (map f sorted)
             = map f (insert_descending key x sorted)).
  { intros x sorted. induction sorted as [|y rest IH]; cbn -[Nat.ltb]; [reflexivity|].
    rewrite !Keeps. destruct (key x <? key y); cbn; [now rewrite IH | reflexivity]. }
  induction xs as [|x xs IH]; cbn; [reflexivity|].
  fold (sort_reverse key' (map f xs)). fold (sort_reverse key xs).
  now rewrite IH, Insert.
Qed.

(** ** Sorting with a key function that can raise *)

Lemma omap_key_of {A : Type} (key : A -> Outcome nat) (xs : list A) :
  (forall x, In x xs -> exists k, key x = Returned k) ->
  omap key xs = Returned (map (key_of key) xs).
Proof.
  induction xs as [|x xs IH]; intro Keys; [reflexivity|]. cbn.
  destruct (Keys x (or_introl eq_refl)) as (k & K). unfold key_of at 1. rewrite K. cbn.
  rewrite IH; [reflexivity|]. intros y M. apply Keys. now right.
Qed.

Lemma decorated_sort {A : Type} (rank : A -> nat) (xs : list A) :
  map snd (sort_reverse fst (combine (map rank xs) xs)) = sort_reverse rank xs.
Proof.
  assert (Pairs : combine (map rank xs) xs = map (fun x => (rank x, x)) xs).
  { induction xs as [|x xs IH]; cbn; [reflexivity | now rewrite IH]. }
  rewrite Pairs, (sort_reverse_map rank fst (fun x => (rank x, x))) by reflexivity.
  rewrite map_map. cbn. apply map_id.
Qed.

(** A sort whose keys all return is the stable descending sort by
    these keys. *)
Lemma sort_reverse_by_returns {A : Type} (key : A -> Outcome nat) (xs : list A) :
  (forall x, In x xs -> exists k, key x = Returned k) ->
  sort_reverse_by key xs = Returned (sort_reverse (key_of key) xs).
Proof.
  intro Keys. unfold sort_reverse_by. rewrite (omap_key_of key xs Keys). cbn [obind].
  now rewrite decorated_sort.
Qed.

Lemma sort_reverse_by_returned {A : Type} (key : A -> Outcome nat) (xs sorted : list A) :
  sort_reverse_by key xs = Returned sorted ->
  sorted = sort_reverse (key_of key) xs /\
  forall x, In x xs -> key x = Returned (key_of key x).
Proof.
  intro Sorted.
  assert (Keys : forall x, In x xs -> exists k, key x = Returned k).
  { unfold sort_reverse_by in Sorted.
    destruct (omap key xs) as [keys|e] eqn:K; cbn [obind] in Sorted; [|discriminate].
    intros x M. exact (omap_returned_all key xs keys x K M). }
  rewrite (sort_reverse_by_returns key xs Keys) in Sorted. injection Sorted as <-.
  split; [reflexivity|]. intros x M. destruct (Keys x M) as (k & K).
  unfold key_of. now rewrite K.
Qed.

(** A sort that raises raises what the key of one of its elements raises. *)
Lemma sort_reverse_by_raised {A : Type} (key : A -> Outcome nat) (xs : list A) (e : Exn) :
  sort_reverse_by key xs = Raised e -> exists x, In x xs /\ key x = Raised e.
Proof.
  unfold sort_reverse_by. intro Sorted.
  destruct (omap key xs) as [keys|e'] eqn:K; cbn [obind] in Sorted; [discriminate|].
  injection Sorted as <-. now apply omap_raised_some.
Qed.

(** ** Well-formed payloads never make a run raise *)

Section Containment.
Context {builtins : StrBuiltins}.

Lemma py_get_returns (entry : PyVal) (key : string) (default : PyVal) :
  is_dict_entry entry = true ->
  exists value, py_get entry key default = Returned value.
Proof.
  destruct entry; cbn; intro D; try discriminate. eauto.
Qed.

Lemma descriptions_return (value : option PyVal) :
  dict_entries value = true ->
  exists found,
    match value with
    | Some value => EnhancedWorkflows.descriptions value
    | None => Returned []
    end = Returned found.
Proof.
  destruct value as [value|]; cbn; intro D; [|eauto].
  unfold EnhancedWorkflows.descriptions.
  destruct (elements value) as [entries|e]; [|discriminate]. cbn [obind].
  destruct (omap_returns (fun entry => py_get entry "description" (PyStr "")) entries)
    as (found & E & _).
  - intros entry I. apply py_get_returns.
    rewrite forallb_forall in D. now apply D.
  - eauto.
Qed.

Lemma well_formed_parts (raw : RawResult) :
  well_formed raw = true ->
  dict_entries (dict_get "insights" raw) = true /\
  dict_entries (dict_get "recommendations" raw) = true /\
  hashable_priorities (dict_get "recommendations" raw) = true.
Proof.
  unfold well_formed. intro W. apply andb_true_iff in W. destruct W as [W H].
  apply andb_true_iff in W. tauto.
Qed.

Lemma extract_key_insights_returns (stage_result : StageResult) :
  stage_ok stage_result = true ->
  exists found, EnhancedWorkflows._extract_key_insights stage_result = Returned found.
Proof.
  unfold stage_ok, EnhancedWorkflows._extract_key_insights.
  destruct (get_raw_result stage_result) as [raw|]; [|eauto].
  intro W. apply well_formed_parts in W. destruct W as (WI & WR & _).
  destruct (descriptions_return _ WI) as [from_insights ->].
  destruct (descriptions_return _ WR) as [from_recommendations ->].
  cbn. eauto.
Qed.

Lemma collect_insights_returns (stages : dict StageName StageResult) :
  stages_ok stages ->
  exists found, EnhancedWorkflows.collect_insights stages = Returned found.
Proof.
  intro OK. unfold EnhancedWorkflows.collect_insights.
  destruct (ofold_returns (fun _ => True)
              (fun insights '(stage_name, stage_result) =>
                 if get_success stage_result then
                   (found <- EnhancedWorkflows._extract_key_insights stage_result ;;
                    Returned (dict_set stage_name found insights))%outcome
                 else Returned insights) stages [] I) as (found & E & _); [|eauto].
  intros insights [stage_name stage_result] M _.
  destruct (get_success stage_result); [|eauto].
  unfold stages_ok in OK. rewrite Forall_forall in OK. specialize (OK _ M). cbn in OK.
  destruct (extract_key_insights_returns _ OK) as [found ->]. cbn. eauto.
Qed.

Lemma cross_validate_returns (stages : dict StageName StageResult) :
  stages_ok stages ->
  exists score,
    EnhancedWorkflows._cross_validate_results stages = Returned (Validation score [] [] []) /\
    (score = 0%Q \/ score = 1%Q \/ score = (8 # 10)%Q).
Proof.
  intro OK. unfold EnhancedWorkflows._cross_validate_results.
  destruct (collect_insights_returns _ OK) as [found ->]. cbn [obind].
  destruct (2 <=? length found).
  - unfold EnhancedWorkflows._calculate_consistency_score.
    destruct (_ <? 2); eauto.
  - eauto.
Qed.

Lemma strategic_synthesis_returns (stages : dict StageName StageResult) (query : string) :
  stages_ok stages ->
  exists summary findings,
    EnhancedWorkflows._create_strategic_synthesis stages query
    = Returned (StrategicSynthesis summary findings [] [] []).
Proof.
  intro OK. unfold EnhancedWorkflows._create_strategic_synthesis.
  destruct (ofold_returns (fun _ => True)
              (fun all_insights '(stage_name, stage_result) =>
                 if get_success stage_result then
                   (found <- EnhancedWorkflows._extract_key_insights stage_result ;;
                    Returned (all_insights ++ found))%outcome
                 else Returned all_insights) stages [] I) as (found & -> & _).
  - intros insights [stage_name stage_result] M _.
    destruct (get_success stage_result); [|eauto].
    unfold stages_ok in OK. rewrite Forall_forall in OK. specialize (OK _ M). cbn in OK.
    destruct (extract_key_insights_returns _ OK) as [found ->]. cbn. eauto.
  - cbn [obind]. eauto.
Qed.

(** The recommendations extracted from well-formed stages have
    priorities that can be hashed. *)
Lemma extract_recommendations_returns (stages : dict StageName StageResult) :
  stages_ok stages ->
  exists found,
    EnhancedWorkflows.extract_recommendations stages = Returned found /\
    Forall (fun x => hashable (priority x) = true) found.
Proof.
  intro OK. unfold EnhancedWorkflows.extract_recommendations.
  apply ofold_returns; [constructor|].
  intros found [stage_name stage_result] M Hashable.
  unfold stages_ok in OK. rewrite Forall_forall in OK. specialize (OK _ M).
  unfold stage_ok in OK. cbn in OK.
  destruct (get_success stage_result); [|eauto].
  destruct (get_raw_result stage_result) as [raw|]; [|eauto].
  apply well_formed_parts in OK. destruct OK as (_ & WR & WH).
  destruct (dict_get "recommendations" raw) as [value|]; [|eauto].
  cbn in WR, WH. destruct (elements value) as [entries|e]; [|discriminate].
  cbn [obind]. rewrite forallb_forall in WR, WH.
  match goal with
  | |- exists s', (added <- omap ?f _ ;; _)%outcome = _ /\ _ =>
      destruct (omap_returns f entries) as (added & Added & _)
  end.
  - intros entry IE. specialize (WR _ IE).
    destruct (py_get_returns entry "priority" (PyStr "medium") WR) as [p ->].
    destruct (py_get_returns entry "description" (PyStr "") WR) as [d ->]. cbn. eauto.
  - rewrite Added. cbn [obind]. eexists. split; [reflexivity|].
    apply Forall_app. split; [exact Hashable|].
    rewrite Forall_forall. intros x X.
    destruct (omap_members _ _ _ _ Added X) as (entry & IE & Made).
    specialize (WH _ IE). destruct entry; cbn in Made; try discriminate.
    injection Made as <-. exact WH.
Qed.

Lemma sort_key_returns (x : Recommendation) :
  hashable (priority x) = true ->
  exists k, EnhancedWorkflows.sort_key x = Returned k.
Proof.
  unfold EnhancedWorkflows.sort_key, EnhancedWorkflows.priority_order_get.
  destruct (priority x); cbn; intro H; try discriminate; eauto.
Qed.

Lemma prioritized_recommendations_returns (stages : dict StageName StageResult) :
  stages_ok stages ->
  exists recs, EnhancedWorkflows._generate_prioritized_recommendations stages = Returned recs.
Proof.
  intro OK. unfold EnhancedWorkflows._generate_prioritized_recommendations.
  destruct (extract_recommendations_returns _ OK) as (found & -> & Hashable). cbn [obind].
  rewrite sort_reverse_by_returns; [eauto|].
  intros x M. apply sort_key_returns. rewrite Forall_forall in Hashable. now apply Hashable.
Qed.

Lemma agent_result_ok agents stage query context :
  providers_well_formed agents query context ->
  stage_ok (agent_result agents stage query context) = true.
Proof.
  intro C. unfold agent_result.
  destruct (call_provider agents stage query context) as [[summary raw]|e] eqn:P;
    [|reflexivity].
  exact (C _ _ _ P).
Qed.

Lemma stage_result_returns query context agents stages stage_name :
  providers_well_formed agents query context ->
  stages_ok stages ->
  exists result,
    stage_result query context agents stages stage_name = Returned result /\
    stage_ok result = true.
Proof.
  intros C OK. destruct stage_name; cbn [stage_result]; eauto using agent_result_ok.
  - destruct (cross_validate_returns _ OK) as (score & -> & _). eauto.
  - destruct (strategic_synthesis_returns _ query OK) as (summary & findings & ->). eauto.
Qed.

Lemma stage_outcome_returns query context agents stages stage :
  providers_well_formed agents query context ->
  stages_ok stages ->
  exists stages',
    stage_outcome query context agents stages stage = Returned stages' /\
    stages_ok stages'.
Proof.
  intros C OK. unfold stage_outcome.
  destruct (stage_of_str stage) as [stage_name|]; [|eauto].
  destruct (stage_result_returns query context agents stages stage_name C OK)
    as (result & -> & R).
  cbn [obind]. eexists. split; [reflexivity|].
  now apply (dict_set_values (fun r => stage_ok r = true)).
Qed.

Lemma stages_outcome_returns query context agents stage_list stages :
  providers_well_formed agents query context ->
  stages_ok stages ->
  exists stages',
    stages_outcome query context agents stage_list stages = Returned stages' /\
    stages_ok stages'.
Proof.
  intros C OK. apply ofold_returns; [exact OK|].
  intros stages0 stage _ OK0. now apply stage_outcome_returns.
Qed.

(** A stage of the list is a key afterwards, and keys are never removed. *)
Lemma stages_outcome_has query context agents stage_list :
  forall stages stages' stage_name,
    stages_outcome query context agents stage_list stages = Returned stages' ->
    dict_has stage_name stages = true \/ In (stage_str stage_name) stage_list ->
    dict_has stage_name stages' = true.
Proof.
  unfold stages_outcome.
  induction stage_list as [|stage rest IH]; intros stages stages' stage_name; cbn.
  - intros [= <-] [D|[]]. exact D.
  - destruct (stage_outcome _ _ _ stages stage) as [stages1|e] eqn:O; cbn; [|discriminate].
    intros R D. apply (IH _ _ _ R).
    unfold stage_outcome in O.
    destruct D as [D|[->|D]]; [left|left|now right].
    + destruct (stage_of_str stage) as [stage_name'|]; [|now injection O as <-].
      destruct (stage_result _ _ _ _ _); cbn in O; [|discriminate].
      injection O as <-. rewrite dict_has_set, D. apply orb_true_r.
    + rewrite stage_of_str_complete in O.
      destruct (stage_result _ _ _ _ _); cbn in O; [|discriminate].
      injection O as <-. now rewrite dict_has_set, key_eqb_refl.
Qed.

Lemma stages_outcome_agent_entries query context agents stage_list stages stages' :
  agent_entries query context agents stages ->
  stages_outcome query context agents stage_list stages = Returned stages' ->
  agent_entries query context agents stages'.
Proof.
  intros J R. revert stages' R.
  apply (ofold_invariant (agent_entries query context agents)); [exact J|].
  clear. intros stages stage stages' _ J O a result G.
  unfold stage_outcome in O.
  destruct (stage_of_str stage) as [stage_name|]; [|injection O as <-; now apply J].
  destruct (stage_result _ _ _ _ stage_name) as [r|e] eqn:SR; cbn in O; [|discriminate].
  injection O as <-.
  destruct (key_eqb stage_name (agent_stage a)) eqn:E.
  - apply key_eqb_eq in E. subst stage_name.
    rewrite dict_get_set_same in G. cbn in SR. congruence.
  - rewrite dict_get_set_other in G; [now apply J|].
    intros <-. now rewrite key_eqb_refl in E.
Qed.

End Containment.

(** ** The only exceptions that leave the executor *)

Lemma raises_only_returned {A} e0 (a : A) : raises_only e0 (Returned a).
Proof. intros e. discriminate. Qed.

Lemma raises_only_obind {A B} e0 (m : Outcome A) (k : A -> Outcome B) :
  raises_only e0 m -> (forall a, m = Returned a -> raises_only e0 (k a)) ->
  raises_only e0 (obind m k).
Proof.
  intros M K e. destruct m as [a|e1]; cbn.
  - now apply K.
  - intros [= <-]. now apply M.
Qed.

Lemma raises_only_omap {A B} e0 (f : A -> Outcome B) (xs : list A) :
  (forall x, raises_only e0 (f x)) -> raises_only e0 (omap f xs).
Proof.
  intro F. induction xs as [|x xs IH]; cbn.
  - apply raises_only_returned.
  - apply raises_only_obind; [apply F|]. intros y _.
    apply raises_only_obind; [exact IH|]. intros ys _. apply raises_only_returned.
Qed.

Lemma raises_only_ofold {A S} e0 (body : S -> A -> Outcome S) (xs : list A) :
  (forall s x, raises_only e0 (body s x)) -> forall s, raises_only e0 (ofold body xs s).
Proof.
  intro F. induction xs as [|x xs IH]; intro s; cbn.
  - apply raises_only_returned.
  - apply raises_only_obind; [apply F|]. intros s' _. apply IH.
Qed.

Section Escapes.
Context {builtins : StrBuiltins}.

Lemma py_get_raises value key default :
  raises_only payload_error (py_get value key default).
Proof.
  destruct value; intros e; cbn; try discriminate; intros [= <-]; now left.
Qed.

Lemma elements_raises value : raises_only payload_error (elements value).
Proof.
  destruct value; intros e; cbn; try discriminate; intros [= <-]; now right.
Qed.

Lemma py_hash_raises value : raises_only payload_error (py_hash value).
Proof.
  destruct value; intros e; cbn; try discriminate; intros [= <-]; now right.
Qed.

Lemma descriptions_raise value :
  raises_only payload_error (EnhancedWorkflows.descriptions value).
Proof.
  unfold EnhancedWorkflows.descriptions.
  apply raises_only_obind; [apply elements_raises|]. intros entries _.
  apply raises_only_omap. intro entry. apply py_get_raises.
Qed.

Lemma extract_key_insights_raises stage_result :
  raises_only payload_error (EnhancedWorkflows._extract_key_insights stage_result).
Proof.
  unfold EnhancedWorkflows._extract_key_insights.
  destruct (get_raw_result stage_result) as [raw|]; [|apply raises_only_returned].
  apply raises_only_obind.
  - destruct (dict_get "insights" raw); [|apply raises_only_returned].
    apply descriptions_raise.
  - intros from_insights _. apply raises_only_obind.
    + destruct (dict_get "recommendations" raw); [|apply raises_only_returned].
      apply descriptions_raise.
    + intros from_recommendations _. apply raises_only_returned.
Qed.

Lemma cross_validate_raises stages :
  raises_only payload_error (EnhancedWorkflows._cross_validate_results stages).
Proof.
  unfold EnhancedWorkflows._cross_validate_results, EnhancedWorkflows.collect_insights.
  apply raises_only_obind.
  - apply raises_only_ofold. intros insights [stage_name stage_result].
    destruct (get_success stage_result); [|apply raises_only_returned].
    apply raises_only_obind; [apply extract_key_insights_raises|].
    intros found _. apply raises_only_returned.
  - intros insights _. destruct (2 <=? length insights); apply raises_only_returned.
Qed.

Lemma strategic_synthesis_raises stages query :
  raises_only payload_error (EnhancedWorkflows._create_strategic_synthesis stages query).
Proof.
  unfold EnhancedWorkflows._create_strategic_synthesis.
  apply raises_only_obind.
  - apply raises_only_ofold. intros insights [stage_name stage_result].
    destruct (get_success stage_result); [|apply raises_only_returned].
    apply raises_only_obind; [apply extract_key_insights_raises|].
    intros found _. apply raises_only_returned.
  - intros insights _. apply raises_only_returned.
Qed.

Lemma extract_recommendations_raises stages :
  raises_only payload_error (EnhancedWorkflows.extract_recommendations stages).
Proof.
  unfold EnhancedWorkflows.extract_recommendations.
  apply raises_only_ofold. intros found [stage_name stage_result].
  destruct (get_success stage_result); [|apply raises_only_returned].
  destruct (get_raw_result stage_result) as [raw|]; [|apply raises_only_returned].
  destruct (dict_get "recommendations" raw) as [value|]; [|apply raises_only_returned].
  apply raises_only_obind; [apply elements_raises|]. intros entries _.
  apply raises_only_obind.
  - apply raises_only_omap. intro entry.
    apply raises_only_obind; [apply py_get_raises|]. intros p _.
    apply raises_only_obind; [apply py_get_raises|]. intros d _.
    apply raises_only_returned.
  - intros added _. apply raises_only_returned.
Qed.

Lemma sort_key_raises x : raises_only payload_error (EnhancedWorkflows.sort_key x).
Proof.
  unfold EnhancedWorkflows.sort_key, EnhancedWorkflows.priority_order_get.
  apply raises_only_obind; [apply py_hash_raises|]. intros [] _. apply raises_only_returned.
Qed.

Lemma prioritized_recommendations_raises stages :
  raises_only payload_error (EnhancedWorkflows._generate_prioritized_recommendations stages).
Proof.
  unfold EnhancedWorkflows._generate_prioritized_recommendations.
  apply raises_only_obind; [apply extract_recommendations_raises|]. intros found _.
  unfold sort_reverse_by. apply raises_only_obind.
  - apply raises_only_omap. intro x. apply sort_key_raises.
  - intros keys _. apply raises_only_returned.
Qed.

(** A run raises nothing but the exceptions of reading a provider's
    result. *)
Lemma run_outcome_raises workflow_ query context agents timestamp :
  raises_only payload_error (run_outcome workflow_ query context agents timestamp).
Proof.
  unfold run_outcome, stages_outcome. apply raises_only_obind.
  - apply raises_only_ofold. intros stages stage. unfold stage_outcome.
    destruct (stage_of_str stage) as [stage_name|]; [|apply raises_only_returned].
    apply raises_only_obind.
    + destruct stage_name; cbn [stage_result];
        first [apply raises_only_returned | apply cross_validate_raises
              | apply strategic_synthesis_raises].
    + intros result _. apply raises_only_returned.
  - intros stages _. apply raises_only_obind.
    + apply prioritized_recommendations_raises.
    + intros recs _. apply raises_only_returned.
Qed.

End Escapes.

(** ** Failure of a provider (C1) *)

Section ProviderFailure.
Context {builtins : StrBuiltins}.

(** Let the provider call of an agent stage of the template raise.
    - [_execute_agent_stage] returns [{'success': False, 'error': str(e)}]
      for the stage; it does not raise.
    - That exception never leaves the executor: a run raises nothing but
      the [AttributeError] or [TypeError] of reading what a provider
      returned.
    - In the result of a run that returns, the stage has that failure
      entry, every stage of the template has its entry and every agent
      stage's entry is what its own provider gave.
    - When what the providers return is well formed, the run returns. *)
Theorem returned_run_holds_provider_failure
    (workflow_ : Template) (query : string) (context : Context)
    (agents : dict string Provider) (w : World) (stage : AgentStage) (e : Exn) :
  call_provider agents stage query context = Raised e ->
  In (agent_id stage) (workflow workflow_) ->
  (exists w1,
      EnhancedWorkflows._execute_agent_stage stage query context agents w
      = (Returned (AgentFailure (exn_str e)), w1)) /\
  raises_only payload_error
    (fst (EnhancedWorkflows.execute_enhanced_workflow workflow_ query context agents w)) /\
  (forall results w',
      EnhancedWorkflows.execute_enhanced_workflow workflow_ query context agents w
      = (Returned results, w') ->
      dict_keys results =
        ["workflow_name"; "query"; "timestamp"; "stages"; "synthesis";
         "recommendations"; "next_steps"] /\
      exists stages,
        dict_get "stages" results = Some (VStages stages) /\
        dict_get (agent_stage stage) stages = Some (AgentFailure (exn_str e)) /\
        (forall stage_name,
            In (stage_str stage_name) (workflow workflow_) ->
            dict_has stage_name stages = true) /\
        (forall other,
            In (agent_id other) (workflow workflow_) ->
            dict_get (agent_stage other) stages
            = Some (agent_result agents other query context))) /\
  (providers_well_formed agents query context ->
   exists results w',
     EnhancedWorkflows.execute_enhanced_workflow workflow_ query context agents w
     = (Returned results, w')).
Proof.
  intros Fails Listed.
  destruct (execute_enhanced_workflow_computes workflow_ query context agents w)
    as (w' & Run & _).
  split; [|split; [|split]].
  - destruct (execute_agent_stage_computes stage query context agents w) as (w1 & Stage & _).
    exists w1. rewrite Stage. unfold agent_result. now rewrite Fails.
  - rewrite Run. apply run_outcome_raises.
  - intros results w2 Returns. apply run_returned in Returns.
    destruct Returns as (stages & recs & Loop & _ & ->).
    split; [reflexivity|]. exists stages.
    assert (Entries : forall other,
               In (agent_id other) (workflow workflow_) ->
               dict_get (agent_stage other) stages
               = Some (agent_result agents other query context)).
    { intros other L.
      assert (Has : dict_has (agent_stage other) stages = true)
        by (apply (stages_outcome_has _ _ _ _ _ _ _ Loop); now right).
      unfold dict_has in Has.
      destruct (dict_get (agent_stage other) stages) as [result|] eqn:G; [|discriminate].
      f_equal. eapply stages_outcome_agent_entries; [|exact Loop|exact G].
      intros a r. discriminate. }
    split; [reflexivity|]. split; [|split].
    + rewrite (Entries stage Listed). unfold agent_result. now rewrite Fails.
    + intros stage_name L. apply (stages_outcome_has _ _ _ _ _ _ _ Loop). now right.
    + exact Entries.
  - intro Shape.
    destruct (stages_outcome_returns query context agents (workflow workflow_) []
                Shape (Forall_nil _)) as (stages & Loop & OK).
    destruct (prioritized_recommendations_returns stages OK) as [recs Recs].
    unfold run_outcome in Run. rewrite Loop in Run. cbn [obind] in Run.
    rewrite Recs in Run. cbn [obind] in Run.
    eexists. exists w'. exact Run.
Qed.

End ProviderFailure.

Lemma returned_run_holds_provider_failure_witness :
  call_provider (builtins := latin1_builtins)
    (agents (master_agent research_down)) research "plan" None
    = Raised (mkExn "RuntimeError" "boom") /\
  In (agent_id research) (workflow EnhancedWorkflows.strategic_analysis) /\
  providers_well_formed (builtins := latin1_builtins)
    (agents (master_agent research_down)) "plan" None /\
  exists results w' stages,
    EnhancedWorkflows.execute_enhanced_workflow (builtins := latin1_builtins)
      EnhancedWorkflows.strategic_analysis "plan" None
      (agents (master_agent research_down)) research_down
      = (Returned results, w') /\
    dict_get "stages" results = Some (VStages stages) /\
    dict_get (agent_stage research) stages = Some (AgentFailure "boom") /\
    dict_keys stages =
      [agent_stage data_analysis; agent_stage research; agent_stage business_advisor;
       cross_validation; strategic_synthesis].
Proof.
  assert (Fails : call_provider (builtins := latin1_builtins)
                    (agents (master_agent research_down)) research "plan" None
                  = Raised (mkExn "RuntimeError" "boom")) by reflexivity.
  assert (Listed : In (agent_id research) (workflow EnhancedWorkflows.strategic_analysis))
    by (simpl; tauto).
  assert (Shape : providers_well_formed (builtins := latin1_builtins)
                    (agents (master_agent research_down)) "plan" None).
  { intros stage summary raw. destruct stage; cbn; intros [= <- <-]; reflexivity. }
  split; [exact Fails|]. split; [exact Listed|]. split; [exact Shape|].
  destruct (returned_run_holds_provider_failure (builtins := latin1_builtins)
              EnhancedWorkflows.strategic_analysis "plan" None
              (agents (master_agent research_down)) research_down research
              (mkExn "RuntimeError" "boom") Fails Listed)
    as (_ & _ & Complete & Returns).
  destruct (Returns Shape) as (results & w' & Run).
  destruct (Complete results w' Run) as (_ & stages & Stages & Failure_ & _ & _).
  exists results, w', stages. split; [exact Run|]. split; [exact Stages|].
  split; [exact Failure_|].
  vm_compute in Run. injection Run as <- _. vm_compute in Stages.
  now injection Stages as <-.
Defined.

(** C1.  A provider's exception is caught where it is raised: for every
    request [_execute_agent_stage] returns the failure dict with the
    exception's text.  What the claim promises of the run fails all the
    same.  Let the research provider raise and the business advisor
    answer as the advisor of this repository does, with plain strings
    under ['recommendations'].  The research stage holds the failure, but
    the run returns no result: with the strategic template the
    cross-validation stage calls [.get] on a string, with the market
    template the stages all run and [_generate_prioritized_recommendations]
    does the same, and the [AttributeError] leaves the executor.
    [process_query] answers with its failure dict. *)
Theorem provider_failure_run_does_not_return :
  let w := research_down_advisor_text in
  let providers := agents (master_agent w) in
  (forall (builtins : StrBuiltins) stage query context agents_ w0 e,
      call_provider agents_ stage query context = Raised e ->
      exists w1,
        EnhancedWorkflows._execute_agent_stage stage query context agents_ w0
        = (Returned (AgentFailure (exn_str e)), w1)) /\
  call_provider (builtins := latin1_builtins) providers research "plan" None
  = Raised (mkExn "RuntimeError" "boom") /\
  In (agent_id research) (workflow EnhancedWorkflows.strategic_analysis) /\
  In (agent_id research) (workflow EnhancedWorkflows.market_analysis) /\
  (exists w1,
      EnhancedWorkflows._execute_agent_stage (builtins := latin1_builtins)
        research "plan" None providers w
      = (Returned (AgentFailure "boom"), w1)) /\
  fst (EnhancedWorkflows.execute_enhanced_workflow (builtins := latin1_builtins)
         EnhancedWorkflows.strategic_analysis "plan" None providers w)
  = Raised (AttributeError "str" "get") /\
  fst (EnhancedWorkflows.execute_enhanced_workflow (builtins := latin1_builtins)
         EnhancedWorkflows.market_analysis "plan" None providers w)
  = Raised (AttributeError "str" "get") /\
  fst (MasterAgent.process_query (builtins := latin1_builtins) "plan" None w)
  = Returned (Failure "'str' object has no attribute 'get'" "plan" "2025-01-01T00:00:00").
Proof.
  intros w providers. split.
  { intros builtins stage query context agents_ w0 e Fails.
    destruct (execute_agent_stage_computes stage query context agents_ w0)
      as (w1 & Stage & _).
    exists w1. rewrite Stage. unfold agent_result. now rewrite Fails. }
  split; [reflexivity|]. split; [cbn; tauto|]. split; [cbn; tauto|].
  split; [eexists; vm_compute; reflexivity|].
  split; [vm_compute; reflexivity|]. split; vm_compute; reflexivity.
Qed.

(** ** Template order (C9) *)

Section TemplateOrder.
Context {builtins : StrBuiltins}.

(** C9.  In the result of every run the stage results are keyed by the
    stages of the template's ['workflow'] list in the order of that list:
    the keys are the list's stage names, each at its first occurrence.
    For the five templates of the registry the keys are the ['workflow']
    list itself. *)
Theorem stage_results_in_template_order
    (workflow_ : Template) (query : string) (context : Context)
    (agents : dict string Provider) (w w' : World) (results : dict string RunVal) :
  EnhancedWorkflows.execute_enhanced_workflow workflow_ query context agents w
    = (Returned results, w') ->
  exists stages,
    dict_get "stages" results = Some (VStages stages) /\
    map stage_str (dict_keys stages)
    = first_occurrences (filter names_stage (workflow workflow_)) /\
    (forall id,
        In (id, workflow_) (workflow_templates EnhancedWorkflows.__init__) ->
        map stage_str (dict_keys stages) = workflow workflow_).
Proof.
  intro Run. apply run_returned in Run.
  destruct Run as (stages & recs & Loop & _ & ->).
  exists stages. split; [reflexivity|].
  pose proof (stages_outcome_order _ _ _ _ _ Loop) as Order.
  split; [exact Order|].
  intros id Registered. rewrite Order.
  cbn in Registered.
  destruct Registered as [R|[R|[R|[R|[R|[]]]]]]; injection R as _ <-; reflexivity.
Qed.

End TemplateOrder.

Lemma stage_results_in_template_order_witness :
  exists results w',
    EnhancedWorkflows.execute_enhanced_workflow (builtins := latin1_builtins)
      EnhancedWorkflows.market_analysis "mercado" None
      (agents (master_agent research_down)) research_down
    = (Returned results, w') /\
    exists stages,
      dict_get "stages" results = Some (VStages stages) /\
      map stage_str (dict_keys stages)
      = first_occurrences (filter names_stage (workflow EnhancedWorkflows.market_analysis)) /\
      (forall id,
          In (id, EnhancedWorkflows.market_analysis)
             (workflow_templates EnhancedWorkflows.__init__) ->
          map stage_str (dict_keys stages) = workflow EnhancedWorkflows.market_analysis).
Proof.
  destruct (EnhancedWorkflows.execute_enhanced_workflow (builtins := latin1_builtins)
              EnhancedWorkflows.market_analysis "mercado" None
              (agents (master_agent research_down)) research_down)
    as [[results|e] w'] eqn:Run.
  - exists results, w'. split; [reflexivity|].
    exact (stage_results_in_template_order _ _ _ _ _ _ _ Run).
  - vm_compute in Run. discriminate Run.
Defined.


(** ** Prioritized recommendations (C5, C6, C10) *)

Section Recommendations.
Context {builtins : StrBuiltins}.

(** What a returned run holds under ['stages'] and ['recommendations']. *)
Lemma run_recommendations workflow_ query context agents w w' results :
  EnhancedWorkflows.execute_enhanced_workflow workflow_ query context agents w
    = (Returned results, w') ->
  exists stages found,
    dict_get "stages" results = Some (VStages stages) /\
    EnhancedWorkflows.extract_recommendations stages = Returned found /\
    (forall x, In x found ->
               EnhancedWorkflows.sort_key x
               = Returned (key_of EnhancedWorkflows.sort_key x)) /\
    dict_get "recommendations" results
    = Some (VRecs (sort_reverse (key_of EnhancedWorkflows.sort_key) found)).
Proof.
  intro Run. apply run_returned in Run.
  destruct Run as (stages & recs & _ & Recs & ->).
  unfold EnhancedWorkflows._generate_prioritized_recommendations in Recs.
  destruct (EnhancedWorkflows.extract_recommendations stages) as [found|e] eqn:Found;
    cbn in Recs; [|discriminate].
  apply sort_reverse_by_returned in Recs. destruct Recs as (-> & Keys).
  exists stages, found. repeat split; [exact Found | exact Keys].
Qed.

Lemma sort_key_of_string (x : Recommendation) (text : string) :
  priority x = PyStr text ->
  key_of EnhancedWorkflows.sort_key x = EnhancedWorkflows.priority_rank text.
Proof.
  intro P. unfold key_of, EnhancedWorkflows.sort_key. now rewrite P.
Qed.

(** C5.  The recommendations of a run are those extracted from its
    stages, in descending order of priority rank (high 3, medium 2,
    low 1), and recommendations of equal rank keep the order in which
    the stages gave them.  The rank of a recommendation is the key the
    sort computed for it; for a priority string it is the string's
    rank. *)
Theorem recommendations_sorted_stably
    (workflow_ : Template) (query : string) (context : Context)
    (agents : dict string Provider) (w w' : World) (results : dict string RunVal) :
  EnhancedWorkflows.execute_enhanced_workflow workflow_ query context agents w
    = (Returned results, w') ->
  exists stages found recs,
    dict_get "stages" results = Some (VStages stages) /\
    EnhancedWorkflows.extract_recommendations stages = Returned found /\
    dict_get "recommendations" results = Some (VRecs recs) /\
    Permutation found recs /\
    descending (key_of EnhancedWorkflows.sort_key) recs /\
    (forall rank, keyed (key_of EnhancedWorkflows.sort_key) rank recs
                  = keyed (key_of EnhancedWorkflows.sort_key) rank found) /\
    (forall x, In x recs ->
               EnhancedWorkflows.sort_key x
               = Returned (key_of EnhancedWorkflows.sort_key x)) /\
    (forall x text, priority x = PyStr text ->
                    key_of EnhancedWorkflows.sort_key x
                    = EnhancedWorkflows.priority_rank text) /\
    EnhancedWorkflows.priority_rank "low" < EnhancedWorkflows.priority_rank "medium"
      < EnhancedWorkflows.priority_rank "high".
Proof.
  intro Run. destruct (run_recommendations _ _ _ _ _ _ _ Run)
    as (stages & found & Stages & Found & Keys & Recs).
  exists stages, found, (sort_reverse (key_of EnhancedWorkflows.sort_key) found).
  pose proof (sort_reverse_perm (key_of EnhancedWorkflows.sort_key) found) as P.
  repeat split; try assumption.
  - apply sort_reverse_sorted.
  - intro rank. apply sort_reverse_stable.
  - intros x M. apply Keys. now apply (Permutation_in _ (Permutation_sym P)).
  - intros x text. apply sort_key_of_string.
  - cbn. lia.
  - cbn. lia.
Qed.

Lemma priority_rank_unlisted (priority : string) :
  in_list priority ["high"; "medium"; "low"] = false ->
  EnhancedWorkflows.priority_rank priority = 2.
Proof.
  intro Unlisted. unfold EnhancedWorkflows.priority_rank, dict_get_default.
  cbn -[String.eqb] in *.
  rewrite !(String.eqb_sym priority) in Unlisted.
  apply orb_false_iff in Unlisted. destruct Unlisted as [-> U].
  apply orb_false_iff in U. destruct U as [-> U].
  apply orb_false_iff in U. destruct U as [-> _]. reflexivity.
Qed.

(** A value that can be hashed and is none of the three strings has the
    key of ['medium']. *)
Lemma priority_order_get_unlisted (value : PyVal) :
  hashable value = true -> listed value = false ->
  EnhancedWorkflows.priority_order_get value
  = Returned (EnhancedWorkflows.priority_rank "medium").
Proof.
  unfold EnhancedWorkflows.priority_order_get.
  destruct value; cbn -[in_list]; intros H L; try discriminate; try reflexivity.
  now rewrite (priority_rank_unlisted _ L).
Qed.

Lemma sort_key_as_medium (x : Recommendation) :
  EnhancedWorkflows.sort_key (as_medium x) = EnhancedWorkflows.sort_key x.
Proof.
  unfold as_medium.
  destruct (hashable (priority x)) eqn:H; [|reflexivity].
  destruct (listed (priority x)) eqn:L; [reflexivity|].
  unfold EnhancedWorkflows.sort_key. cbn [andb negb priority].
  now rewrite (priority_order_get_unlisted _ H L).
Qed.

Lemma omap_sort_key_as_medium (recs : list Recommendation) :
  omap EnhancedWorkflows.sort_key (map as_medium recs)
  = omap EnhancedWorkflows.sort_key recs.
Proof.
  induction recs as [|x recs IH]; [reflexivity|]. cbn.
  now rewrite sort_key_as_medium, IH.
Qed.

(** What [.sort] does to the extracted recommendations: it raises the
    [TypeError] of the first priority that cannot be hashed, and sorts
    when there is none. *)
Lemma sort_of_recommendations (found : list Recommendation) :
  match find (fun x => negb (hashable (priority x))) found with
  | Some x =>
      sort_reverse_by EnhancedWorkflows.sort_key found
      = Raised (TypeError ("unhashable type: '" ++ type_name (priority x) ++ "'"))
  | None =>
      sort_reverse_by EnhancedWorkflows.sort_key found
      = Returned (sort_reverse (key_of EnhancedWorkflows.sort_key) found)
  end.
Proof.
  destruct (find _ found) as [x|] eqn:F.
  - unfold sort_reverse_by.
    enough (Keys : omap EnhancedWorkflows.sort_key found
                   = Raised (TypeError ("unhashable type: '"
                                        ++ type_name (priority x) ++ "'")))
      by now rewrite Keys.
    induction found as [|y found IH]; [discriminate|]. cbn in F |- *.
    destruct (hashable (priority y)) eqn:H; cbn [negb] in F.
    + destruct (sort_key_returns y H) as (k & ->). cbn [obind].
      now rewrite (IH F).
    + injection F as ->. unfold EnhancedWorkflows.sort_key,
        EnhancedWorkflows.priority_order_get.
      destruct (priority x); try discriminate; reflexivity.
  - apply sort_reverse_by_returns. intros x M. apply sort_key_returns.
    pose proof (find_none _ _ F x M) as N. cbv beta in N.
    now apply negb_false_iff in N.
Qed.


(** C10, as the code has it.  A priority that can be hashed and is none
    of ['high'], ['medium'] and ['low'] (another string, [None], a
    number) has the key of ['medium'], and sorting a list is the same as
    sorting it with every such priority read as ['medium'].  The sort
    raises for one kind of priority only: the [TypeError] of the first
    priority that is a list or a dict, which cannot be hashed; when
    there is none it returns. *)
Theorem unlisted_priority_ranks_as_medium (value : PyVal) :
  hashable value = true ->
  listed value = false ->
  EnhancedWorkflows.priority_order_get value
  = Returned (EnhancedWorkflows.priority_rank "medium") /\
  (forall recs,
      sort_reverse_by EnhancedWorkflows.sort_key (map as_medium recs)
      = match sort_reverse_by EnhancedWorkflows.sort_key recs with
        | Returned sorted => Returned (map as_medium sorted)
        | Raised e => Raised e
        end) /\
  (forall stages found,
      EnhancedWorkflows.extract_recommendations stages = Returned found ->
      match find (fun x => negb (hashable (priority x))) found with
      | Some x =>
          EnhancedWorkflows._generate_prioritized_recommendations stages
          = Raised (TypeError ("unhashable type: '" ++ type_name (priority x) ++ "'"))
      | None =>
          EnhancedWorkflows._generate_prioritized_recommendations stages
          = Returned (sort_reverse (key_of EnhancedWorkflows.sort_key) found)
      end).
Proof.
  intros Hashable Unlisted. split; [|split].
  - now apply priority_order_get_unlisted.
  - intro recs. unfold sort_reverse_by. rewrite omap_sort_key_as_medium.
    destruct (omap EnhancedWorkflows.sort_key recs) as [keys|e] eqn:Keys;
      cbn [obind]; [|reflexivity].
    assert (Returns : forall x, In x recs -> exists k, EnhancedWorkflows.sort_key x = Returned k)
      by (intros x M; exact (omap_returned_all _ _ _ x Keys M)).
    rewrite (omap_key_of _ _ Returns) in Keys. injection Keys as <-.
    rewrite !decorated_sort.
    assert (Same : map (key_of EnhancedWorkflows.sort_key) recs
                   = map (key_of EnhancedWorkflows.sort_key) (map as_medium recs)).
    { rewrite map_map. apply map_ext. intro x. unfold key_of.
      now rewrite sort_key_as_medium. }
    rewrite Same, decorated_sort. f_equal.
    apply sort_reverse_map. intro x. unfold key_of. now rewrite sort_key_as_medium.
  - intros stages found Found.
    unfold EnhancedWorkflows._generate_prioritized_recommendations.
    rewrite Found. cbn [obind]. apply sort_of_recommendations.
Qed.

End Recommendations.

Lemma recommendations_sorted_stably_witness :
  exists results w',
    EnhancedWorkflows.execute_enhanced_workflow (builtins := latin1_builtins)
      EnhancedWorkflows.market_analysis "mercado" None
      (agents (master_agent four_recommendations)) four_recommendations
    = (Returned results, w') /\
    (exists recs,
        dict_get "recommendations" results = Some (VRecs recs) /\
        map rec_description recs = [PyStr "y"; PyStr "w"; PyStr "z"; PyStr "x"]) /\
    exists stages found recs,
      dict_get "stages" results = Some (VStages stages) /\
      EnhancedWorkflows.extract_recommendations stages = Returned found /\
      dict_get "recommendations" results = Some (VRecs recs) /\
      Permutation found recs /\
      descending (key_of EnhancedWorkflows.sort_key) recs /\
      (forall rank, keyed (key_of EnhancedWorkflows.sort_key) rank recs
                    = keyed (key_of EnhancedWorkflows.sort_key) rank found) /\
      (forall x, In x recs ->
                 EnhancedWorkflows.sort_key x
                 = Returned (key_of EnhancedWorkflows.sort_key x)) /\
      (forall x text, priority x = PyStr text ->
                      key_of EnhancedWorkflows.sort_key x
                      = EnhancedWorkflows.priority_rank text) /\
      EnhancedWorkflows.priority_rank "low" < EnhancedWorkflows.priority_rank "medium"
        < EnhancedWorkflows.priority_rank "high".
Proof.
  destruct (EnhancedWorkflows.execute_enhanced_workflow (builtins := latin1_builtins)
              EnhancedWorkflows.market_analysis "mercado" None
              (agents (master_agent four_recommendations)) four_recommendations)
    as [[results|e] w'] eqn:Run.
  - exists results, w'. split; [reflexivity|]. split.
    + vm_compute in Run. injection Run as <- _. eexists. split; reflexivity.
    + exact (recommendations_sorted_stably _ _ _ _ _ _ _ Run).
  - vm_compute in Run. discriminate Run.
Defined.



(** C10 fails: a priority that is a list cannot be hashed, the sort
    raises [TypeError] and the run returns no result. *)
Lemma list_priority_ends_run :
  fst (EnhancedWorkflows.execute_enhanced_workflow (builtins := latin1_builtins)
         EnhancedWorkflows.market_analysis "mercado" None
         (agents (master_agent list_priority)) list_priority)
  = Raised (TypeError "unhashable type: 'list'") /\
  EnhancedWorkflows.priority_order_get (PyList [PyStr "high"])
  = Raised (TypeError "unhashable type: 'list'").
Proof.
  split; vm_compute; reflexivity.
Qed.

Lemma unlisted_priority_ranks_as_medium_witness :
  hashable (PyStr "High") = true /\
  listed (PyStr "High") = false /\
  EnhancedWorkflows.priority_order_get (PyStr "High")
  = Returned (EnhancedWorkflows.priority_rank "medium") /\
  EnhancedWorkflows.priority_order_get PyNone
  = Returned (EnhancedWorkflows.priority_rank "medium").
Proof.
  split; [reflexivity|]. split; [reflexivity|]. split.
  - exact (proj1 (unlisted_priority_ranks_as_medium (PyStr "High") eq_refl eq_refl)).
  - exact (proj1 (unlisted_priority_ranks_as_medium PyNone eq_refl eq_refl)).
Defined.

(** ** No confidence in a run (C4) *)

Section Confidence.
Context {builtins : StrBuiltins}.

Lemma cross_validate_shape stages result :
  EnhancedWorkflows._cross_validate_results stages = Returned result ->
  validation_of result.
Proof.
  unfold EnhancedWorkflows._cross_validate_results, validation_of.
  destruct (EnhancedWorkflows.collect_insights stages) as [found|e]; cbn [obind];
    [|discriminate].
  destruct (2 <=? length found).
  - unfold EnhancedWorkflows._calculate_consistency_score.
    destruct (_ <? 2); intros [= <-]; eauto.
  - intros [= <-]. eauto.
Qed.

Lemma stages_outcome_validation query context agents stage_list stages stages' :
  (forall result, dict_get cross_validation stages = Some result -> validation_of result) ->
  stages_outcome query context agents stage_list stages = Returned stages' ->
  forall result, dict_get cross_validation stages' = Some result -> validation_of result.
Proof.
  intros J R. revert stages' R.
  apply (ofold_invariant
           (fun stages => forall result,
                dict_get cross_validation stages = Some result -> validation_of result));
    [exact J|].
  clear. intros stages stage stages' _ J O result G.
  unfold stage_outcome in O.
  destruct (stage_of_str stage) as [stage_name|]; [|injection O as <-; now apply J].
  destruct (stage_result _ _ _ _ stage_name) as [r|e] eqn:SR; cbn in O; [|discriminate].
  injection O as <-.
  destruct (key_eqb stage_name cross_validation) eqn:E.
  - apply key_eqb_eq in E. subst stage_name.
    rewrite dict_get_set_same in G. injection G as <-. cbn in SR.
    now apply cross_validate_shape in SR.
  - rewrite dict_get_set_other in G; [now apply J|].
    intros <-. now rewrite key_eqb_refl in E.
Qed.

(** The insights of [_cross_validate_results] have at most one key per
    succeeded stage. *)
Lemma collect_insights_length stages :
  forall insights found,
    ofold (fun insights '(stage_name, stage_result) =>
             if get_success stage_result then
               (found <- EnhancedWorkflows._extract_key_insights stage_result ;;
                Returned (dict_set stage_name found insights))%outcome
             else Returned insights)
          stages insights = Returned found ->
    length found <= length insights + length (filter (fun entry => get_success (snd entry)) stages).
Proof.
  induction stages as [|[stage_name stage_result] stages IH]; intros insights found; cbn.
  - intros [= <-]. lia.
  - destruct (get_success stage_result); cbn.
    + destruct (EnhancedWorkflows._extract_key_insights stage_result) as [extracted|e];
        cbn; [|discriminate].
      intro R. apply IH in R.
      assert (L : length (dict_set stage_name extracted insights) <= S (length insights)).
      { clear. induction insights as [|[k v] insights IH]; cbn; [lia|].
        destruct (stage_eqb k stage_name); cbn; lia. }
      lia.
    + apply IH.
Qed.

(** With fewer than two succeeded stages the consistency score is 0.0;
    so it is for stages that all failed. *)
Lemma cross_validation_of_failures stages result :
  EnhancedWorkflows._cross_validate_results stages = Returned result ->
  length (filter (fun entry => get_success (snd entry)) stages) < 2 ->
  result = Validation 0 [] [] [].
Proof.
  unfold EnhancedWorkflows._cross_validate_results, EnhancedWorkflows.collect_insights.
  intros R Few.
  match type of R with
  | (insights <- ?collect ;; _)%outcome = _ => destruct collect as [found|e] eqn:C
  end; cbn [obind] in R; [|discriminate].
  apply collect_insights_length in C. cbn in C.
  destruct (2 <=? length found) eqn:L.
  - apply Nat.leb_le in L. lia.
  - now injection R as <-.
Qed.

(** C4, as the code has it.  The result of a run has exactly the seven
    keys the executor sets and none of them is a confidence; the
    synthesis is the narrative text.  The only score of a run is the
    ['consistency_score'] of the cross-validation stage, which is 0.0,
    1.0 or 0.8. *)
Theorem run_carries_no_confidence
    (workflow_ : Template) (query : string) (context : Context)
    (agents : dict string Provider) (w w' : World) (results : dict string RunVal) :
  EnhancedWorkflows.execute_enhanced_workflow workflow_ query context agents w
    = (Returned results, w') ->
  dict_keys results =
    ["workflow_name"; "query"; "timestamp"; "stages"; "synthesis";
     "recommendations"; "next_steps"] /\
  dict_get "confidence" results = None /\
  (exists stages,
      dict_get "synthesis" results
      = Some (VStr (EnhancedWorkflows._generate_final_synthesis stages workflow_)) /\
      dict_get "stages" results = Some (VStages stages) /\
      forall result,
        dict_get cross_validation stages = Some result ->
        exists score,
          result = Validation score [] [] [] /\
          (score = 0 \/ score = 1 \/ score = 8 # 10)%Q).
Proof.
  intro Run. apply run_returned in Run.
  destruct Run as (stages & recs & Loop & _ & ->).
  repeat split. exists stages. repeat split.
  apply (stages_outcome_validation query context agents (workflow workflow_) [] stages);
    [|exact Loop].
  intros result G. discriminate G.
Qed.

End Confidence.

(** C4 fails: in a run of the market template in which every stage
    succeeds the result has no confidence, the synthesis is text and no
    stage carries a score. *)
Lemma all_success_run_without_confidence :
  exists results w' stages text,
    EnhancedWorkflows.execute_enhanced_workflow (builtins := latin1_builtins)
      EnhancedWorkflows.market_analysis "mercado" None
      (agents (master_agent four_recommendations)) four_recommendations
    = (Returned results, w') /\
    dict_get "stages" results = Some (VStages stages) /\
    forallb (fun entry => get_success (snd entry)) stages = true /\
    dict_get "confidence" results = None /\
    dict_get "synthesis" results = Some (VStr text) /\
    dict_get cross_validation stages = None.
Proof.
  do 4 eexists. split; [vm_compute; reflexivity|]. repeat split.
Qed.

Lemma run_carries_no_confidence_witness :
  exists results w',
    EnhancedWorkflows.execute_enhanced_workflow (builtins := latin1_builtins)
      EnhancedWorkflows.strategic_analysis "plan" None
      (agents (master_agent research_down)) research_down
    = (Returned results, w') /\
    dict_keys results =
      ["workflow_name"; "query"; "timestamp"; "stages"; "synthesis";
       "recommendations"; "next_steps"] /\
    dict_get "confidence" results = None /\
    (exists stages,
        dict_get "synthesis" results
        = Some (VStr (EnhancedWorkflows._generate_final_synthesis
                        (builtins := latin1_builtins) stages
                        EnhancedWorkflows.strategic_analysis)) /\
        dict_get "stages" results = Some (VStages stages) /\
        forall result,
          dict_get cross_validation stages = Some result ->
          exists score,
            result = Validation score [] [] [] /\
            (score = 0 \/ score = 1 \/ score = 8 # 10)%Q).
Proof.
  destruct (EnhancedWorkflows.execute_enhanced_workflow (builtins := latin1_builtins)
              EnhancedWorkflows.strategic_analysis "plan" None
              (agents (master_agent research_down)) research_down)
    as [[results|e] w'] eqn:Run.
  - exists results, w'. split; [reflexivity|].
    exact (run_carries_no_confidence _ _ _ _ _ _ _ Run).
  - vm_compute in Run. discriminate Run.
Defined.

(** ** The classifier (C7, C8) *)

Section Classifier.
Context {builtins : StrBuiltins}.

Lemma capabilities_of_nil capabilities query_lower :
  (forall agent capability,
      In (agent, capability) capabilities ->
      any_in (keywords capability) query_lower = false) ->
  MasterAgent.capabilities_of capabilities query_lower = [].
Proof.
  intro None. unfold MasterAgent.capabilities_of.
  induction capabilities as [|[agent capability] rest IH]; cbn; [reflexivity|].
  rewrite (None agent capability (or_introl eq_refl)).
  apply IH. intros a c I. apply (None a c). now right.
Qed.

(** C7.  The classifier returns, and its ['required_capabilities'] is a
    non-empty list; when no keyword of any capability occurs in the
    lower-cased query it is [['chat']]. *)
Theorem required_capabilities_never_empty (w : World) (query : string) (context : Context) :
  exists analysis_result required_capabilities,
    MasterAgent._analyze_query query context w = (Returned analysis_result, w) /\
    dict_get "required_capabilities" analysis_result
    = Some (PyList (map PyStr required_capabilities)) /\
    required_capabilities <> [] /\
    ((forall agent capability,
         In (agent, capability) (agent_capabilities (master_agent w)) ->
         any_in (keywords capability) (str_lower query) = false) ->
     required_capabilities = ["chat"]).
Proof.
  unfold MasterAgent._analyze_query, bind, self_master_agent, ret.
  destruct (MasterAgent.capabilities_of (agent_capabilities (master_agent w))
                                        (str_lower query))
    as [|agent agents_] eqn:Matching.
  - eexists. exists ["chat"]. repeat split. discriminate.
  - eexists. exists (agent :: agents_). repeat split; [discriminate|].
    intro None. apply capabilities_of_nil in None. congruence.
Qed.

(** C8.  Two calls of the classifier with the same query and context,
    one after the other, return the same analysis result and leave the
    world as it was: nothing is printed and no object changes.  The
    result is the same in every world with the same capability table. *)
Theorem classification_is_deterministic (w : World) (query : string) (context : Context) :
  exists analysis_result,
    (first <- MasterAgent._analyze_query query context ;;
     second <- MasterAgent._analyze_query query context ;;
     ret (first, second))%py w
    = (Returned (analysis_result, analysis_result), w) /\
    forall later,
      agent_capabilities (master_agent later) = agent_capabilities (master_agent w) ->
      MasterAgent._analyze_query query context later = (Returned analysis_result, later).
Proof.
  eexists. split.
  - reflexivity.
  - intros later Same. unfold MasterAgent._analyze_query, bind, self_master_agent, ret.
    now rewrite Same.
Qed.

End Classifier.

(** ** Selection of the workflow (C3) *)

Section Selection.
Context {builtins : StrBuiltins}.

(** The analysis result carries no ['query']. *)
Lemma analysis_has_no_query (w : World) (query : string) (context : Context) :
  exists analysis_result,
    MasterAgent._analyze_query query context w = (Returned analysis_result, w) /\
    dict_get "query" analysis_result = None.
Proof.
  eexists. split; reflexivity.
Qed.

(** No keyword occurs in the empty string. *)
Lemma selects_default_on_empty (w : World) (context : Context) :
  str_lower "" = "" ->
  EnhancedWorkflows.get_workflow_for_query "" context w
  = subscript (workflow_templates (enhanced_workflows w)) "strategic_analysis" w.
Proof.
  intro Lower.
  unfold EnhancedWorkflows.get_workflow_for_query, bind, self_enhanced_workflows.
  rewrite Lower. reflexivity.
Qed.

(** In [process_query] the selector never sees the query: whatever the
    query, the selected template is ['strategic_analysis']. *)
Lemma select_ignores_query (w : World) (query : string) (context : Context) :
  str_lower "" = "" ->
  (analysis_result <- MasterAgent._analyze_query query context ;;
   MasterAgent._select_workflow analysis_result)%py w
  = subscript (workflow_templates (enhanced_workflows w)) "strategic_analysis" w.
Proof.
  intro Lower.
  unfold bind, MasterAgent._analyze_query, self_master_agent, ret, MasterAgent._select_workflow.
  cbn [dict_get_default dict_get key_eqb string_key String.eqb Ascii.eqb Bool.eqb].
  apply (selects_default_on_empty w _ Lower).
Qed.

Lemma computes_try {A} (body : Py A) (handler : Exn -> Py A) w (o o' : Outcome A) :
  computes body w o ->
  (forall a, o = Returned a -> o' = Returned a) ->
  (forall e w', o = Raised e -> extends w w' -> computes (handler e) w' o') ->
  computes (try_except body handler) w o'.
Proof.
  intros (w1 & E1 & X1) R H. unfold computes, try_except. rewrite E1.
  destruct o as [a|e].
  - rewrite (R a eq_refl). exists w1. split; [reflexivity | assumption].
  - destruct (H e w1 eq_refl X1) as (w2 & E2 & X2).
    exists w2. split; [exact E2 | eapply extends_trans; eassumption].
Qed.

Lemma execute_workflow_computes workflow_ query context w :
  computes (MasterAgent._execute_workflow workflow_ query context) w
           (run_outcome workflow_ query context (agents (master_agent w)) (clock w)).
Proof.
  unfold MasterAgent._execute_workflow.
  do 7 (apply computes_seq; intros ? ?).
  match goal with
  | |- computes _ ?w0 _ =>
      assert (X : extends w w0)
        by (repeat (eapply extends_trans; [eassumption|]); apply extends_refl);
      generalize dependent w0
  end.
  intros w0 _ X.
  eapply computes_try
    with (o := run_outcome workflow_ query context (agents (master_agent w)) (clock w)).
  - apply computes_seq. intros w1 X1.
    assert (X01 : extends w w1) by (eapply extends_trans; eassumption).
    eapply computes_bind with (o := Returned (master_agent w1)).
    + exists w1. split; [reflexivity | apply extends_refl].
    + intros self w2 [= <-] X2.
      assert (X02 : extends w w2) by (eapply extends_trans; eassumption).
      destruct X01 as (-> & _). destruct X02 as (_ & _ & C2 & _). rewrite <- C2.
      eapply computes_bind.
      * apply execute_enhanced_workflow_computes.
      * intros result w3 -> _. do 2 (apply computes_seq; intros ? ?). apply computes_ret.
      * intros e ->. reflexivity.
    + discriminate.
  - intros a ->. reflexivity.
  - intros e w1 -> _. do 3 (apply computes_seq; intros ? ?).
    eexists. split; [reflexivity | apply extends_refl].
Qed.

End Selection.

Section EndToEnd.
Context {builtins : StrBuiltins}.

Lemma run_outcome_returned workflow_ query context agents timestamp results :
  run_outcome workflow_ query context agents timestamp = Returned results ->
  exists stages recs,
    results =
      [("workflow_name", VStr (name workflow_));
       ("query", VStr query);
       ("timestamp", VStr timestamp);
       ("stages", VStages stages);
       ("synthesis", VStr (EnhancedWorkflows._generate_final_synthesis stages workflow_));
       ("recommendations", VRecs recs);
       ("next_steps", VLines (EnhancedWorkflows._generate_next_steps stages query))].
Proof.
  unfold run_outcome.
  destruct (stages_outcome _ _ _ _ _) as [stages|e]; cbn [obind]; [|discriminate].
  destruct (EnhancedWorkflows._generate_prioritized_recommendations stages) as [recs|e];
    cbn [obind]; [|discriminate].
  intros [= <-]. now exists stages, recs.
Qed.

Lemma synthesize_results_computes results query context w value :
  dict_get "synthesis" results = Some value ->
  dict_has "stages" results = true ->
  computes (MasterAgent._synthesize_results results query context) w (Returned value).
Proof.
  intros S H. unfold MasterAgent._synthesize_results, dict_has at 1, subscript.
  rewrite S, H. cbn. apply computes_ret.
Qed.

Lemma process_query_computes (w : World) (query : string) (context : Context) :
  str_lower "" = "" ->
  computes (MasterAgent.process_query query context) w
           (Returned (final_result w query context)).
Proof.
  intro Lower. unfold MasterAgent.process_query.
  eapply computes_try with (o := process_outcome w query context).
  - do 5 (apply computes_seq; intros ? ?).
    match goal with
    | |- computes _ ?w0 _ =>
        assert (X : extends w w0)
          by (repeat (eapply extends_trans; [eassumption|]); apply extends_refl);
        generalize dependent w0
    end.
    intros w0 _ X0.
    eapply computes_bind.
    + eexists. split; [reflexivity | apply extends_refl].
    + intros analysis_result w1 [= <-] X1. do 3 (apply computes_seq; intros ? ?).
      match goal with
      | |- computes _ ?w2 _ =>
          assert (X2 : extends w w2)
            by (repeat (eapply extends_trans; [eassumption|]); apply extends_refl);
          generalize dependent w2
      end.
      intros w2 _ X2. unfold process_outcome.
      eapply computes_bind
        with (o := match dict_get "strategic_analysis"
                           (workflow_templates (enhanced_workflows w)) with
                   | Some template => Returned template
                   | None => Raised (KeyError "strategic_analysis")
                   end).
      * exists w2. split; [|apply extends_refl].
        unfold MasterAgent._select_workflow.
        cbn [dict_get_default dict_get key_eqb string_key String.eqb Ascii.eqb Bool.eqb].
        rewrite (selects_default_on_empty w2 _ Lower).
        destruct X2 as (_ & -> & _). unfold subscript.
        now destruct (dict_get _ _).
      * intros workflow_ w3 -> X3. cbn [obind].
        do 3 (apply computes_seq; intros ? ?).
        match goal with
        | |- computes _ ?w4 _ =>
            assert (X4 : extends w w4)
              by (repeat (eapply extends_trans; [eassumption|]); apply extends_refl);
            generalize dependent w4
        end.
        intros w4 _ X4.
        eapply computes_bind.
        -- pose proof (execute_workflow_computes workflow_ query context w4) as C.
           destruct X4 as (-> & _ & -> & _) in C. exact C.
        -- intros results w5 R X5. rewrite R. cbn [obind].
           destruct (run_outcome_returned _ _ _ _ _ _ R) as (stages & recs & ->).
           cbn [dict_get key_eqb string_key String.eqb Ascii.eqb Bool.eqb].
           do 3 (apply computes_seq; intros ? ?).
           eapply computes_bind.
           ++ apply synthesize_results_computes; reflexivity.
           ++ intros synthesis w6 [= <-] X6. do 2 (apply computes_seq; intros ? ?).
              match goal with
              | |- computes _ ?w7 _ =>
                  assert (X7 : extends w w7)
                    by (repeat (eapply extends_trans; [eassumption|]); apply extends_refl);
                  generalize dependent w7
              end.
              intros w7 _ X7.
              eapply computes_bind with (o := Returned (clock w)).
              ** exists w7. split; [|apply extends_refl].
                 unfold now_isoformat. now destruct X7 as (_ & _ & -> & _).
              ** intros timestamp w8 [= <-] X8.
                 do 2 (apply computes_seq; intros ? ?). apply computes_ret.
              ** discriminate.
           ++ discriminate.
        -- intros e ->. reflexivity.
      * intros e ->. reflexivity.
    + discriminate.
  - intros final E. unfold final_result. now rewrite E.
  - intros e w1 E X1. unfold final_result. rewrite E.
    eapply computes_bind with (o := Returned (clock w)).
    + exists w1. split; [|apply extends_refl].
      unfold now_isoformat. now destruct X1 as (_ & _ & -> & _).
    + intros timestamp w2 [= <-] _. apply computes_ret.
    + discriminate.
Qed.

End EndToEnd.

Section SelectionFacts.
Context {builtins : StrBuiltins}.

(** Called with the query itself, the selector returns a template of the
    registry, the first whose keywords occur in the lower-cased query. *)
Lemma get_workflow_for_query_registry (w : World) (query : string) (context : Context) :
  workflow_templates (enhanced_workflows w) = workflow_templates EnhancedWorkflows.__init__ ->
  exists id template,
    EnhancedWorkflows.get_workflow_for_query query context w = (Returned template, w) /\
    In (id, template) (workflow_templates EnhancedWorkflows.__init__).
Proof.
  intro Registry.
  unfold EnhancedWorkflows.get_workflow_for_query, bind, self_enhanced_workflows.
  rewrite Registry.
  destruct (any_in EnhancedWorkflows.strategic_keywords _);
    [exists "strategic_analysis"; eexists; split; [reflexivity | cbn; tauto]|].
  destruct (any_in EnhancedWorkflows.market_keywords _);
    [exists "market_analysis"; eexists; split; [reflexivity | cbn; tauto]|].
  destruct (any_in EnhancedWorkflows.predictive_keywords _);
    [exists "predictive_analysis"; eexists; split; [reflexivity | cbn; tauto]|].
  destruct (any_in EnhancedWorkflows.holiday_keywords _);
    [exists "holiday_impact_analysis"; eexists; split; [reflexivity | cbn; tauto]|].
  destruct (any_in EnhancedWorkflows.seasonal_keywords _);
    [exists "seasonal_analysis"; eexists; split; [reflexivity | cbn; tauto]|].
  exists "strategic_analysis". eexists. split; [reflexivity | cbn; tauto].
Qed.

Lemma any_in_member (keyword : string) (keywords_ : list string) (text : string) :
  In keyword keywords_ -> contains keyword text = true -> any_in keywords_ text = true.
Proof.
  intros M C. unfold any_in. apply existsb_exists. now exists keyword.
Qed.

(** A query with ['mercado'] and no strategic keyword selects the market
    template, when the selector is called with the query. *)
Lemma get_workflow_for_query_market (w : World) (query : string) (context : Context) :
  workflow_templates (enhanced_workflows w) = workflow_templates EnhancedWorkflows.__init__ ->
  any_in EnhancedWorkflows.strategic_keywords (str_lower query) = false ->
  contains "mercado" (str_lower query) = true ->
  EnhancedWorkflows.get_workflow_for_query query context w
  = (Returned EnhancedWorkflows.market_analysis, w).
Proof.
  intros Registry Strategic Market.
  unfold EnhancedWorkflows.get_workflow_for_query, bind, self_enhanced_workflows.
  rewrite Registry, Strategic.
  rewrite (any_in_member "mercado" EnhancedWorkflows.market_keywords _); [reflexivity| |exact Market].
  cbn. tauto.
Qed.

(** End to end the selector is handed the empty string: every query that
    [process_query] answers is run with ['strategic_analysis']. *)
Lemma process_query_uses_strategic (w : World) (query : string) (context : Context) :
  str_lower "" = "" ->
  workflow_templates (enhanced_workflows w) = workflow_templates EnhancedWorkflows.__init__ ->
  exists final w',
    MasterAgent.process_query query context w = (Returned final, w') /\
    extends w w' /\
    match final with
    | Success _ workflow_used _ _ _ _ =>
        workflow_used = name EnhancedWorkflows.strategic_analysis
    | Failure _ _ _ => True
    end.
Proof.
  intros Lower Registry.
  destruct (process_query_computes w query context Lower) as (w' & Run & X).
  exists (final_result w query context), w'. repeat split; try assumption; try apply X.
  unfold final_result, process_outcome. rewrite Registry. cbn [dict_get workflow_templates
    EnhancedWorkflows.__init__ key_eqb string_key String.eqb Ascii.eqb Bool.eqb obind].
  destruct (run_outcome _ _ _ _ _) as [results|e] eqn:R; cbn [obind]; [|exact I].
  destruct (run_outcome_returned _ _ _ _ _ _ R) as (stages & recs & ->).
  reflexivity.
Qed.

(** The narrative is that of the succeeded stages alone. *)
Lemma final_synthesis_of_successes stages workflow_ :
  EnhancedWorkflows._generate_final_synthesis stages workflow_
  = EnhancedWorkflows._generate_final_synthesis
      (filter (fun entry => get_success (snd entry)) stages) workflow_.
Proof.
  unfold EnhancedWorkflows._generate_final_synthesis. do 2 f_equal.
  induction stages as [|[stage_name stage_result] stages IH]; [reflexivity|].
  cbn [filter snd flat_map]. destruct (get_success stage_result) eqn:S.
  - cbn [flat_map]. rewrite S. now rewrite IH.
  - exact IH.
Qed.

End SelectionFacts.

(** C3.  The selector, called with the query, picks the market template
    for a query with ['mercado']; [process_query] runs the same query
    with the strategic template, because the analysis result it hands to
    [_select_workflow] has no ['query']. *)
Theorem market_query_runs_strategic_workflow :
  let query := "análisis de mercado competitivo" in
  EnhancedWorkflows.get_workflow_for_query (builtins := latin1_builtins)
    query None four_recommendations
  = (Returned EnhancedWorkflows.market_analysis, four_recommendations) /\
  exists agents_involved results synthesis timestamp w',
    MasterAgent.process_query (builtins := latin1_builtins) query None four_recommendations
    = (Returned (Success query "Análisis Estratégico Completo" agents_involved results
                         synthesis timestamp), w') /\
    dict_get "workflow_name" results = Some (VStr "Análisis Estratégico Completo").
Proof.
  split; [reflexivity|].
  do 5 eexists. split; [vm_compute; reflexivity | reflexivity].
Qed.

(** C2.  Research raises in a run of the strategic template.  Its stage
    result holds the error, and the narrative [process_query] returns
    names neither the stage nor the error; the basic synthesis of
    [_synthesize_results] lists the same failure by agent and error. *)
Theorem failed_stage_missing_from_narrative :
  let query := "plan" in
  exists agents_involved results stages narrative timestamp w' basic,
    MasterAgent.process_query (builtins := latin1_builtins) query None research_down
    = (Returned (Success query "Análisis Estratégico Completo" agents_involved results
                         (VStr narrative) timestamp), w') /\
    dict_get "stages" results = Some (VStages stages) /\
    dict_get (agent_stage research) stages = Some (AgentFailure "boom") /\
    contains "boom" narrative = false /\
    contains "Research" narrative = false /\
    contains "Data Analysis" narrative = true /\
    MasterAgent.basic_synthesis (builtins := latin1_builtins)
      MasterAgent.initial_capabilities research_down_results query
    = Returned basic /\
    contains "• **Investigador**: boom" basic = true.
Proof.
  do 7 eexists. split; [vm_compute; reflexivity|].
  split; [reflexivity|]. split; [reflexivity|].
  split; [vm_compute; reflexivity|]. split; [vm_compute; reflexivity|].
  split; [vm_compute; reflexivity|]. split; [vm_compute; reflexivity|].
  vm_compute. reflexivity.
Qed.

(** * Further properties *)

(** ** The agent stage *)

Section AgentStageFacts.
Context {builtins : StrBuiltins}.

(** [_execute_agent_stage] never raises and only prints.  A provider
    missing from [agents] gives the failure ['<stage>'] (the text of the
    [KeyError]); an exception of the query method or of the summary
    method gives the failure with its text (the answer of the query
    method is then dropped); only when both calls return is the stage a
    success, with that summary and answer. *)
Theorem agent_stage_never_raises
    (stage : AgentStage) (query : string) (context : Context)
    (agents : dict string Provider) (w : World) :
  exists result w',
    EnhancedWorkflows._execute_agent_stage stage query context agents w
    = (Returned result, w') /\
    extends w w' /\
    (dict_get (agent_id stage) agents = None ->
     result = AgentFailure ("'" ++ agent_id stage ++ "'")) /\
    (forall provider,
        dict_get (agent_id stage) agents = Some provider ->
        match invoke provider query context with
        | Raised e => result = AgentFailure (exn_str e)
        | Returned raw =>
            match get_summary provider raw with
            | Raised e => result = AgentFailure (exn_str e)
            | Returned summary => result = AgentSuccess summary raw
            end
        end).
Proof.
  destruct (execute_agent_stage_computes stage query context agents w) as (w' & Run & X).
  exists (agent_result agents stage query context), w'.
  split; [exact Run|]. split; [exact X|].
  unfold agent_result, call_provider. split.
  - intros ->. destruct stage; reflexivity.
  - intros provider ->.
    destruct (invoke provider query context) as [raw|e]; cbn; [|reflexivity].
    destruct (get_summary provider raw) as [summary|e]; reflexivity.
Qed.

End AgentStageFacts.

(** ** What a run depends on *)

Section RunFacts.
Context {builtins : StrBuiltins}.

Lemma outcome_of_run workflow_ query context agents w :
  fst (EnhancedWorkflows.execute_enhanced_workflow workflow_ query context agents w)
  = run_outcome workflow_ query context agents (clock w).
Proof.
  destruct (execute_enhanced_workflow_computes workflow_ query context agents w)
    as (w' & Run & _).
  now rewrite Run.
Qed.

Lemma stages_outcome_same_providers query context agents agents' stage_list :
  (forall stage, dict_get (agent_id stage) agents = dict_get (agent_id stage) agents') ->
  forall stages,
    stages_outcome query context agents stage_list stages
    = stages_outcome query context agents' stage_list stages.
Proof.
  intro Same. unfold stages_outcome.
  induction stage_list as [|stage rest IH]; intro stages; cbn; [reflexivity|].
  assert (Step : stage_outcome query context agents stages stage
                 = stage_outcome query context agents' stages stage).
  { unfold stage_outcome. destruct (stage_of_str stage) as [[a| | | | | | | | | |]|];
      try reflexivity.
    cbn [stage_result]. unfold agent_result, call_provider. now rewrite Same. }
  rewrite Step. destruct (stage_outcome _ _ agents' _ _); cbn; [apply IH | reflexivity].
Qed.

(** A run consults no provider but those of the three agent stages: two
    [agents] dicts that agree on ['data_analysis'], ['research'] and
    ['business_advisor'] give the same outcome, whatever they hold under
    ['chat'] or any other key. *)
Theorem run_reads_three_providers
    (workflow_ : Template) (query : string) (context : Context)
    (agents agents' : dict string Provider) (w : World) :
  (forall stage, dict_get (agent_id stage) agents = dict_get (agent_id stage) agents') ->
  fst (EnhancedWorkflows.execute_enhanced_workflow workflow_ query context agents w)
  = fst (EnhancedWorkflows.execute_enhanced_workflow workflow_ query context agents' w).
Proof.
  intro Same. rewrite !outcome_of_run. unfold run_outcome.
  now rewrite (stages_outcome_same_providers _ _ _ _ _ Same).
Qed.

Lemma stages_outcome_known_only query context agents stage_list :
  forall stages,
    stages_outcome query context agents (filter names_stage stage_list) stages
    = stages_outcome query context agents stage_list stages.
Proof.
  unfold stages_outcome.
  induction stage_list as [|stage rest IH]; intro stages; cbn [filter ofold];
    [reflexivity|].
  unfold names_stage at 1, stage_outcome at 2.
  destruct (stage_of_str stage) as [stage_name|] eqn:S.
  - cbn [ofold]. unfold stage_outcome at 1. rewrite S.
    destruct (stage_result _ _ _ _ _); cbn; [apply IH | reflexivity].
  - cbn [obind]. apply IH.
Qed.

(** A string of the ['workflow'] list that names no stage (['chat'], a
    misspelt name) is passed over without a trace: the run is that of the
    template without these strings. *)
Theorem unknown_stages_are_skipped
    (workflow_ : Template) (query : string) (context : Context)
    (agents : dict string Provider) (w : World) :
  fst (EnhancedWorkflows.execute_enhanced_workflow workflow_ query context agents w)
  = fst (EnhancedWorkflows.execute_enhanced_workflow (known_stages_only workflow_)
           query context agents w).
Proof.
  rewrite !outcome_of_run. unfold run_outcome.
  cbn [workflow known_stages_only]. rewrite stages_outcome_known_only.
  reflexivity.
Qed.

End RunFacts.

Lemma run_reads_three_providers_witness :
  (forall stage,
      dict_get (agent_id stage) (agents (master_agent research_down))
      = dict_get (agent_id stage)
          (dict_set "chat" (failing "no chat") (agents (master_agent research_down)))) /\
  fst (EnhancedWorkflows.execute_enhanced_workflow (builtins := latin1_builtins)
         EnhancedWorkflows.strategic_analysis "plan" None
         (agents (master_agent research_down)) research_down)
  = fst (EnhancedWorkflows.execute_enhanced_workflow (builtins := latin1_builtins)
           EnhancedWorkflows.strategic_analysis "plan" None
           (dict_set "chat" (failing "no chat") (agents (master_agent research_down)))
           research_down).
Proof.
  assert (Same : forall stage,
             dict_get (agent_id stage) (agents (master_agent research_down))
             = dict_get (agent_id stage)
                 (dict_set "chat" (failing "no chat")
                           (agents (master_agent research_down))))
    by (intros []; reflexivity).
  split; [exact Same|].
  exact (run_reads_three_providers (builtins := latin1_builtins) _ _ _ _ _ _ Same).
Defined.

(** ** Answers of a provider that cannot be read *)

Section Unreadable.
Context {builtins : StrBuiltins}.

Lemma py_get_returned (entry : PyVal) (key : string) (default value : PyVal) :
  py_get entry key default = Returned value ->
  exists fields, entry = PyDict fields /\ value = dict_get_default key default fields.
Proof.
  destruct entry; cbn; try discriminate. intros [= <-]. eauto.
Qed.

Lemma descriptions_returned (value : PyVal) (found : list PyVal) :
  EnhancedWorkflows.descriptions value = Returned found ->
  dict_entries (Some value) = true.
Proof.
  unfold EnhancedWorkflows.descriptions, dict_entries.
  destruct (elements value) as [entries|e]; cbn [obind]; [|discriminate].
  intro Read. apply forallb_forall. intros entry M.
  destruct (omap_returned_all _ _ _ entry Read M) as (description & Get).
  apply py_get_returned in Get. destruct Get as (fields & -> & _). reflexivity.
Qed.

(** An agent stage whose insights are extracted has only dicts in its
    two lists. *)
Lemma extract_key_insights_returned (summary : string) (raw : RawResult)
    (found : list PyVal) :
  EnhancedWorkflows._extract_key_insights (AgentSuccess summary raw) = Returned found ->
  dict_entries (dict_get "insights" raw) = true /\
  dict_entries (dict_get "recommendations" raw) = true.
Proof.
  unfold EnhancedWorkflows._extract_key_insights. cbn [get_raw_result get_summary_field].
  destruct (dict_get "insights" raw) as [value|].
  - destruct (EnhancedWorkflows.descriptions value) as [from_insights|e] eqn:I;
      cbn [obind]; [|discriminate].
    apply descriptions_returned in I.
    destruct (dict_get "recommendations" raw) as [value'|]; [|now split].
    destruct (EnhancedWorkflows.descriptions value') as [from_recommendations|e] eqn:R;
      cbn [obind]; [|discriminate].
    apply descriptions_returned in R. now split.
  - cbn [obind].
    destruct (dict_get "recommendations" raw) as [value'|]; [|now split].
    destruct (EnhancedWorkflows.descriptions value') as [from_recommendations|e] eqn:R;
      cbn [obind]; [|discriminate].
    apply descriptions_returned in R. now split.
Qed.

Lemma collect_insights_returned (stages : dict StageName StageResult)
    (insights : dict StageName (list PyVal)) (stage_name : StageName) (summary : string)
    (raw : RawResult) :
  EnhancedWorkflows.collect_insights stages = Returned insights ->
  In (stage_name, AgentSuccess summary raw) stages ->
  dict_entries (dict_get "insights" raw) = true /\
  dict_entries (dict_get "recommendations" raw) = true.
Proof.
  unfold EnhancedWorkflows.collect_insights. intros Collected M.
  destruct (ofold_returned_all _ _ _ _ _ Collected M) as (before & after & Step).
  cbn [get_success] in Step.
  destruct (EnhancedWorkflows._extract_key_insights (AgentSuccess summary raw))
    as [found|e] eqn:E; [|discriminate].
  exact (extract_key_insights_returned _ _ _ E).
Qed.

(** What the extraction loop adds for one stage. *)
Lemma extract_recommendations_returned (stages : dict StageName StageResult) :
  forall found0 found,
    ofold (fun found '(stage_name, stage_result) =>
             match get_success stage_result, get_raw_result stage_result with
             | true, Some raw_result =>
                 match dict_get "recommendations" raw_result with
                 | Some value =>
                     (entries <- elements value ;;
                      added <-
                        omap (fun entry =>
                                priority <- py_get entry "priority" (PyStr "medium") ;;
                                description <- py_get entry "description" (PyStr "") ;;
                                Returned (mkRecommendation priority description
                                                           (stage_str stage_name)))
                             entries ;;
                      Returned (found ++ added))%outcome
                 | None => Returned found
                 end
             | _, _ => Returned found
             end)
          stages found0 = Returned found ->
    incl found0 found /\
    forall stage_name summary raw value,
      In (stage_name, AgentSuccess summary raw) stages ->
      dict_get "recommendations" raw = Some value ->
      exists entries,
        elements value = Returned entries /\
        forall entry,
          In entry entries ->
          exists fields,
            entry = PyDict fields /\
            In (mkRecommendation (dict_get_default "priority" (PyStr "medium") fields)
                                 (dict_get_default "description" (PyStr "") fields)
                                 (stage_str stage_name))
               found.
Proof.
  induction stages as [|[name result] stages IH]; intros found0 found; cbn [ofold].
  - intros [= <-]. split; [apply incl_refl|]. intros ? ? ? ? [].
  - match goal with
    | |- obind ?step _ = _ -> _ => destruct step as [found1|e] eqn:Step
    end; cbn [obind]; [|discriminate].
    intro Rest. destruct (IH _ _ Rest) as (Kept & Later).
    assert (First : incl found0 found1 /\
                    forall summary raw value,
                      result = AgentSuccess summary raw ->
                      dict_get "recommendations" raw = Some value ->
                      exists entries,
                        elements value = Returned entries /\
                        forall entry,
                          In entry entries ->
                          exists fields,
                            entry = PyDict fields /\
                            In (mkRecommendation
                                  (dict_get_default "priority" (PyStr "medium") fields)
                                  (dict_get_default "description" (PyStr "") fields)
                                  (stage_str name))
                               found1).
    { destruct result as [summary raw|error|sc c a r|es kf so rf sm|k v];
        cbn [get_success get_raw_result] in Step;
        try (injection Step as <-; split; [apply incl_refl | intros; discriminate]).
      destruct (dict_get "recommendations" raw) as [value|] eqn:G.
      - destruct (elements value) as [entries|e] eqn:Read; cbn [obind] in Step;
          [|discriminate].
        match type of Step with
        | obind (omap ?f _) _ = _ => destruct (omap f entries) as [added|e] eqn:Added
        end; cbn [obind] in Step; [|discriminate].
        injection Step as <-. split; [intros x X; apply in_or_app; now left|].
        intros summary' raw' value' [= <- <-] G'. rewrite G in G'. injection G' as <-.
        exists entries. split; [exact Read|]. intros entry M.
        destruct (omap_returned_all _ _ _ entry Added M) as (x & Made).
        pose proof (omap_image _ _ _ _ _ Added M Made) as X.
        cbv beta in Made.
        destruct (py_get entry "priority" (PyStr "medium")) as [p|e] eqn:P;
          cbn [obind] in Made; [|discriminate].
        destruct (py_get entry "description" (PyStr "")) as [d|e] eqn:D;
          cbn [obind] in Made; [|discriminate].
        injection Made as <-.
        apply py_get_returned in P. destruct P as (fields & -> & ->).
        cbn in D. injection D as <-.
        exists fields. split; [reflexivity|]. apply in_or_app. now right.
      - injection Step as <-. split; [apply incl_refl|].
        intros summary' raw' value' [= <- <-] G'. congruence. }
    destruct First as (Kept1 & Now).
    split; [intros x X; apply Kept, Kept1, X|].
    intros stage_name summary raw value [[= <- ->]|M] G.
    + destruct (Now summary raw value eq_refl G) as (entries & Read & Each).
      exists entries. split; [exact Read|]. intros entry E.
      destruct (Each entry E) as (fields & -> & X). exists fields.
      split; [reflexivity | apply Kept, X].
    + exact (Later stage_name summary raw value M G).
Qed.

(** The stages of a run whose recommendations are prioritized: what a
    succeeded agent stage has under ['recommendations'] is made of dicts
    whose priorities can be hashed. *)
Lemma prioritized_recommendations_returned (stages : dict StageName StageResult)
    (recs : list Recommendation) (stage_name : StageName) (summary : string)
    (raw : RawResult) :
  EnhancedWorkflows._generate_prioritized_recommendations stages = Returned recs ->
  In (stage_name, AgentSuccess summary raw) stages ->
  dict_entries (dict_get "recommendations" raw) = true /\
  hashable_priorities (dict_get "recommendations" raw) = true.
Proof.
  unfold EnhancedWorkflows._generate_prioritized_recommendations. intros Sorted M.
  destruct (EnhancedWorkflows.extract_recommendations stages) as [found|e] eqn:Found;
    cbn [obind] in Sorted; [|discriminate].
  apply sort_reverse_by_returned in Sorted. destruct Sorted as (_ & Keys).
  destruct (extract_recommendations_returned stages [] found Found) as (_ & Each).
  destruct (dict_get "recommendations" raw) as [value|] eqn:G; [|now split].
  destruct (Each stage_name summary raw value M G) as (entries & Read & Dicts).
  unfold dict_entries, hashable_priorities. rewrite Read.
  split; apply forallb_forall; intros entry E;
    destruct (Dicts entry E) as (fields & -> & X); [reflexivity|].
  cbn. specialize (Keys _ X). unfold EnhancedWorkflows.sort_key,
    EnhancedWorkflows.priority_order_get in Keys. cbn [priority] in Keys.
  destruct (dict_get_default "priority" (PyStr "medium") fields); try reflexivity;
    discriminate Keys.
Qed.

(** A ['recommendations'] value that is not made of dicts only ends the
    run.  Let an agent stage of the template get from its provider a
    value under ['recommendations'] that has an element that is no dict
    (a plain string, as the business advisor of this repository gives)
    or that cannot be iterated.  Then the run returns no result: it
    raises an [AttributeError] or a [TypeError] of reading a provider's
    answer. *)
Theorem plain_string_recommendation_ends_run
    (workflow_ : Template) (query : string) (context : Context)
    (agents : dict string Provider) (w : World) (stage : AgentStage)
    (summary : string) (raw : RawResult) :
  In (agent_id stage) (workflow workflow_) ->
  call_provider agents stage query context = Returned (summary, raw) ->
  dict_entries (dict_get "recommendations" raw) = false ->
  exists e,
    fst (EnhancedWorkflows.execute_enhanced_workflow workflow_ query context agents w)
    = Raised e /\
    payload_error e.
Proof.
  intros Listed Answer Plain. rewrite outcome_of_run.
  pose proof (run_outcome_raises workflow_ query context agents (clock w)) as Only.
  destruct (run_outcome workflow_ query context agents (clock w)) as [results|e] eqn:Run;
    [exfalso | exists e; split; [reflexivity | now apply Only]].
  unfold run_outcome in Run.
  destruct (stages_outcome query context agents (workflow workflow_) []) as [stages|e]
    eqn:Loop; cbn [obind] in Run; [|discriminate].
  destruct (EnhancedWorkflows._generate_prioritized_recommendations stages) as [recs|e]
    eqn:Recs; cbn [obind] in Run; [|discriminate].
  assert (Has : dict_has (agent_stage stage) stages = true)
    by (apply (stages_outcome_has _ _ _ _ _ _ _ Loop); now right).
  unfold dict_has in Has.
  destruct (dict_get (agent_stage stage) stages) as [result|] eqn:G; [|discriminate].
  assert (E : result = agent_result agents stage query context).
  { eapply stages_outcome_agent_entries; [|exact Loop|exact G]. intros a r. discriminate. }
  unfold agent_result in E. rewrite Answer in E. subst result.
  apply dict_get_In in G.
  destruct (prioritized_recommendations_returned _ _ _ _ _ Recs G) as (Dicts & _).
  congruence.
Qed.

End Unreadable.

Lemma plain_string_recommendation_ends_run_witness :
  let providers := agents (master_agent research_down_advisor_text) in
  In (agent_id business_advisor) (workflow EnhancedWorkflows.market_analysis) /\
  call_provider (builtins := latin1_builtins) providers business_advisor "mercado" None
  = Returned ("negocio", advisor_text) /\
  dict_entries (dict_get "recommendations" advisor_text) = false /\
  exists e,
    fst (EnhancedWorkflows.execute_enhanced_workflow (builtins := latin1_builtins)
           EnhancedWorkflows.market_analysis "mercado" None providers
           research_down_advisor_text)
    = Raised e /\
    payload_error e.
Proof.
  cbv zeta.
  assert (Listed : In (agent_id business_advisor) (workflow EnhancedWorkflows.market_analysis))
    by (simpl; tauto).
  split; [exact Listed|]. split; [reflexivity|]. split; [reflexivity|].
  exact (plain_string_recommendation_ends_run (builtins := latin1_builtins)
           EnhancedWorkflows.market_analysis "mercado" None
           (agents (master_agent research_down_advisor_text))
           research_down_advisor_text business_advisor "negocio" advisor_text
           Listed eq_refl eq_refl).
Defined.

(** ** The result of a request *)

Section RequestFacts.
Context {builtins : StrBuiltins}.

Lemma providers_ok_well_formed agents query context :
  providers_ok agents query context = true -> providers_well_formed agents query context.
Proof.
  unfold providers_ok. cbn [forallb]. rewrite !andb_true_iff.
  intros (D & R & B & _) stage summary raw Answer.
  destruct stage; rewrite Answer in *; assumption.
Qed.

(** A run of the strategic template that returns has read the answers
    of the three providers: they are well formed. *)
Lemma strategic_run_returned query context agents timestamp results :
  run_outcome EnhancedWorkflows.strategic_analysis query context agents timestamp
  = Returned results ->
  providers_ok agents query context = true.
Proof.
  unfold run_outcome, stages_outcome.
  cbn [workflow EnhancedWorkflows.strategic_analysis ofold].
  unfold stage_outcome at 1. change (stage_of_str "data_analysis")
    with (Some (agent_stage data_analysis)). cbn [stage_result obind].
  unfold stage_outcome at 1. change (stage_of_str "research")
    with (Some (agent_stage research)). cbn [stage_result obind].
  unfold stage_outcome at 1. change (stage_of_str "business_advisor")
    with (Some (agent_stage business_advisor)). cbn [stage_result obind].
  unfold stage_outcome at 1. change (stage_of_str "cross_validation")
    with (Some cross_validation). cbn [stage_result].
  unfold stage_outcome at 1. change (stage_of_str "strategic_synthesis")
    with (Some strategic_synthesis). cbn [stage_result].
  set (known := dict_set (agent_stage business_advisor) _
                  (dict_set (agent_stage research) _
                     (dict_set (agent_stage data_analysis) _ []))).
  assert (Known : forall stage,
             In (agent_stage stage, agent_result agents stage query context) known)
    by (intros []; cbn; tauto).
  destruct (EnhancedWorkflows._cross_validate_results known) as [validation|e] eqn:CV;
    cbn [obind]; [|discriminate].
  match goal with
  | |- context [EnhancedWorkflows._create_strategic_synthesis ?stages query] =>
      destruct (EnhancedWorkflows._create_strategic_synthesis stages query)
        as [strategy|e] eqn:SS
  end; cbn [obind]; [|discriminate].
  match goal with
  | |- context [EnhancedWorkflows._generate_prioritized_recommendations ?stages] =>
      set (final := stages);
      destruct (EnhancedWorkflows._generate_prioritized_recommendations final)
        as [recs|e] eqn:Recs
  end; cbn [obind]; [|discriminate].
  intros _.
  assert (Final : forall stage,
             In (agent_stage stage, agent_result agents stage query context) final)
    by (intros []; cbn; tauto).
  unfold EnhancedWorkflows._cross_validate_results in CV.
  destruct (EnhancedWorkflows.collect_insights known) as [insights|e] eqn:Collected;
    cbn [obind] in CV; [|discriminate].
  assert (Fine : forall stage summary raw,
             call_provider agents stage query context = Returned (summary, raw) ->
             well_formed raw = true).
  { intros stage summary raw Answer.
    pose proof (Known stage) as K. pose proof (Final stage) as F.
    unfold agent_result in K, F. rewrite Answer in K, F.
    destruct (collect_insights_returned _ _ _ _ _ Collected K) as (I & R).
    destruct (prioritized_recommendations_returned _ _ _ _ _ Recs F) as (_ & H).
    unfold well_formed. now rewrite I, R, H. }
  unfold providers_ok. cbn [forallb]. rewrite !andb_true_iff.
  repeat split;
    match goal with
    | |- match call_provider agents ?stage query context with _ => _ end = true =>
        destruct (call_provider agents stage query context) as [[summary raw]|e] eqn:Answer;
          [exact (Fine stage summary raw Answer) | reflexivity]
    end.
Qed.

(** [process_query] never raises and only prints.  With the registry of
    [EnhancedWorkflows.__init__] it has two kinds of result.  When every
    answer of the three providers is well formed (what it has under
    ['insights'] and ['recommendations'] is made of dicts, with
    priorities that can be hashed) it is the success dict of the
    strategic template, whose synthesis is the narrative of the stages.
    In every other case it is the failure dict with the text of the
    [AttributeError] or [TypeError] that reading the answer raised. *)
Theorem process_query_result (w : World) (query : string) (context : Context) :
  str_lower "" = "" ->
  workflow_templates (enhanced_workflows w) = workflow_templates EnhancedWorkflows.__init__ ->
  exists final w',
    MasterAgent.process_query query context w = (Returned final, w') /\
    extends w w' /\
    if providers_ok (agents (master_agent w)) query context then
      exists results stages,
        final = Success query "Análisis Estratégico Completo"
                        ["data_analysis"; "research"; "business_advisor"] results
                        (VStr (EnhancedWorkflows._generate_final_synthesis
                                 stages EnhancedWorkflows.strategic_analysis))
                        (clock w) /\
        dict_get "stages" results = Some (VStages stages) /\
        dict_get "workflow_name" results = Some (VStr "Análisis Estratégico Completo") /\
        dict_get "query" results = Some (VStr query)
    else
      exists e,
        final = Failure (exn_str e) query (clock w) /\
        payload_error e.
Proof.
  intros Lower Registry.
  destruct (process_query_computes w query context Lower) as (w' & Run & X).
  exists (final_result w query context), w'. split; [exact Run|]. split; [exact X|].
  unfold final_result, process_outcome. rewrite Registry.
  change (dict_get "strategic_analysis" (workflow_templates EnhancedWorkflows.__init__))
    with (Some EnhancedWorkflows.strategic_analysis).
  cbn [obind].
  destruct (providers_ok (agents (master_agent w)) query context) eqn:OK.
  - apply providers_ok_well_formed in OK.
    destruct (stages_outcome_returns query context (agents (master_agent w))
                (workflow EnhancedWorkflows.strategic_analysis) [] OK (Forall_nil _))
      as (stages & Loop & Fine).
    destruct (prioritized_recommendations_returns stages Fine) as [recs Recs].
    unfold run_outcome. rewrite Loop. cbn [obind]. rewrite Recs. cbn [obind].
    eexists. exists stages. repeat split.
  - pose proof (run_outcome_raises EnhancedWorkflows.strategic_analysis query context
                  (agents (master_agent w)) (clock w)) as Only.
    destruct (run_outcome EnhancedWorkflows.strategic_analysis query context
                (agents (master_agent w)) (clock w)) as [results|e] eqn:Outcome.
    + apply strategic_run_returned in Outcome. congruence.
    + cbn [obind]. exists e. split; [reflexivity | now apply Only].
Qed.

End RequestFacts.

Lemma process_query_result_witness :
  str_lower (StrBuiltins := latin1_builtins) "" = "" /\
  workflow_templates (enhanced_workflows research_down)
  = workflow_templates EnhancedWorkflows.__init__ /\
  exists final w',
    MasterAgent.process_query (builtins := latin1_builtins) "plan" None research_down
    = (Returned final, w') /\
    extends research_down w' /\
    if providers_ok (builtins := latin1_builtins)
         (agents (master_agent research_down)) "plan" None then
      exists results stages,
        final = Success "plan" "Análisis Estratégico Completo"
                        ["data_analysis"; "research"; "business_advisor"] results
                        (VStr (EnhancedWorkflows._generate_final_synthesis
                                 (builtins := latin1_builtins)
                                 stages EnhancedWorkflows.strategic_analysis))
                        (clock research_down) /\
        dict_get "stages" results = Some (VStages stages) /\
        dict_get "workflow_name" results = Some (VStr "Análisis Estratégico Completo") /\
        dict_get "query" results = Some (VStr "plan")
    else
      exists e,
        final = Failure (exn_str e) "plan" (clock research_down) /\
        payload_error e.
Proof.
  split; [reflexivity|]. split; [reflexivity|].
  exact (process_query_result (builtins := latin1_builtins) research_down "plan" None
           eq_refl eq_refl).
Defined.

(** ** What the stages of a run hold *)

Section DictMembership.
Context {K V : Type} `{KeyLaws K}.

Lemma dict_set_In (k k' : K) (v v' : V) (d : dict K V) :
  In (k', v') (dict_set k v d) -> (k' = k /\ v' = v) \/ In (k', v') d.
Proof.
  induction d as [|[k0 v0] d IH]; cbn.
  - intros [[= <- <-]|[]]. now left.
  - destruct (key_eqb k0 k) eqn:E.
    + apply key_eqb_eq in E. subst k0. intros [[= <- <-]|M]; [now left | right; now right].
    + intros [M|M]; [right; now left|].
      destruct (IH M) as [L|R]; [now left | right; now right].
Qed.

Lemma dict_set_unique_keys (k : K) (v : V) (d : dict K V) :
  NoDup (dict_keys d) -> NoDup (dict_keys (dict_set k v d)).
Proof.
  intro N. rewrite dict_keys_set. destruct (dict_has k d) eqn:Has; [exact N|].
  rewrite dict_has_keys in Has.
  apply NoDup_app; [exact N | constructor; [intros [] | constructor] |].
  intros k0 M [E|[]]. subst k0.
  assert (T : existsb (fun k' => key_eqb k' k) (dict_keys d) = true).
  { apply existsb_exists. exists k. split; [exact M | apply key_eqb_refl]. }
  congruence.
Qed.

Lemma dict_get_of_member (k : K) (v : V) (d : dict K V) :
  NoDup (dict_keys d) -> In (k, v) d -> dict_get k d = Some v.
Proof.
  induction d as [|[k0 v0] d IH]; cbn; [intros _ []|].
  intros N M. apply NoDup_cons_iff in N. destruct N as [Fresh N].
  destruct (key_eqb k0 k) eqn:E.
  - apply key_eqb_eq in E. subst k0. destruct M as [M|M]; [congruence|].
    exfalso. apply Fresh. change k with (fst (k, v)). now apply in_map.
  - destruct M as [M|M]; [|now apply IH].
    injection M as -> _. now rewrite key_eqb_refl in E.
Qed.

End DictMembership.

Lemma firstn_member {A : Type} (n : nat) (x : A) (xs : list A) :
  In x (firstn n xs) -> In x xs.
Proof.
  revert xs. induction n as [|n IH]; intros [|y xs]; cbn; try tauto.
  intros [E|M]; [now left | right; now apply IH].
Qed.

Section StageContents.
Context {builtins : StrBuiltins}.

Lemma extract_key_insights_nonempty stage_result found :
  EnhancedWorkflows._extract_key_insights stage_result = Returned found ->
  Forall (fun insight => truthy insight = true) found.
Proof.
  unfold EnhancedWorkflows._extract_key_insights.
  destruct (get_raw_result stage_result) as [raw|]; [|intros [= <-]; constructor].
  destruct (match dict_get "insights" raw with Some _ => _ | None => _ end) as [a|e];
    cbn [obind]; [|discriminate].
  destruct (match dict_get "recommendations" raw with Some _ => _ | None => _ end) as [b|e];
    cbn [obind]; [|discriminate].
  intros [= <-]. apply Forall_forall. intros insight M.
  apply filter_In in M. now destruct M as [_ T].
Qed.

Lemma strategic_synthesis_findings stages query result :
  EnhancedWorkflows._create_strategic_synthesis stages query = Returned result ->
  findings_of query result.
Proof.
  unfold EnhancedWorkflows._create_strategic_synthesis.
  match goal with
  | |- (all_insights <- ofold ?body ?xs ?s ;; _)%outcome = _ -> _ =>
      destruct (ofold body xs s) as [all_insights|e] eqn:Loop
  end; cbn [obind]; [|discriminate].
  intros [= <-]. exists (EnhancedWorkflows._prioritize_insights all_insights).
  unfold EnhancedWorkflows._prioritize_insights.
  split; [reflexivity|]. split; [apply firstn_le_length|].
  assert (All : Forall (fun insight => truthy insight = true) all_insights).
  { revert all_insights Loop.
    apply (ofold_invariant (Forall (fun insight => truthy insight = true))); [constructor|].
    intros found [stage_name stage_result] found' _ F.
    destruct (get_success stage_result); [|now intros [= <-]].
    destruct (EnhancedWorkflows._extract_key_insights stage_result) as [more|e] eqn:E;
      cbn [obind]; [|discriminate].
    intros [= <-]. apply Forall_app. split; [exact F|].
    now apply extract_key_insights_nonempty in E. }
  rewrite Forall_forall in *. intros finding M. apply All.
  now apply (firstn_member 5).
Qed.

Lemma stage_result_sound query context agents stages stage_name result :
  stage_result query context agents stages stage_name = Returned result ->
  entry_sound query context agents stage_name result.
Proof.
  destruct stage_name; cbn [stage_result entry_sound stub_result];
    try (now intros [= <-]).
  - apply cross_validate_shape.
  - apply strategic_synthesis_findings.
Qed.

Lemma stages_outcome_sound query context agents stage_list stages stages' :
  stages_sound query context agents stages ->
  stages_outcome query context agents stage_list stages = Returned stages' ->
  stages_sound query context agents stages'.
Proof.
  intros Sound Loop. revert stages' Loop.
  apply (ofold_invariant (stages_sound query context agents)); [exact Sound|].
  clear. intros stages stage stages' _ [Unique Sound] Step.
  unfold stage_outcome in Step.
  destruct (stage_of_str stage) as [stage_name|]; [|injection Step as <-; now split].
  destruct (stage_result _ _ _ _ stage_name) as [result|e] eqn:R; cbn in Step;
    [|discriminate].
  injection Step as <-. split; [now apply dict_set_unique_keys|].
  intros stage_name' result' M. apply dict_set_In in M.
  destruct M as [[-> ->]|M]; [now apply stage_result_sound in R | now apply Sound].
Qed.

Lemma run_stages_sound query context agents stage_list stages :
  stages_outcome query context agents stage_list [] = Returned stages ->
  stages_sound query context agents stages.
Proof.
  apply stages_outcome_sound. split; [constructor | intros ? ? []].
Qed.

Lemma sound_entry query context agents stages stage_name result :
  stages_sound query context agents stages ->
  dict_get stage_name stages = Some result ->
  entry_sound query context agents stage_name result.
Proof.
  intros [_ Sound] G. apply Sound. now apply dict_get_In.
Qed.

(** The stub stages always succeed.  In a run that returns, each stub
    stage of the template holds its fixed dict with ['success': True],
    whatever the agent stages returned, also when all of them failed. *)
Theorem stub_stages_always_succeed
    (workflow_ : Template) (query : string) (context : Context)
    (agents : dict string Provider) (w w' : World) (results : dict string RunVal) :
  EnhancedWorkflows.execute_enhanced_workflow workflow_ query context agents w
    = (Returned results, w') ->
  exists stages,
    dict_get "stages" results = Some (VStages stages) /\
    forall stage_name stored,
      stub_result stage_name = Some stored ->
      In (stage_str stage_name) (workflow workflow_) ->
      dict_get stage_name stages = Some stored /\ get_success stored = true.
Proof.
  intro Run. apply run_returned in Run.
  destruct Run as (stages & recs & Loop & _ & ->).
  exists stages. split; [reflexivity|].
  intros stage_name stored Stub Listed.
  assert (Has : dict_has stage_name stages = true)
    by (apply (stages_outcome_has _ _ _ _ _ _ _ Loop); now right).
  unfold dict_has in Has.
  destruct (dict_get stage_name stages) as [result|] eqn:G; [|discriminate].
  pose proof (sound_entry _ _ _ _ _ _ (run_stages_sound _ _ _ _ _ Loop) G) as Sound.
  assert (E : result = stored).
  { destruct stage_name; cbn in Stub, Sound; try discriminate; congruence. }
  subst result. split; [reflexivity|].
  destruct stage_name; cbn in Stub; try discriminate; now injection Stub as <-.
Qed.

(** The strategic synthesis of a run that returns: its summary is the
    fixed prefix followed by the query, it keeps at most five findings,
    none of them falsy (the empty string, say), and its three other
    lists are empty. *)
Theorem strategic_findings_are_bounded
    (workflow_ : Template) (query : string) (context : Context)
    (agents : dict string Provider) (w w' : World) (results : dict string RunVal) :
  EnhancedWorkflows.execute_enhanced_workflow workflow_ query context agents w
    = (Returned results, w') ->
  In "strategic_synthesis" (workflow workflow_) ->
  exists stages findings,
    dict_get "stages" results = Some (VStages stages) /\
    dict_get strategic_synthesis stages
    = Some (StrategicSynthesis ("Análisis estratégico completo para: " ++ query)
                               findings [] [] []) /\
    length findings <= 5 /\
    Forall (fun finding => truthy finding = true) findings.
Proof.
  intros Run Listed. apply run_returned in Run.
  destruct Run as (stages & recs & Loop & _ & ->).
  assert (Has : dict_has strategic_synthesis stages = true)
    by (apply (stages_outcome_has _ _ _ _ _ _ _ Loop); now right).
  unfold dict_has in Has.
  destruct (dict_get strategic_synthesis stages) as [result|] eqn:G; [|discriminate].
  pose proof (sound_entry _ _ _ _ _ _ (run_stages_sound _ _ _ _ _ Loop) G) as Sound.
  destruct Sound as (findings & -> & Bound & Full).
  exists stages, findings. repeat split; assumption.
Qed.

End StageContents.

Section Provenance.
Context {builtins : StrBuiltins}.

Lemma extracted_recommendation_origin stages :
  forall found0 found,
    ofold (fun found '(stage_name, stage_result) =>
             match get_success stage_result, get_raw_result stage_result with
             | true, Some raw_result =>
                 match dict_get "recommendations" raw_result with
                 | Some value =>
                     (entries <- elements value ;;
                      added <-
                        omap (fun entry =>
                                priority <- py_get entry "priority" (PyStr "medium") ;;
                                description <- py_get entry "description" (PyStr "") ;;
                                Returned (mkRecommendation priority description
                                                           (stage_str stage_name)))
                             entries ;;
                      Returned (found ++ added))%outcome
                 | None => Returned found
                 end
             | _, _ => Returned found
             end)
          stages found0 = Returned found ->
    forall x, In x found ->
      In x found0 \/
      exists stage_name summary raw value entries fields,
        In (stage_name, AgentSuccess summary raw) stages /\
        dict_get "recommendations" raw = Some value /\
        elements value = Returned entries /\
        In (PyDict fields) entries /\
        x = mkRecommendation (dict_get_default "priority" (PyStr "medium") fields)
                             (dict_get_default "description" (PyStr "") fields)
                             (stage_str stage_name).
Proof.
  induction stages as [|[stage_name stage_result] stages IH]; intros found0 found; cbn [ofold].
  - intros [= <-] x M. now left.
  - destruct stage_result as [summary raw|error|s c a r|s k o r m|k v];
      cbn [get_success get_raw_result obind];
      try (intros Loop x M;
           destruct (IH _ _ Loop x M) as [L|(n & s' & r' & va & en & fs & I & Rest)];
           [now left | right; exists n, s', r', va, en, fs; split; [now right | exact Rest]]).
    destruct (dict_get "recommendations" raw) as [value|] eqn:R; cbn [obind].
    + destruct (elements value) as [entries|e] eqn:Read; cbn [obind]; [|discriminate].
      match goal with
      | |- (s' <- (added <- omap ?f entries ;; _) ;; _)%outcome = _ -> _ =>
          destruct (omap f entries) as [added|e] eqn:O
      end; cbn [obind]; [|discriminate].
      intros Loop x M.
      destruct (IH _ _ Loop x M) as [L|(n & s' & r' & va & en & fs & I & Rest)].
      * apply in_app_or in L. destruct L as [L|L]; [now left|]. right.
        destruct (omap_members _ _ _ _ O L) as (entry & E & Built).
        destruct entry as [| | | | |items|fields]; try discriminate Built.
        exists stage_name, summary, raw, value, entries, fields.
        split; [now left|]. split; [exact R|]. split; [exact Read|]. split; [exact E|].
        cbn in Built. now injection Built as <-.
      * right. exists n, s', r', va, en, fs. split; [now right | exact Rest].
    + intros Loop x M.
      destruct (IH _ _ Loop x M) as [L|(n & s' & r' & va & en & fs & I & Rest)];
        [now left | right; exists n, s', r', va, en, fs; split; [now right | exact Rest]].
Qed.

Lemma success_is_agent_stage query context agents stage_name summary raw :
  entry_sound query context agents stage_name (AgentSuccess summary raw) ->
  exists stage,
    stage_name = agent_stage stage /\
    call_provider agents stage query context = Returned (summary, raw).
Proof.
  destruct stage_name as [stage| | | | | | | | | |]; cbn [entry_sound stub_result];
    try discriminate.
  - unfold agent_result. intro E. exists stage. split; [reflexivity|].
    destruct (call_provider agents stage query context) as [[s r]|e]; [|discriminate].
    now injection E as <- <-.
  - intros (score & E & _). discriminate.
  - intros (findings & E & _). discriminate.
Qed.

(** Every recommendation of a run comes from an agent stage that
    succeeded: its source is that stage, and its priority and description
    are those of one dict among the elements of the stage's
    ['recommendations'], with ['medium'] for a missing priority and the
    empty string for a missing description.  A failed stage and the
    derived stages contribute none. *)
Theorem recommendations_come_from_successes
    (workflow_ : Template) (query : string) (context : Context)
    (agents : dict string Provider) (w w' : World) (results : dict string RunVal) :
  EnhancedWorkflows.execute_enhanced_workflow workflow_ query context agents w
    = (Returned results, w') ->
  exists stages recs,
    dict_get "stages" results = Some (VStages stages) /\
    dict_get "recommendations" results = Some (VRecs recs) /\
    forall x, In x recs ->
      exists stage summary raw value entries fields,
        dict_get (agent_stage stage) stages = Some (AgentSuccess summary raw) /\
        dict_get "recommendations" raw = Some value /\
        elements value = Returned entries /\
        In (PyDict fields) entries /\
        priority x = dict_get_default "priority" (PyStr "medium") fields /\
        rec_description x = dict_get_default "description" (PyStr "") fields /\
        source x = agent_id stage.
Proof.
  intro Run. apply run_returned in Run.
  destruct Run as (stages & recs & Loop & Recs & ->).
  exists stages, recs. split; [reflexivity|]. split; [reflexivity|].
  unfold EnhancedWorkflows._generate_prioritized_recommendations in Recs.
  destruct (EnhancedWorkflows.extract_recommendations stages) as [found|e] eqn:Found;
    cbn [obind] in Recs; [|discriminate].
  apply sort_reverse_by_returned in Recs. destruct Recs as (-> & _). intros x M.
  apply (Permutation_in _ (Permutation_sym (sort_reverse_perm _ found))) in M.
  destruct (extracted_recommendation_origin _ _ _ Found x M)
    as [[]|(stage_name & summary & raw & value & entries & fields & I & R & Read & E & ->)].
  pose proof (run_stages_sound _ _ _ _ _ Loop) as [Unique Sound].
  destruct (success_is_agent_stage _ _ _ _ _ _ (Sound _ _ I)) as (stage & -> & _).
  exists stage, summary, raw, value, entries, fields.
  split; [now apply dict_get_of_member|]. repeat split; assumption.
Qed.

(** When every provider fails the run still returns: each agent stage
    of the template holds the failure of its provider and there are no
    recommendations. *)
Theorem run_of_failing_providers
    (workflow_ : Template) (query : string) (context : Context)
    (agents : dict string Provider) (w : World) :
  (forall stage, exists e, call_provider agents stage query context = Raised e) ->
  exists results w' stages,
    EnhancedWorkflows.execute_enhanced_workflow workflow_ query context agents w
    = (Returned results, w') /\
    dict_get "stages" results = Some (VStages stages) /\
    dict_get "recommendations" results = Some (VRecs []) /\
    forall stage,
      In (agent_id stage) (workflow workflow_) ->
      exists e,
        call_provider agents stage query context = Raised e /\
        dict_get (agent_stage stage) stages = Some (AgentFailure (exn_str e)).
Proof.
  intro Fail.
  assert (Shape : providers_well_formed agents query context).
  { intros stage summary raw Answer. destruct (Fail stage) as [e E]. congruence. }
  destruct (execute_enhanced_workflow_computes workflow_ query context agents w)
    as (w' & Run & _).
  destruct (stages_outcome_returns query context agents (workflow workflow_) []
              Shape (Forall_nil _)) as (stages & Loop & OK).
  pose proof (run_stages_sound _ _ _ _ _ Loop) as [Unique Sound].
  destruct (EnhancedWorkflows.extract_recommendations stages) as [found|e] eqn:Found.
  2:{ destruct (extract_recommendations_returns stages OK) as (found & F & _). congruence. }
  assert (Empty : found = []).
  { destruct found as [|x found]; [reflexivity|]. exfalso.
    destruct (extracted_recommendation_origin _ _ _ Found x (or_introl eq_refl))
      as [[]|(stage_name & summary & raw & value & entries & fields & I & _)].
    destruct (success_is_agent_stage _ _ _ _ _ _ (Sound _ _ I)) as (stage & _ & Answer).
    destruct (Fail stage) as [e E]. congruence. }
  subst found.
  unfold run_outcome in Run. rewrite Loop in Run. cbn [obind] in Run.
  unfold EnhancedWorkflows._generate_prioritized_recommendations in Run.
  rewrite Found in Run. cbn in Run.
  eexists. exists w', stages. split; [exact Run|].
  split; [reflexivity|]. split; [reflexivity|].
  intros stage Listed. destruct (Fail stage) as [e E]. exists e. split; [exact E|].
  assert (Has : dict_has (agent_stage stage) stages = true)
    by (apply (stages_outcome_has _ _ _ _ _ _ _ Loop); now right).
  unfold dict_has in Has.
  destruct (dict_get (agent_stage stage) stages) as [result|] eqn:G; [|discriminate].
  pose proof (Sound _ _ (dict_get_In _ _ _ G)) as S. cbn in S.
  unfold agent_result in S. rewrite E in S. now subst result.
Qed.

End Provenance.

Lemma stub_stages_always_succeed_witness :
  exists results w',
    EnhancedWorkflows.execute_enhanced_workflow (builtins := latin1_builtins)
      EnhancedWorkflows.market_analysis "mercado" None
      (agents (master_agent all_down)) all_down
    = (Returned results, w') /\
    exists stages,
      dict_get "stages" results = Some (VStages stages) /\
      forall stage_name stored,
        stub_result stage_name = Some stored ->
        In (stage_str stage_name) (workflow EnhancedWorkflows.market_analysis) ->
        dict_get stage_name stages = Some stored /\ get_success stored = true.
Proof.
  destruct (EnhancedWorkflows.execute_enhanced_workflow (builtins := latin1_builtins)
              EnhancedWorkflows.market_analysis "mercado" None
              (agents (master_agent all_down)) all_down)
    as [[results|e] w'] eqn:Run.
  - exists results, w'. split; [reflexivity|].
    exact (stub_stages_always_succeed _ _ _ _ _ _ _ Run).
  - vm_compute in Run. discriminate Run.
Defined.

Lemma strategic_findings_are_bounded_witness :
  exists results w',
    EnhancedWorkflows.execute_enhanced_workflow (builtins := latin1_builtins)
      EnhancedWorkflows.strategic_analysis "plan" None
      (agents (master_agent research_down)) research_down
    = (Returned results, w') /\
    In "strategic_synthesis" (workflow EnhancedWorkflows.strategic_analysis) /\
    exists stages findings,
      dict_get "stages" results = Some (VStages stages) /\
      dict_get strategic_synthesis stages
      = Some (StrategicSynthesis ("Análisis estratégico completo para: " ++ "plan")
                                 findings [] [] []) /\
      length findings <= 5 /\
      Forall (fun finding => truthy finding = true) findings.
Proof.
  assert (Listed : In "strategic_synthesis" (workflow EnhancedWorkflows.strategic_analysis))
    by (simpl; tauto).
  destruct (EnhancedWorkflows.execute_enhanced_workflow (builtins := latin1_builtins)
              EnhancedWorkflows.strategic_analysis "plan" None
              (agents (master_agent research_down)) research_down)
    as [[results|e] w'] eqn:Run.
  - exists results, w'. split; [reflexivity|]. split; [exact Listed|].
    exact (strategic_findings_are_bounded _ _ _ _ _ _ _ Run Listed).
  - vm_compute in Run. discriminate Run.
Defined.

Lemma recommendations_come_from_successes_witness :
  exists results w',
    EnhancedWorkflows.execute_enhanced_workflow (builtins := latin1_builtins)
      EnhancedWorkflows.strategic_analysis "plan" None
      (agents (master_agent research_down)) research_down
    = (Returned results, w') /\
    exists stages recs,
      dict_get "stages" results = Some (VStages stages) /\
      dict_get "recommendations" results = Some (VRecs recs) /\
      forall x, In x recs ->
        exists stage summary raw value entries fields,
          dict_get (agent_stage stage) stages = Some (AgentSuccess summary raw) /\
          dict_get "recommendations" raw = Some value /\
          elements value = Returned entries /\
          In (PyDict fields) entries /\
          priority x = dict_get_default "priority" (PyStr "medium") fields /\
          rec_description x = dict_get_default "description" (PyStr "") fields /\
          source x = agent_id stage.
Proof.
  destruct (EnhancedWorkflows.execute_enhanced_workflow (builtins := latin1_builtins)
              EnhancedWorkflows.strategic_analysis "plan" None
              (agents (master_agent research_down)) research_down)
    as [[results|e] w'] eqn:Run.
  - exists results, w'. split; [reflexivity|].
    exact (recommendations_come_from_successes _ _ _ _ _ _ _ Run).
  - vm_compute in Run. discriminate Run.
Defined.

Lemma run_of_failing_providers_witness :
  (forall stage,
      exists e,
        call_provider (builtins := latin1_builtins)
          (agents (master_agent all_down)) stage "plan" None = Raised e) /\
  exists results w' stages,
    EnhancedWorkflows.execute_enhanced_workflow (builtins := latin1_builtins)
      EnhancedWorkflows.strategic_analysis "plan" None
      (agents (master_agent all_down)) all_down
    = (Returned results, w') /\
    dict_get "stages" results = Some (VStages stages) /\
    dict_get "recommendations" results = Some (VRecs []) /\
    forall stage,
      In (agent_id stage) (workflow EnhancedWorkflows.strategic_analysis) ->
      exists e,
        call_provider (builtins := latin1_builtins)
          (agents (master_agent all_down)) stage "plan" None = Raised e /\
        dict_get (agent_stage stage) stages = Some (AgentFailure (exn_str e)).
Proof.
  assert (Fail : forall stage,
             exists e,
               call_provider (builtins := latin1_builtins)
                 (agents (master_agent all_down)) stage "plan" None = Raised e)
    by (intros []; eexists; reflexivity).
  split; [exact Fail|].
  exact (run_of_failing_providers (builtins := latin1_builtins)
           EnhancedWorkflows.strategic_analysis "plan" None
           (agents (master_agent all_down)) all_down Fail).
Defined.

(** ** Text that occurs in a synthesis *)

Lemma prefix_refl (s : string) : prefix s s = true.
Proof.
  induction s as [|c s IH]; cbn; [reflexivity|].
  destruct (ascii_dec c c) as [_|N]; [exact IH | contradiction].
Qed.

Lemma prefix_app (s a b : string) : prefix s a = true -> prefix s (a ++ b) = true.
Proof.
  revert a. induction s as [|c s IH]; intros a; [intros _; destruct (a ++ b)%string; reflexivity|].
  destruct a as [|c' a]; cbn; [discriminate|].
  destruct (ascii_dec c c'); [apply IH | discriminate].
Qed.

Lemma contains_of_prefix (s hay : string) : prefix s hay = true -> contains s hay = true.
Proof.
  intro P. destruct hay; cbn [contains]; rewrite P; reflexivity.
Qed.

Lemma contains_app_r (s a b : string) : contains s a = true -> contains s (a ++ b) = true.
Proof.
  induction a as [|c a IH].
  - cbn [contains]. rewrite orb_false_r. intro P.
    apply contains_of_prefix. now apply (prefix_app s "" b).
  - cbn [contains]. intro C. apply orb_true_iff in C.
    change (String c a ++ b)%string with (String c (a ++ b)). cbn [contains].
    apply orb_true_iff. destruct C as [P|C].
    + left. now apply (prefix_app s (String c a) b).
    + right. now apply IH.
Qed.

Lemma contains_app_l (s a b : string) : contains s b = true -> contains s (a ++ b) = true.
Proof.
  intro C. induction a as [|c a IH]; [exact C|].
  change (String c a ++ b)%string with (String c (a ++ b)). cbn [contains].
  rewrite IH. apply orb_true_r.
Qed.

Lemma contains_join (separator s : string) (parts : list string) :
  In s parts -> contains s (join separator parts) = true.
Proof.
  unfold join. induction parts as [|x [|y parts] IH]; cbn [String.concat].
  - intros [].
  - intros [->|[]]. apply contains_of_prefix, prefix_refl.
  - intros [->|M].
    + apply contains_app_r, contains_of_prefix, prefix_refl.
    + apply contains_app_l, contains_app_l. now apply IH.
Qed.

Lemma prefix_join (separator first : string) (parts : list string) :
  prefix first (join separator (first :: parts)) = true.
Proof.
  unfold join. destruct parts; cbn [String.concat].
  - apply prefix_refl.
  - apply prefix_app, prefix_refl.
Qed.

Section Narrative.
Context {builtins : StrBuiltins}.

(** The narrative of [_generate_final_synthesis] starts with the
    template's name in its header, and for every stage with
    ['success': True] it has the stage's heading and, when the stage has
    one, its summary. *)
Theorem narrative_shows_successes
    (stages : dict StageName StageResult) (workflow_ : Template) :
  prefix ("## 🎯 " ++ name workflow_)
         (EnhancedWorkflows._generate_final_synthesis stages workflow_) = true /\
  forall stage_name stage_result,
    In (stage_name, stage_result) stages ->
    get_success stage_result = true ->
    contains ("### 🔍 " ++ str_title (str_replace "_" " " (stage_str stage_name)))
             (EnhancedWorkflows._generate_final_synthesis stages workflow_) = true /\
    forall summary,
      get_summary_field stage_result = Some summary ->
      contains summary (EnhancedWorkflows._generate_final_synthesis stages workflow_) = true.
Proof.
  unfold EnhancedWorkflows._generate_final_synthesis. split; [apply prefix_join|].
  intros stage_name stage_result M S.
  match goal with
  | |- contains _ (join nl (?header ++ flat_map ?section stages)) = true /\ _ =>
      assert (Section_ : forall line, In line (section (stage_name, stage_result)) ->
                                    In line (header ++ flat_map section stages))
  end.
  { intros line L. apply in_or_app. right. apply in_flat_map.
    exists (stage_name, stage_result). split; [exact M | exact L]. }
  split.
  - apply contains_join, Section_. cbn. rewrite S. now left.
  - intros summary G. apply contains_join, Section_. cbn. rewrite S, G.
    right. right. now left.
Qed.

End Narrative.

(** ** Suggested workflows *)

Section SortingRationals.
Context {A : Type} (key : A -> Q).

Lemma insert_descending_q_perm (x : A) (sorted : list A) :
  Permutation (x :: sorted) (insert_descending_q key x sorted).
Proof.
  induction sorted as [|y rest IH]; cbn.
  - apply Permutation_refl.
  - destruct (negb (Qle_bool (key y) (key x))).
    + eapply perm_trans; [apply perm_swap|]. now apply perm_skip.
    + apply Permutation_refl.
Qed.

Lemma sort_reverse_q_perm (xs : list A) : Permutation xs (sort_reverse_q key xs).
Proof.
  induction xs as [|x xs IH]; cbn.
  - apply perm_nil.
  - eapply perm_trans; [|apply insert_descending_q_perm]. now apply perm_skip.
Qed.

Lemma insert_descending_q_sorted (x : A) (sorted : list A) :
  descending_q key sorted -> descending_q key (insert_descending_q key x sorted).
Proof.
  unfold descending_q. induction 1 as [|y rest Sorted IH Below]; cbn.
  - constructor; constructor.
  - destruct (Qle_bool (key y) (key x)) eqn:C; cbn [negb].
    + apply Qle_bool_iff in C. constructor; [now constructor|].
      constructor; [exact C|].
      rewrite Forall_forall in *. intros z Z. specialize (Below z Z).
      eapply Qle_trans; eassumption.
    + assert (L : (key x < key y)%Q).
      { apply Qnot_le_lt. intro L. apply Qle_bool_iff in L. congruence. }
      constructor; [exact IH|].
      rewrite Forall_forall in *. intros z Z.
      apply (Permutation_in _ (Permutation_sym (insert_descending_q_perm x rest))) in Z.
      destruct Z as [<-|Z]; [now apply Qlt_le_weak | now apply Below].
Qed.

Lemma sort_reverse_q_sorted (xs : list A) : descending_q key (sort_reverse_q key xs).
Proof.
  induction xs as [|x xs IH]; cbn.
  - constructor.
  - now apply insert_descending_q_sorted.
Qed.

End SortingRationals.

Lemma Forall2_member_r {A B : Type} (R : A -> B -> Prop) (xs : list A) (ys : list B) (y : B) :
  Forall2 R xs ys -> In y ys -> exists x, In x xs /\ R x y.
Proof.
  induction 1 as [|x0 y0 xs ys R0 _ IH]; intros M; [destruct M|].
  destruct M as [<-|M].
  - exists x0. split; [now left | exact R0].
  - destruct (IH M) as (x & I & Rx). exists x. split; [now right | exact Rx].
Qed.

Lemma Forall2_member_l {A B : Type} (R : A -> B -> Prop) (xs : list A) (ys : list B) (x : A) :
  Forall2 R xs ys -> In x xs -> exists y, In y ys /\ R x y.
Proof.
  induction 1 as [|x0 y0 xs ys R0 _ IH]; intros M; [destruct M|].
  destruct M as [<-|M].
  - exists y0. split; [now left | exact R0].
  - destruct (IH M) as (y & I & Ry). exists y. split; [now right | exact Ry].
Qed.

Lemma in_list_In (x : string) (xs : list string) : in_list x xs = true <-> In x xs.
Proof.
  unfold in_list. rewrite existsb_exists. split.
  - intros (y & I & E). apply String.eqb_eq in E. now subst.
  - intro I. exists x. split; [exact I | apply String.eqb_refl].
Qed.

Lemma hashed_strings_of_strings (strings : list string) :
  MasterAgent.hashed_strings (map PyStr strings) = Returned strings.
Proof.
  induction strings as [|s strings IH]; cbn; [reflexivity|]. now rewrite IH.
Qed.

Lemma nodup_length_le (xs : list string) : length (nodup string_dec xs) <= length xs.
Proof.
  induction xs as [|x xs IH]; cbn; [lia|].
  destruct (in_dec string_dec x xs); cbn; lia.
Qed.

Lemma nodup_nonempty (x : string) (xs : list string) :
  In x xs -> 0 < length (nodup string_dec xs).
Proof.
  intro M. apply (nodup_In string_dec) in M.
  destruct (nodup string_dec xs); [destruct M | cbn; lia].
Qed.

Section Suggestions.
Context {builtins : StrBuiltins}.

(** What the loop of [get_workflow_suggestions] reads in the analysis. *)
Lemma is_workflow_appropriate_of (workflow_ : Template) (analysis : dict string PyVal)
    (required : list string) :
  dict_get "required_capabilities" analysis = Some (PyList (map PyStr required)) ->
  MasterAgent._is_workflow_appropriate workflow_ analysis
  = Returned (existsb (fun agent => in_list agent (template_agents workflow_)) required).
Proof.
  intro R. unfold MasterAgent._is_workflow_appropriate, item. rewrite R. cbn [obind elements].
  clear R. f_equal. induction required as [|agent required IH]; [reflexivity|].
  cbn [map existsb value_in]. now rewrite IH.
Qed.

Lemma workflow_confidence_of (workflow_ : Template) (analysis : dict string PyVal)
    (required : list string) :
  dict_get "required_capabilities" analysis = Some (PyList (map PyStr required)) ->
  existsb (fun agent => in_list agent (template_agents workflow_)) required = true ->
  exists confidence_,
    MasterAgent._calculate_workflow_confidence workflow_ analysis = Returned confidence_ /\
    (0 < confidence_)%Q /\ (confidence_ <= 1)%Q.
Proof.
  intros R Shared. unfold MasterAgent._calculate_workflow_confidence, item. rewrite R.
  cbn [obind elements]. rewrite hashed_strings_of_strings. cbn [obind].
  rewrite length_map.
  apply existsb_exists in Shared. destruct Shared as (agent & M & I).
  set (shared := filter (fun agent => in_list agent (template_agents workflow_)) required).
  assert (Pos : 0 < length (nodup string_dec shared)).
  { apply (nodup_nonempty agent). apply filter_In. now split. }
  assert (Le : length (nodup string_dec shared) <= length required).
  { eapply Nat.le_trans; [apply nodup_length_le | apply filter_length_le]. }
  destruct (length required =? 0) eqn:Z; [apply Nat.eqb_eq in Z; lia|].
  apply Nat.eqb_neq in Z.
  eexists. split; [reflexivity|].
  unfold Qlt, Qle. cbn [Qnum Qden].
  rewrite <- (Znat.positive_nat_Z (Pos.of_nat (length required))), Nat2Pos.id by exact Z.
  lia.
Qed.

Lemma collect_suggestions_of (self : MasterAgentObj) (analysis : dict string PyVal)
    (required : list string) :
  dict_get "required_capabilities" analysis = Some (PyList (map PyStr required)) ->
  (forall id template aid,
      In (id, template) (ma_workflow_templates self) ->
      In aid (template_agents template) ->
      dict_has aid (agent_capabilities self) = true) ->
  exists suggestions,
    MasterAgent.collect_suggestions self analysis = Returned suggestions /\
    Forall2 (fun entry suggestion =>
               suggestion_id suggestion = fst entry /\
               suggestion_name suggestion = name (snd entry) /\
               suggestion_description suggestion = description (snd entry) /\
               length (suggestion_agents suggestion) = length (template_agents (snd entry)) /\
               (0 < confidence suggestion)%Q /\ (confidence suggestion <= 1)%Q)
            (filter (fun entry =>
                       existsb (fun agent => in_list agent (template_agents (snd entry)))
                               required)
                    (ma_workflow_templates self))
            suggestions.
Proof.
  intros R Named. unfold MasterAgent.collect_suggestions.
  match goal with
  | |- exists suggestions, ofold ?body _ _ = _ /\ Forall2 ?made (filter ?fits _) _ =>
      enough (Loop : forall templates collected,
                 (forall id template aid,
                     In (id, template) templates -> In aid (template_agents template) ->
                     dict_has aid (agent_capabilities self) = true) ->
                 exists added,
                   ofold body templates collected = Returned (collected ++ added) /\
                   Forall2 made (filter fits templates) added)
  end.
  { destruct (Loop (ma_workflow_templates self) [] Named) as (added & Run & Made).
    exists added. split; [exact Run | exact Made]. }
  induction templates as [|[workflow_id workflow_] templates IH]; intros collected Known.
  - exists []. split; [cbn; now rewrite app_nil_r | constructor].
  - cbn [ofold filter snd]. rewrite (is_workflow_appropriate_of _ _ _ R). cbn [obind].
    assert (Rest : forall id template aid,
               In (id, template) templates -> In aid (template_agents template) ->
               dict_has aid (agent_capabilities self) = true).
    { intros id template aid M. apply (Known id). now right. }
    destruct (existsb _ required) eqn:Fits.
    + destruct (omap_returns
                  (fun aid => (capability <- item (agent_capabilities self) aid ;;
                               Returned (cap_name capability))%outcome)
                  (template_agents workflow_)) as (names & Names & Length).
      { intros aid M. unfold item.
        pose proof (Known workflow_id workflow_ aid (or_introl eq_refl) M) as Has.
        unfold dict_has in Has.
        destruct (dict_get aid (agent_capabilities self)) as [capability|]; [|discriminate].
        now exists (cap_name capability). }
      rewrite Names. cbn [obind].
      destruct (workflow_confidence_of workflow_ analysis required R Fits)
        as (confidence_ & -> & Positive & AtMost). cbn [obind].
      destruct (IH (collected ++ [mkSuggestion workflow_id (name workflow_)
                                               (description workflow_) names confidence_])
                   Rest) as (added & -> & Made).
      eexists. split; [rewrite <- app_assoc; reflexivity|].
      constructor; [|exact Made]. cbn. repeat split; assumption.
    + cbn [obind]. destruct (IH collected Rest) as (added & -> & Made).
      exists added. split; [reflexivity | exact Made].
Qed.

(** For a master agent whose templates name only agents of its
    capability table, [get_workflow_suggestions] returns, prints nothing,
    and its list is in descending order of confidence.  Every suggestion
    is made from a template that shares an agent with the analysis'
    ['required_capabilities'], its confidence is above 0 and at most 1,
    and every such template is suggested. *)
Theorem workflow_suggestions_are_ranked (w : World) (query : string) :
  (forall id template aid,
      In (id, template) (ma_workflow_templates (master_agent w)) ->
      In aid (template_agents template) ->
      dict_has aid (agent_capabilities (master_agent w)) = true) ->
  exists analysis required suggestions,
    MasterAgent._analyze_query query None w = (Returned analysis, w) /\
    dict_get "required_capabilities" analysis = Some (PyList (map PyStr required)) /\
    MasterAgent.get_workflow_suggestions query w = (Returned suggestions, w) /\
    descending_q confidence suggestions /\
    (forall suggestion,
        In suggestion suggestions ->
        (0 < confidence suggestion)%Q /\ (confidence suggestion <= 1)%Q /\
        exists template agent,
          In (suggestion_id suggestion, template) (ma_workflow_templates (master_agent w)) /\
          suggestion_name suggestion = name template /\
          suggestion_description suggestion = description template /\
          length (suggestion_agents suggestion) = length (template_agents template) /\
          In agent required /\ In agent (template_agents template)) /\
    (forall id template agent,
        In (id, template) (ma_workflow_templates (master_agent w)) ->
        In agent required -> In agent (template_agents template) ->
        exists suggestion, In suggestion suggestions /\ suggestion_id suggestion = id).
Proof.
  intro Named.
  set (required := match MasterAgent.capabilities_of (agent_capabilities (master_agent w))
                                                     (str_lower query) with
                   | [] => ["chat"]
                   | _ => MasterAgent.capabilities_of (agent_capabilities (master_agent w))
                                                      (str_lower query)
                   end).
  assert (Analysis : exists analysis,
             MasterAgent._analyze_query query None w = (Returned analysis, w) /\
             dict_get "required_capabilities" analysis = Some (PyList (map PyStr required))).
  { eexists. split; reflexivity. }
  destruct Analysis as (analysis & Analyze & Required).
  destruct (collect_suggestions_of (master_agent w) analysis required Required Named)
    as (collected & Collect & Made).
  exists analysis, required, (sort_reverse_q confidence collected).
  split; [exact Analyze|]. split; [exact Required|]. split.
  { unfold MasterAgent.get_workflow_suggestions, bind. rewrite Analyze.
    unfold self_master_agent, lift, ret. now rewrite Collect. }
  split; [apply sort_reverse_q_sorted|]. split.
  - intros suggestion M.
    apply (Permutation_in _ (Permutation_sym (sort_reverse_q_perm confidence collected))) in M.
    destruct (Forall2_member_r _ _ _ _ Made M)
      as ([id template] & Fits & Id & Name & Description & Agents & Positive & AtMost).
    apply filter_In in Fits. destruct Fits as (Registered & Shared).
    apply existsb_exists in Shared. destruct Shared as (agent & Needed & Listed).
    apply in_list_In in Listed. cbn [fst snd] in *.
    split; [exact Positive|]. split; [exact AtMost|].
    exists template, agent. rewrite Id. repeat split; assumption.
  - intros id template agent Registered Needed Listed.
    assert (Fits : In (id, template)
                      (filter (fun entry =>
                                 existsb (fun agent => in_list agent (template_agents (snd entry)))
                                         required)
                              (ma_workflow_templates (master_agent w)))).
    { apply filter_In. split; [exact Registered|]. apply existsb_exists.
      exists agent. split; [exact Needed | now apply in_list_In]. }
    destruct (Forall2_member_l _ _ _ _ Made Fits) as (suggestion & M & Id & _).
    exists suggestion. split; [|exact Id].
    now apply (Permutation_in _ (sort_reverse_q_perm confidence collected)).
Qed.

(** A query in which no keyword of any capability occurs requires only
    ['chat']; when no template lists ['chat'] among its agents, as in the
    tables of [__init__], no workflow is suggested. *)
Theorem no_suggestion_without_keyword (w : World) (query : string) :
  MasterAgent.capabilities_of (agent_capabilities (master_agent w)) (str_lower query) = [] ->
  (forall id template,
      In (id, template) (ma_workflow_templates (master_agent w)) ->
      in_list "chat" (template_agents template) = false) ->
  MasterAgent.get_workflow_suggestions query w = (Returned [], w).
Proof.
  intros Nothing Unlisted.
  unfold MasterAgent.get_workflow_suggestions, MasterAgent._analyze_query, bind,
    self_master_agent, lift, ret.
  cbv beta iota. rewrite Nothing.
  match goal with
  | |- context [MasterAgent.collect_suggestions _ ?analysis_result] =>
      set (analysis := analysis_result)
  end.
  assert (Required : dict_get "required_capabilities" analysis
                     = Some (PyList (map PyStr ["chat"]))) by reflexivity.
  enough (Collect : MasterAgent.collect_suggestions (master_agent w) analysis = Returned [])
    by now rewrite Collect.
  clearbody analysis. unfold MasterAgent.collect_suggestions.
  revert Unlisted. generalize (ma_workflow_templates (master_agent w)) as templates.
  induction templates as [|[workflow_id workflow_] templates IH]; intro Unlisted;
    [reflexivity|].
  cbn [ofold]. rewrite (is_workflow_appropriate_of _ _ ["chat"] Required).
  cbn [existsb obind]. rewrite (Unlisted workflow_id workflow_ (or_introl eq_refl)).
  cbn [orb]. apply IH. intros id template M. apply (Unlisted id). now right.
Qed.

End Suggestions.

Lemma workflow_suggestions_are_ranked_witness :
  let w := research_down in
  let query := "estrategia de negocio y datos" in
  (forall id template aid,
      In (id, template) (ma_workflow_templates (master_agent w)) ->
      In aid (template_agents template) ->
      dict_has aid (agent_capabilities (master_agent w)) = true) /\
  exists suggestions,
    MasterAgent.get_workflow_suggestions (builtins := latin1_builtins) query w
    = (Returned suggestions, w) /\
    descending_q confidence suggestions.
Proof.
  intros w query.
  assert (Named : forall id template aid,
             In (id, template) (ma_workflow_templates (master_agent w)) ->
             In aid (template_agents template) ->
             dict_has aid (agent_capabilities (master_agent w)) = true).
  { intros id template aid M A. cbn in M.
    repeat (destruct M as [[= <- <-]|M]; [cbn in A; repeat (destruct A as [<-|A]; [reflexivity|]); destruct A|]).
    destruct M. }
  split; [exact Named|].
  destruct (workflow_suggestions_are_ranked (builtins := latin1_builtins) w query Named)
    as (analysis & required & suggestions & _ & _ & Run & Sorted & _).
  exists suggestions. split; [exact Run | exact Sorted].
Defined.

Lemma no_suggestion_without_keyword_witness :
  let w := research_down in
  let query := "hola" in
  MasterAgent.get_workflow_suggestions (builtins := latin1_builtins) query w = (Returned [], w).
Proof.
  intros w query.
  apply (no_suggestion_without_keyword (builtins := latin1_builtins) w query).
  - vm_compute. reflexivity.
  - intros id template M. cbn in M.
    repeat (destruct M as [[= <- <-]|M]; [reflexivity|]). destruct M.
Defined.

(** ** The classifier's type and the agents it requires *)

Lemma any_in_incl (keywords_ more : list string) (text : string) :
  incl keywords_ more -> any_in keywords_ text = true -> any_in more text = true.
Proof.
  intros Incl Any. unfold any_in in *. apply existsb_exists in Any.
  destruct Any as (keyword & M & C). apply existsb_exists. exists keyword.
  split; [now apply Incl | exact C].
Qed.

Lemma capabilities_of_member (capabilities : dict string Capability) (query_lower : string)
    (agent : string) (capability : Capability) :
  In (agent, capability) capabilities ->
  any_in (keywords capability) query_lower = true ->
  In agent (MasterAgent.capabilities_of capabilities query_lower).
Proof.
  intros M Any. unfold MasterAgent.capabilities_of.
  apply in_map_iff. exists (agent, capability). split; [reflexivity|].
  apply filter_In. split; [exact M | exact Any].
Qed.

Lemma capabilities_of_keys (capabilities : dict string Capability) (query_lower : string) :
  incl (MasterAgent.capabilities_of capabilities query_lower) (dict_keys capabilities).
Proof.
  intros agent M. unfold MasterAgent.capabilities_of in M.
  apply in_map_iff in M. destruct M as ([agent' capability] & <- & F).
  apply filter_In in F. destruct F as (F & _).
  unfold dict_keys. apply in_map_iff. now exists (agent', capability).
Qed.

Section ClassifierFacts.
Context {builtins : StrBuiltins}.

(** With the capability table of [__init__], the query type agrees with
    the required agents: a query classified ['business'] requires
    ['business_advisor'], one classified ['analysis'] requires
    ['data_analysis'], one classified ['research'] requires ['research'];
    the required agents are among the four of the table, and the
    complexity is ['high'], ['medium'] or ['low']. *)
Theorem query_type_names_a_required_agent (w : World) (query : string) (context : Context) :
  agent_capabilities (master_agent w) = MasterAgent.initial_capabilities ->
  exists analysis required complexity query_type,
    MasterAgent._analyze_query query context w = (Returned analysis, w) /\
    dict_get "required_capabilities" analysis = Some (PyList (map PyStr required)) /\
    dict_get "complexity" analysis = Some (PyStr complexity) /\
    dict_get "query_type" analysis = Some (PyStr query_type) /\
    (query_type = "business" -> In "business_advisor" required) /\
    (query_type = "analysis" -> In "data_analysis" required) /\
    (query_type = "research" -> In "research" required) /\
    incl required ["data_analysis"; "business_advisor"; "research"; "chat"] /\
    In complexity ["high"; "medium"; "low"] /\
    In query_type ["business"; "analysis"; "research"; "comprehensive"; "general"].
Proof.
  intro Table.
  unfold MasterAgent._analyze_query, bind, self_master_agent, ret. rewrite Table.
  set (query_lower := str_lower query).
  set (matching := MasterAgent.capabilities_of MasterAgent.initial_capabilities query_lower).
  eexists. exists (match matching with [] => ["chat"] | _ => matching end).
  exists (MasterAgent.complexity_of MasterAgent.complexity_indicators query_lower "low").
  exists (MasterAgent._classify_query_type query_lower).
  split; [reflexivity|]. split; [reflexivity|]. split; [reflexivity|]. split; [reflexivity|].
  assert (Required : forall agent capability keywords_,
             In (agent, capability) MasterAgent.initial_capabilities ->
             incl keywords_ (keywords capability) ->
             any_in keywords_ query_lower = true ->
             In agent (match matching with [] => ["chat"] | _ => matching end)).
  { intros agent capability keywords_ M Incl Any.
    assert (I : In agent matching).
    { apply (capabilities_of_member _ _ _ capability M).
      now apply (any_in_incl keywords_). }
    destruct matching; [destruct I | exact I]. }
  assert (Keys : incl (match matching with [] => ["chat"] | _ => matching end)
                      ["data_analysis"; "business_advisor"; "research"; "chat"]).
  { pose proof (capabilities_of_keys MasterAgent.initial_capabilities query_lower) as Keys.
    fold matching in Keys. destruct matching; [|exact Keys].
    intros agent [<-|[]]. cbn. tauto. }
  assert (Complexity :
            In (MasterAgent.complexity_of MasterAgent.complexity_indicators query_lower "low")
               ["high"; "medium"; "low"]).
  { unfold MasterAgent.complexity_indicators. cbn [MasterAgent.complexity_of].
    repeat (destruct (any_in _ query_lower); [cbn; tauto|]). cbn. tauto. }
  unfold MasterAgent._classify_query_type.
  destruct (any_in ["negocio"; "recomendación"; "estrategia"; "turismo"; "retail"] query_lower)
    eqn:Business.
  { split.
    - intros _. apply (Required "business_advisor" _ _ ltac:(cbn; tauto)) in Business;
        [exact Business|]. intros keyword K. cbn in K |- *. tauto.
    - repeat split; try discriminate; try assumption. cbn. tauto. }
  destruct (any_in ["análisis"; "datos"; "tendencia"; "patrón"; "métrica"] query_lower)
    eqn:Analysis.
  { split; [discriminate|]. split.
    - intros _. apply (Required "data_analysis" _ _ ltac:(cbn; tauto)) in Analysis;
        [exact Analysis|]. intros keyword K. cbn in K |- *. tauto.
    - repeat split; try discriminate; try assumption. cbn. tauto. }
  destruct (any_in ["investigar"; "buscar"; "información"; "contexto"] query_lower)
    eqn:Research.
  { split; [discriminate|]. split; [discriminate|]. split.
    - intros _. apply (Required "research" _ _ ltac:(cbn; tauto)) in Research;
        [exact Research|]. intros keyword K. cbn in K |- *. tauto.
    - repeat split; try assumption. cbn. tauto. }
  destruct (any_in ["completo"; "integral"; "todo"; "todos"] query_lower).
  - repeat split; try discriminate; try assumption. cbn. tauto.
  - repeat split; try discriminate; try assumption. cbn. tauto.
Qed.

End ClassifierFacts.

Lemma query_type_names_a_required_agent_witness :
  let w := research_down in
  agent_capabilities (master_agent w) = MasterAgent.initial_capabilities /\
  exists analysis,
    MasterAgent._analyze_query (builtins := latin1_builtins)
      "estrategia para el turismo" None w = (Returned analysis, w) /\
    dict_get "query_type" analysis = Some (PyStr "business").
Proof.
  intro w. split; [reflexivity|].
  destruct (query_type_names_a_required_agent (builtins := latin1_builtins) w
              "estrategia para el turismo" None eq_refl)
    as (analysis & required & complexity & query_type & Run & _).
  exists analysis. split; [exact Run|].
  vm_compute in Run. injection Run as <-. vm_compute. reflexivity.
Defined.

(** ** Which template the selector picks *)

Section SelectorFacts.
Context {builtins : StrBuiltins}.

(** With the registry of [__init__] the selector returns for every query
    and prints nothing.  The keyword groups are tried in the order
    strategic, market, predictive, holiday, seasonal: a template other
    than the strategic one is returned exactly when one of its keywords
    occurs in the lower-cased query and none of an earlier group does,
    and the strategic one in every other case. *)
Theorem selector_precedence (w : World) (query : string) (context : Context) :
  workflow_templates (enhanced_workflows w) = workflow_templates EnhancedWorkflows.__init__ ->
  let occurs keywords_ := any_in keywords_ (str_lower query) in
  exists template,
    EnhancedWorkflows.get_workflow_for_query query context w = (Returned template, w) /\
    (template = EnhancedWorkflows.market_analysis <->
     occurs EnhancedWorkflows.strategic_keywords = false /\
     occurs EnhancedWorkflows.market_keywords = true) /\
    (template = EnhancedWorkflows.predictive_analysis <->
     occurs EnhancedWorkflows.strategic_keywords = false /\
     occurs EnhancedWorkflows.market_keywords = false /\
     occurs EnhancedWorkflows.predictive_keywords = true) /\
    (template = EnhancedWorkflows.holiday_impact_analysis <->
     occurs EnhancedWorkflows.strategic_keywords = false /\
     occurs EnhancedWorkflows.market_keywords = false /\
     occurs EnhancedWorkflows.predictive_keywords = false /\
     occurs EnhancedWorkflows.holiday_keywords = true) /\
    (template = EnhancedWorkflows.seasonal_analysis <->
     occurs EnhancedWorkflows.strategic_keywords = false /\
     occurs EnhancedWorkflows.market_keywords = false /\
     occurs EnhancedWorkflows.predictive_keywords = false /\
     occurs EnhancedWorkflows.holiday_keywords = false /\
     occurs EnhancedWorkflows.seasonal_keywords = true) /\
    (template = EnhancedWorkflows.strategic_analysis <->
     occurs EnhancedWorkflows.strategic_keywords = true \/
     (occurs EnhancedWorkflows.market_keywords = false /\
      occurs EnhancedWorkflows.predictive_keywords = false /\
      occurs EnhancedWorkflows.holiday_keywords = false /\
      occurs EnhancedWorkflows.seasonal_keywords = false)).
Proof.
  intros Registry occurs. subst occurs. cbv beta.
  unfold EnhancedWorkflows.get_workflow_for_query, bind, self_enhanced_workflows.
  rewrite Registry.
  destruct (any_in EnhancedWorkflows.strategic_keywords _);
    [|destruct (any_in EnhancedWorkflows.market_keywords _);
      [|destruct (any_in EnhancedWorkflows.predictive_keywords _);
        [|destruct (any_in EnhancedWorkflows.holiday_keywords _);
          [|destruct (any_in EnhancedWorkflows.seasonal_keywords _)]]]].
  all: eexists; split; [reflexivity|].
  all: repeat split; try discriminate; try tauto.
  all: try (intros (? & ?); discriminate).
  all: try (intros (? & ? & ?); discriminate).
  all: try (intros (? & ? & ? & ?); discriminate).
  all: try (intros (? & ? & ? & ? & ?); discriminate).
  all: try (intros [?|(? & ? & ? & ?)]; discriminate).
Qed.

End SelectorFacts.

Lemma selector_precedence_witness :
  let w := research_down in
  workflow_templates (enhanced_workflows w) = workflow_templates EnhancedWorkflows.__init__ /\
  EnhancedWorkflows.get_workflow_for_query (builtins := latin1_builtins)
    "plan de mercado" None w = (Returned EnhancedWorkflows.strategic_analysis, w).
Proof.
  intro w. split; [reflexivity|].
  destruct (selector_precedence (builtins := latin1_builtins) w "plan de mercado" None eq_refl)
    as (template & Run & _ & _ & _ & _ & Strategic).
  rewrite Run. f_equal. f_equal. apply Strategic. left. vm_compute. reflexivity.
Defined.

(** ** The integration wrapper *)

Section Integration.
Context {builtins : StrBuiltins}.

(** [SimpleMasterAgentIntegration.process_query] never raises and only
    prints.  With a master agent it returns the master agent's result for
    the same request as it is, success or failure; without one it returns
    its own error dict.  Its [except] branch is never taken: an error
    text starting with ['Error in master agent processing'] is never
    returned.  The text [get_comprehensive_summary] makes of the result is
    the synthesis of a successful result, and the error behind ['❌ Error: ']
    otherwise. *)
Theorem integration_returns_master_result
    (self : IntegrationObj) (w : World) (query : string) (context : Context) :
  str_lower "" = "" ->
  let answer :=
    match agent self with
    | Some _ => FromMaster (final_result w query context)
    | None => WrapperError "Master agent is not available" query
    end in
  computes (SimpleMasterAgentIntegration.process_query self query context) w
           (Returned answer) /\
  SimpleMasterAgentIntegration.get_comprehensive_summary (ArgResult answer)
  = match answer with
    | FromMaster (Success _ _ _ _ synthesis _) => synthesis
    | FromMaster (Failure error _ _) => VStr ("❌ Error: " ++ error)
    | WrapperError error _ => VStr ("❌ Error: " ++ error)
    end.
Proof.
  intros Lower answer. split.
  - unfold SimpleMasterAgentIntegration.process_query.
    eapply computes_try with (o := Returned answer).
    + do 4 (apply computes_seq; intros ? ?).
      match goal with
      | |- computes _ ?w0 _ =>
          assert (X : extends w w0)
            by (repeat (eapply extends_trans; [eassumption|]); apply extends_refl);
          generalize dependent w0
      end.
      intros w0 _ X. subst answer. destruct (agent self) as [[]|].
      * apply computes_seq. intros w1 X1.
        assert (X01 : extends w w1) by (eapply extends_trans; eassumption).
        eapply computes_bind with (o := Returned (final_result w query context)).
        -- destruct (process_query_computes w1 query context Lower) as (w2 & Run & X2).
           exists w2. split; [|exact X2]. rewrite Run. do 2 f_equal.
           unfold final_result, process_outcome.
           now destruct X01 as (-> & -> & -> & _).
        -- intros results w2 [= <-] _. do 2 (apply computes_seq; intros ? ?).
           apply computes_ret.
        -- discriminate.
      * apply computes_seq. intros w1 _. apply computes_ret.
    + intros a [= <-]. reflexivity.
    + discriminate.
  - subst answer. destruct (agent self) as [[]|]; [|reflexivity].
    now destruct (final_result w query context).
Qed.

End Integration.

Lemma integration_returns_master_result_witness :
  let w := research_down in
  let query := "plan de verano" in
  exists w',
    SimpleMasterAgentIntegration.process_query (builtins := latin1_builtins)
      SimpleMasterAgentIntegration.__init__ query None w
    = (Returned (FromMaster (final_result (builtins := latin1_builtins) w query None)), w').
Proof.
  intros w query.
  destruct (integration_returns_master_result (builtins := latin1_builtins)
              SimpleMasterAgentIntegration.__init__ w query None eq_refl)
    as ((w' & Run & _) & _).
  exists w'. exact Run.
Defined.

(** ** The basic synthesis *)

Lemma dict_get_of_key {V : Type} (k : string) (d : dict string V) :
  In k (dict_keys d) -> exists v, dict_get k d = Some v.
Proof.
  induction d as [|[k0 v0] d IH]; cbn; [intros []|].
  intros [->|M].
  - exists v0. now rewrite String.eqb_refl.
  - destruct (String.eqb k0 k); [now exists v0 | now apply IH].
Qed.

Section BasicSynthesis.
Context {builtins : StrBuiltins}.
Variable capabilities : dict string Capability.
Variable query : string.

Lemma basic_sections (results : dict string RunVal) :
  (forall agent_id, In agent_id (dict_keys results) -> dict_has agent_id capabilities = true) ->
  forall parts,
  exists sections,
    ofold (fun parts '(agent_id, result) =>
             if MasterAgent.succeeded result then
               (agent_name_ <-
                  match dict_get agent_id capabilities with
                  | Some capability => Returned (cap_name capability)
                  | None => Raised (KeyError agent_id)
                  end ;;
                Returned (parts ++ [("### 🤖 " ++ agent_name_)%string; "";
                                    MasterAgent.summary_of result; ""]))%outcome
             else Returned parts)
          results parts = Returned sections /\
    incl parts sections /\
    forall agent_id result capability,
      In (agent_id, result) results ->
      MasterAgent.succeeded result = true ->
      dict_get agent_id capabilities = Some capability ->
      In ("### 🤖 " ++ cap_name capability)%string sections /\
      In (MasterAgent.summary_of result) sections.
Proof.
  induction results as [|[agent_id result] results IH]; intros Known parts.
  - exists parts. split; [reflexivity|]. split; [apply incl_refl|]. intros ? ? ? [].
  - assert (Rest : forall agent_id, In agent_id (dict_keys results) ->
                                    dict_has agent_id capabilities = true).
    { intros id M. apply Known. now right. }
    cbn [ofold]. destruct (MasterAgent.succeeded result) eqn:S.
    + pose proof (Known agent_id (or_introl eq_refl)) as Has. unfold dict_has in Has.
      destruct (dict_get agent_id capabilities) as [capability|] eqn:G; [|discriminate].
      cbn [obind].
      destruct (IH Rest (parts ++ [("### 🤖 " ++ cap_name capability)%string; "";
                                   MasterAgent.summary_of result; ""]))
        as (sections & -> & Incl & Shown).
      exists sections. split; [reflexivity|]. split.
      * intros line L. apply Incl, in_or_app. now left.
      * intros id r c [[= <- <-]|M] Sr Gc.
        -- assert (c = capability) as -> by congruence.
           split; apply Incl, in_or_app; right; cbn; tauto.
        -- now apply (Shown id r c).
    + cbn [obind]. destruct (IH Rest parts) as (sections & -> & Incl & Shown).
      exists sections. split; [reflexivity|]. split; [exact Incl|].
      intros id r c [[= <- <-]|M] Sr Gc; [congruence|]. now apply (Shown id r c).
Qed.

(** When every agent of [results] has an entry in the capability table,
    the basic synthesis returns a text that has the query, and for every
    agent either its heading and summary, when its result succeeded, or a
    line with its name and error: no failure is left out. *)
Theorem basic_synthesis_reports_every_agent (results : dict string RunVal) :
  NoDup (dict_keys results) ->
  (forall agent_id, In agent_id (dict_keys results) -> dict_has agent_id capabilities = true) ->
  exists text,
    MasterAgent.basic_synthesis capabilities results query = Returned text /\
    contains ("**Consulta:** " ++ query) text = true /\
    forall agent_id result capability,
      In (agent_id, result) results ->
      dict_get agent_id capabilities = Some capability ->
      if MasterAgent.succeeded result
      then contains ("### 🤖 " ++ cap_name capability) text = true /\
           contains (MasterAgent.summary_of result) text = true
      else contains ("• **" ++ cap_name capability ++ "**: " ++ MasterAgent.error_of result)
                    text = true.
Proof.
  intros Unique Known. unfold MasterAgent.basic_synthesis. cbv zeta.
  set (agent_name := fun agent_id : string =>
                       match dict_get agent_id capabilities with
                       | Some capability => Returned (cap_name capability)
                       | None => Raised (KeyError agent_id)
                       end).
  set (successful_agents := map fst (filter (fun '(_, r) => MasterAgent.succeeded r) results)).
  set (failed_agents :=
         map fst (filter (fun '(_, r) => negb (MasterAgent.succeeded r)) results)).
  assert (Named : forall agent_id, In agent_id (dict_keys results) ->
                                   exists n, agent_name agent_id = Returned n).
  { intros agent_id M. specialize (Known agent_id M). unfold dict_has in Known.
    unfold agent_name. destruct (dict_get agent_id capabilities) as [capability|];
      [now exists (cap_name capability) | discriminate]. }
  assert (Keys : forall (keep : string * RunVal -> bool) agent_id,
             In agent_id (map fst (filter keep results)) -> In agent_id (dict_keys results)).
  { intros keep agent_id M. apply in_map_iff in M. destruct M as (entry & <- & F).
    apply filter_In in F. unfold dict_keys. apply in_map. apply F. }
  (* the agents involved *)
  assert (Involved : exists involved,
             match successful_agents with
             | [] => Returned []
             | _ :: _ =>
                 (names <- omap agent_name successful_agents ;;
                  Returned [("**Agentes involucrados:** " ++ join ", " names)%string; ""])%outcome
             end = Returned involved).
  { destruct (omap_returns agent_name successful_agents) as (names & Names & _).
    { intros agent_id M. apply Named. now apply (Keys _ _ M). }
    rewrite Names. destruct successful_agents; eexists; reflexivity. }
  destruct Involved as (involved & ->). cbn [obind].
  (* the sections of the successes *)
  destruct (basic_sections results Known []) as (sections & Sections & _ & Shown).
  fold agent_name in Sections. rewrite Sections. cbn [obind].
  (* the failures *)
  set (problem := fun agent_id : string =>
                    (agent_name_ <-
                       match dict_get agent_id capabilities with
                       | Some capability => Returned (cap_name capability)
                       | None => Raised (KeyError agent_id)
                       end ;;
                     match dict_get agent_id results with
                     | Some result =>
                         Returned ("• **" ++ agent_name_ ++ "**: "
                                   ++ MasterAgent.error_of result)%string
                     | None => Raised (KeyError agent_id)
                     end)%outcome).
  destruct (omap_returns problem failed_agents) as (lines & Lines & _).
  { intros agent_id M. apply (Keys _ _) in M. unfold problem.
    destruct (Named agent_id M) as (n & N). unfold agent_name in N. rewrite N. cbn [obind].
    destruct (dict_get_of_key agent_id results M) as (result & ->). eexists. reflexivity. }
  assert (Problems : exists problems,
             match failed_agents with
             | [] => Returned []
             | _ :: _ =>
                 (lines <- omap problem failed_agents ;;
                  Returned (["### ⚠️ Agentes con Problemas"; ""] ++ lines ++ [""]))%outcome
             end = Returned problems /\
             incl lines problems).
  { rewrite Lines. destruct failed_agents eqn:F.
    - exists []. split; [reflexivity|]. cbn in Lines. injection Lines as <-. apply incl_refl.
    - eexists. split; [reflexivity|]. intros line L. cbn [obind].
      apply in_or_app. right. apply in_or_app. now left. }
  destruct Problems as (problems & -> & Listed). cbn [obind].
  eexists. split; [reflexivity|]. split.
  { apply contains_join. cbn. tauto. }
  intros agent_id result capability M G.
  destruct (MasterAgent.succeeded result) eqn:S.
  - destruct (Shown agent_id result capability M S G) as (Heading & Summary).
    split; apply contains_join; apply in_or_app; right;
      apply in_or_app; right; apply in_or_app; now left.
  - apply contains_join. apply in_or_app. right. apply in_or_app. right.
    apply in_or_app. right. apply in_or_app. left. apply Listed.
    apply (omap_image problem failed_agents lines agent_id _ Lines).
    + unfold failed_agents. apply in_map_iff. exists (agent_id, result).
      split; [reflexivity|]. apply filter_In. split; [exact M | now rewrite S].
    + unfold problem. rewrite G. cbn [obind].
      now rewrite (dict_get_of_member agent_id result results Unique M).
Qed.

End BasicSynthesis.

Section BasicSynthesisErrors.
Context {builtins : StrBuiltins}.
Variable capabilities : dict string Capability.
Variable query : string.

(** When an agent of [results] has no entry in the capability table, the
    basic synthesis raises the [KeyError] of such an agent and returns no
    text. *)
Theorem basic_synthesis_of_unknown_agent (results : dict string RunVal) (unknown : string) :
  In unknown (dict_keys results) ->
  dict_get unknown capabilities = None ->
  exists agent_id,
    In agent_id (dict_keys results) /\
    dict_get agent_id capabilities = None /\
    MasterAgent.basic_synthesis capabilities results query = Raised (KeyError agent_id).
Proof.
  intros Key Unknown.
  assert (Keys : forall (keep : string * RunVal -> bool) agent_id,
             In agent_id (map fst (filter keep results)) -> In agent_id (dict_keys results)).
  { intros keep agent_id M. apply in_map_iff in M. destruct M as (entry & <- & F).
    apply filter_In in F. unfold dict_keys. apply in_map. apply F. }
  assert (Name : forall agent_id e,
             match dict_get agent_id capabilities with
             | Some capability => Returned (cap_name capability)
             | None => Raised (KeyError agent_id)
             end = Raised e ->
             dict_get agent_id capabilities = None /\ e = KeyError agent_id).
  { intros agent_id e. destruct (dict_get agent_id capabilities); [discriminate|].
    intros [= <-]. now split. }
  unfold MasterAgent.basic_synthesis. cbv zeta.
  set (successful_agents := map fst (filter (fun '(_, r) => MasterAgent.succeeded r) results)).
  set (failed_agents :=
         map fst (filter (fun '(_, r) => negb (MasterAgent.succeeded r)) results)).
  assert (Successful : forall agent_id,
             In agent_id successful_agents -> In agent_id (dict_keys results))
    by apply Keys.
  assert (Failed : forall agent_id, In agent_id failed_agents -> In agent_id (dict_keys results))
    by apply Keys.
  assert (Fails : forall result,
             In (unknown, result) results -> MasterAgent.succeeded result = false ->
             In unknown failed_agents).
  { intros result M S. unfold failed_agents. apply in_map_iff. exists (unknown, result).
    split; [reflexivity|]. apply filter_In. split; [exact M | now rewrite S]. }
  clearbody successful_agents failed_agents. clear Keys.
  (* the agents involved *)
  match goal with
  | |- exists agent_id, _ /\ _ /\ obind ?m _ = _ => destruct m as [involved|e] eqn:Involved
  end; cbn [obind].
  2:{ destruct successful_agents as [|first others]; [discriminate|].
      match type of Involved with
      | obind ?m _ = _ => destruct m as [names|e'] eqn:Names
      end; cbn [obind] in Involved; [discriminate|]. injection Involved as <-.
      apply omap_raised_some in Names. destruct Names as (agent_id & M & R).
      apply Name in R. destruct R as (G & ->).
      exists agent_id. split; [now apply Successful|]. now split. }
  (* the sections of the successes *)
  match goal with
  | |- exists agent_id, _ /\ _ /\ obind ?m _ = _ => destruct m as [sections|e] eqn:Sections
  end; cbn [obind].
  2:{ apply ofold_raised_some in Sections.
      destruct Sections as ([agent_id result] & parts & M & R).
      destruct (MasterAgent.succeeded result); [|discriminate].
      match type of R with
      | obind ?m _ = _ => destruct m as [n|e'] eqn:N
      end; cbn [obind] in R; [discriminate|]. injection R as <-.
      apply Name in N. destruct N as (G & ->).
      exists agent_id. split; [|now split].
      unfold dict_keys. apply in_map_iff. now exists (agent_id, result). }
  (* the failures *)
  match goal with
  | |- exists agent_id, _ /\ _ /\ obind ?m _ = _ => destruct m as [problems|e] eqn:Problems
  end; cbn [obind].
  2:{ destruct failed_agents as [|first others]; [discriminate|].
      match type of Problems with
      | obind ?m _ = _ => destruct m as [lines|e'] eqn:Lines
      end; cbn [obind] in Problems; [discriminate|]. injection Problems as <-.
      apply omap_raised_some in Lines. destruct Lines as (agent_id & M & R).
      apply Failed in M.
      match type of R with
      | obind ?m _ = _ => destruct m as [n|e2] eqn:N
      end; cbn [obind] in R.
      - destruct (dict_get_of_key agent_id results M) as (result & G).
        rewrite G in R. discriminate.
      - injection R as <-. apply Name in N. destruct N as (G & ->).
        exists agent_id. split; [exact M|]. now split. }
  (* no text is returned *)
  exfalso.
  apply in_map_iff in Key. destruct Key as ([agent_id result] & Id & M). cbn in Id. subst agent_id.
  destruct (MasterAgent.succeeded result) eqn:S.
  - destruct (ofold_returned_all _ _ (unknown, result) _ _ Sections M) as (parts & parts' & R).
    cbv beta iota in R. rewrite S, Unknown in R. discriminate.
  - pose proof (Fails result M S) as F.
    destruct failed_agents as [|first others]; [destruct F|].
    match type of Problems with
    | obind ?m _ = _ => destruct m as [lines|e'] eqn:Lines
    end; cbn [obind] in Problems; [|discriminate].
    destruct (omap_returned_all _ _ _ unknown Lines F) as (line & R).
    cbv beta in R. rewrite Unknown in R. discriminate.
Qed.

End BasicSynthesisErrors.

Lemma basic_synthesis_reports_every_agent_witness :
  exists text,
    MasterAgent.basic_synthesis (builtins := latin1_builtins)
      MasterAgent.initial_capabilities research_down_results "plan"
    = Returned text /\
    contains "• **Investigador**: boom" text = true.
Proof.
  assert (Unique : NoDup (dict_keys research_down_results)).
  { cbn. repeat constructor; cbn; intuition discriminate. }
  assert (Known : forall agent_id,
             In agent_id (dict_keys research_down_results) ->
             dict_has agent_id MasterAgent.initial_capabilities = true).
  { intros agent_id M. cbn in M. repeat (destruct M as [<-|M]; [reflexivity|]). destruct M. }
  destruct (basic_synthesis_reports_every_agent (builtins := latin1_builtins)
              MasterAgent.initial_capabilities "plan"
              research_down_results Unique Known) as (text & Run & _ & Each).
  exists text. split; [exact Run|].
  exact (Each "research" (VResult (AgentFailure "boom"))
              (mkCapability "Investigador"
                 "Búsqueda de información externa para complementar insights"
                 ["investigar"; "buscar"; "información"; "contexto"; "fuente"; "estudio";
                  "investigación"]
                 ["investigación externa"; "contexto amplio"; "fuentes múltiples";
                  "validación"])
              (or_intror (or_introl eq_refl)) eq_refl).
Defined.

Lemma basic_synthesis_of_unknown_agent_witness :
  let results :=
    [("data_analysis", VResult (AgentSuccess "datos" no_lists));
     ("d'analyse", VResult (AgentFailure "boom"))] in
  exists agent_id,
    MasterAgent.basic_synthesis (builtins := latin1_builtins)
      MasterAgent.initial_capabilities results "plan"
    = Raised (KeyError (builtins := latin1_builtins) agent_id) /\
    agent_id = "d'analyse" /\
    exn_str (KeyError (builtins := latin1_builtins) agent_id)
    = (double_quote ++ "d'analyse" ++ double_quote)%string.
Proof.
  intro results.
  destruct (basic_synthesis_of_unknown_agent (builtins := latin1_builtins)
              MasterAgent.initial_capabilities "plan" results "d'analyse"
              (or_intror (or_introl eq_refl)) eq_refl)
    as (agent_id & Key & Unknown & Run).
  exists agent_id. split; [exact Run|].
  destruct Key as [<-|[<-|[]]]; [discriminate Unknown|].
  split; reflexivity.
Defined.

(** ** What the consistency score counts *)

Lemma dict_set_fresh {V : Type} (k : StageName) (v : V) (d : dict StageName V) :
  dict_has k d = false -> dict_set k v d = d ++ [(k, v)].
Proof.
  unfold dict_has. induction d as [|[k0 v0] d IH]; cbn; [reflexivity|].
  destruct (stage_eqb k0 k); [discriminate|]. intro Fresh. now rewrite IH.
Qed.

Section ConsistencyScore.
Context {builtins : StrBuiltins}.

(** The insights collected by [_cross_validate_results]: one entry for
    each succeeded stage, in stage order, with what
    [_extract_key_insights] returns for it. *)
Lemma collect_insights_entries (stages : dict StageName StageResult) :
  NoDup (dict_keys stages) ->
  forall insights found,
    (forall stage_name, In stage_name (dict_keys insights) ->
                        ~ In stage_name (dict_keys stages)) ->
    ofold (fun insights '(stage_name, stage_result) =>
             if get_success stage_result then
               (found <- EnhancedWorkflows._extract_key_insights stage_result ;;
                Returned (dict_set stage_name found insights))%outcome
             else Returned insights)
          stages insights = Returned found ->
    exists added,
      found = insights ++ added /\
      Forall2 (fun entry collected =>
                 fst collected = fst entry /\
                 EnhancedWorkflows._extract_key_insights (snd entry)
                 = Returned (snd collected))
              (filter (fun entry => get_success (snd entry)) stages) added.
Proof.
  induction stages as [|[stage_name stage_result] stages IH]; intros Unique insights found Apart;
    cbn [ofold filter snd].
  - intros [= <-]. exists []. split; [now rewrite app_nil_r | constructor].
  - cbn [dict_keys map fst] in Unique, Apart. apply NoDup_cons_iff in Unique.
    destruct Unique as (Fresh & Unique).
    destruct (get_success stage_result); cbn [obind].
    + destruct (EnhancedWorkflows._extract_key_insights stage_result) as [extracted|e]
        eqn:Extracted; cbn [obind]; [|discriminate].
      assert (New : dict_has stage_name insights = false).
      { destruct (dict_has stage_name insights) eqn:Has; [|reflexivity].
        exfalso. rewrite dict_has_keys in Has. apply existsb_exists in Has.
        destruct Has as (k & M & E). apply key_eqb_eq in E. subst k.
        apply (Apart stage_name M). now left. }
      rewrite (dict_set_fresh _ _ _ New). intro Run.
      apply IH in Run; [|exact Unique|].
      * destruct Run as (added & -> & Each).
        exists ((stage_name, extracted) :: added).
        split; [now rewrite <- app_assoc|].
        constructor; [split; [reflexivity | exact Extracted] | exact Each].
      * intros k M. unfold dict_keys in M. rewrite map_app in M.
        apply in_app_or in M. destruct M as [M|[<-|[]]]; [|exact Fresh].
        intro Later. apply (Apart k M). now right.
    + intro Run. apply IH in Run; [exact Run | exact Unique|].
      intros k M Later. apply (Apart k M). now right.
Qed.

(** The consistency score of [_cross_validate_results] counts and reads
    nothing.  The insights it collects are those [_extract_key_insights]
    returns for each succeeded stage, in stage order.  With fewer than
    two succeeded stages the score is 0.0; with two or more it is 1.0
    when these stages have fewer than two insights between them and 0.8
    otherwise, whatever the insights say.  The lists of conflicts,
    agreements and recommendations are always empty. *)
Theorem consistency_score_counts_successes
    (stages : dict StageName StageResult) (result : StageResult) :
  NoDup (dict_keys stages) ->
  EnhancedWorkflows._cross_validate_results stages = Returned result ->
  exists score insights,
    result = Validation score [] [] [] /\
    Forall2 (fun entry collected =>
               fst collected = fst entry /\
               EnhancedWorkflows._extract_key_insights (snd entry)
               = Returned (snd collected))
            (filter (fun entry => get_success (snd entry)) stages) insights /\
    score = (if length (filter (fun entry => get_success (snd entry)) stages) <? 2 then 0
             else if length (concat (map snd insights)) <? 2 then 1
                  else 8 # 10)%Q /\
    (score = 0%Q <-> length (filter (fun entry => get_success (snd entry)) stages) < 2).
Proof.
  intros Unique. unfold EnhancedWorkflows._cross_validate_results.
  destruct (EnhancedWorkflows.collect_insights stages) as [found|e] eqn:Collect;
    cbn [obind]; [|discriminate].
  unfold EnhancedWorkflows.collect_insights in Collect.
  apply (collect_insights_entries stages Unique [] found) in Collect; [|intros k []].
  destruct Collect as (insights & -> & Each). cbn [app].
  pose proof (Forall2_length Each) as Count. rewrite Count.
  destruct (2 <=? length insights) eqn:Two; intros [= <-].
  - apply Nat.leb_le in Two.
    assert (Many : (length insights <? 2) = false) by (apply Nat.ltb_ge; exact Two).
    eexists. exists insights. split; [reflexivity|]. split; [exact Each|].
    rewrite Many. unfold EnhancedWorkflows._calculate_consistency_score. cbv zeta.
    split; [reflexivity|].
    destruct (length (concat (map snd insights)) <? 2);
      (split; [intro Zero; discriminate Zero | lia]).
  - apply Nat.leb_gt in Two.
    assert (Few : (length insights <? 2) = true) by (apply Nat.ltb_lt; exact Two).
    exists 0%Q, insights. split; [reflexivity|]. split; [exact Each|].
    rewrite Few. split; [reflexivity|]. split; [intros _; exact Two | reflexivity].
Qed.

End ConsistencyScore.

(** Two succeeded stages with one insight each score 0.8, two succeeded
    stages with one insight between them 1.0, one succeeded stage 0.0. *)
Lemma consistency_score_counts_successes_witness :
  let two_insights :=
    [(agent_stage data_analysis, AgentSuccess "datos" no_lists);
     (agent_stage research, AgentFailure "boom");
     (agent_stage business_advisor, AgentSuccess "negocio" no_lists)] in
  let one_insight :=
    [(agent_stage data_analysis, AgentSuccess "datos" no_lists);
     (agent_stage business_advisor, AgentSuccess "" no_lists)] in
  let one_success :=
    [(agent_stage data_analysis, AgentSuccess "datos" no_lists);
     (agent_stage research, AgentFailure "boom")] in
  EnhancedWorkflows._cross_validate_results two_insights
  = Returned (Validation (8 # 10) [] [] []) /\
  EnhancedWorkflows._cross_validate_results one_insight
  = Returned (Validation 1 [] [] []) /\
  exists result,
    EnhancedWorkflows._cross_validate_results one_success = Returned result /\
    result = Validation 0 [] [] [].
Proof.
  intros two_insights one_insight one_success.
  split; [reflexivity|]. split; [reflexivity|].
  assert (Unique : NoDup (dict_keys one_success)).
  { cbn. repeat constructor; cbn; intuition discriminate. }
  destruct (EnhancedWorkflows._cross_validate_results one_success) as [result|e] eqn:Run;
    [|vm_compute in Run; discriminate Run].
  exists result. split; [reflexivity|].
  destruct (consistency_score_counts_successes one_success result Unique Run)
    as (score & insights & -> & _ & _ & (_ & Zero)).
  rewrite Zero; [reflexivity | cbn; lia].
Defined.
